(** * ioda: observation ingest through the NetCDF backend, and the ObsSpace store

    A shallow embedding of
      - [NetcdfIO] (constructor, [ReadVar_any], [ReadDateTime], [CheckNcCall]),
      - [ObsSpaceContainer::CreateFromFile] / [ObsSpaceContainer::dump],
      - [ObsSpace::ObsSpace],
      - the segmented store/load helpers of the container test,
    followed by the properties of the specification that concern them. *)

From Stdlib Require Import ZArith List Bool Lia String Ascii.
From Stdlib Require Import Permutation Sorted.
From Stdlib Require Import Floats.SpecFloat.
Import ListNotations.

Local Open Scope string_scope.
Local Open Scope list_scope.
Local Open Scope Z_scope.

(** ** Outcomes of an operation

    A member function either returns, throws to its caller, ends the
    process through the [ABORT] macro, or does what the language leaves
    undefined (a write beyond the end of an array, a division of an
    unsigned integer by zero), after which nothing is known of the
    program. *)

Inductive error : Type :=
| AssertionFailed (msg : string)
| BadAnyCast
| NotFound (msg : string)
| OutOfRange
| ShapeMismatch
| InvalidConfig (msg : string)
| BackendIOError (code : Z) (msg : string).

Inductive outcome (A : Type) : Type :=
| Returned (a : A)
| Raised (e : error)
| Aborted (msg : string)
| Undefined (what : string).

Arguments Returned {A} a.
Arguments Raised {A} e.
Arguments Aborted {A} msg.
Arguments Undefined {A} what.

Definition bind {A B : Type} (m : outcome A) (k : A -> outcome B) : outcome B :=
  match m with
  | Returned a => k a
  | Raised e => Raised e
  | Aborted msg => Aborted msg
  | Undefined what => Undefined what
  end.

Notation "x <- m ;; k" := (bind m (fun x => k))
  (at level 61, m at next level, right associativity).
Notation "m ;;; k" := (bind m (fun _ => k))
  (at level 61, right associativity).

(** [ASSERT(c)] of eckit: throws when the condition is false. *)
Definition ASSERT (c : bool) (msg : string) : outcome unit :=
  if c then Returned tt else Raised (AssertionFailed msg).

(** [ABORT(msg)] of oops: execution stops. *)
Definition ABORT {A : Type} (msg : string) : outcome A := Aborted msg.

(** ** Floating-point values

    [float] is IEEE binary32 and [double] is IEEE binary64, both as
    [spec_float] in canonical form for their format. *)

Module F32.
Definition prec : Z := 24.
Definition emax : Z := 128.
Definition of_dyadic (m e : Z) : spec_float := binary_normalize prec emax m e false.
Definition of_Z (z : Z) : spec_float := of_dyadic z 0.
Definition mul (x y : spec_float) : spec_float := SFmul prec emax x y.
Definition div (x y : spec_float) : spec_float := SFdiv prec emax x y.
(** the float nearest to [n / d] *)
Definition of_ratio (n d : Z) : spec_float := div (of_Z n) (of_Z d).
End F32.

Module F64.
Definition prec : Z := 53.
Definition emax : Z := 1024.
Definition of_dyadic (m e : Z) : spec_float := binary_normalize prec emax m e false.
Definition of_Z (z : Z) : spec_float := of_dyadic z 0.
End F64.

(** Implicit promotion of a [float] to [double] (exact). *)
Definition float_to_double (x : spec_float) : spec_float :=
  match x with
  | S754_finite s m e => binary_normalize F64.prec F64.emax (cond_Zopp s (Zpos m)) e s
  | _ => x
  end.

(** [static_cast<float>(d)] for a [double] d: round to nearest, ties to even. *)
Definition double_to_float (d : spec_float) : spec_float :=
  match d with
  | S754_finite s m e => binary_normalize F32.prec F32.emax (cond_Zopp s (Zpos m)) e s
  | _ => d
  end.

Definition INT_MIN : Z := - 2 ^ 31.
Definition INT_MAX : Z := 2 ^ 31 - 1.

(** The integer part of a finite float, fraction discarded. *)
Definition trunc_finite (s : bool) (m : positive) (e : Z) : Z :=
  let mag := if 0 <=? e then Zpos m * 2 ^ e else Zpos m / 2 ^ (- e) in
  cond_Zopp s mag.

(** [static_cast<int>(x)] for a [float] x.  The conversion discards the
    fraction.  A value that does not fit an [int] (or a NaN) has no defined
    result in C++; the model returns what the x86 conversion instruction
    gives, [INT_MIN]. *)
Definition float_to_int (x : spec_float) : Z :=
  match x with
  | S754_zero _ => 0
  | S754_finite s m e =>
      let z := trunc_finite s m e in
      if (INT_MIN <=? z) && (z <=? INT_MAX) then z else INT_MIN
  | _ => INT_MIN
  end.

(** [static const double missingthreshold = 1.0e08;] *)
Definition missingthreshold : spec_float := F64.of_Z 100000000.

(** [x > missingthreshold] for a [float] x (promoted to [double]). *)
Definition exceeds_threshold (x : spec_float) : bool :=
  SFltb missingthreshold (float_to_double x).


(** ** [boost::any] cells *)

Inductive any : Type :=
| any_empty
| any_int (z : Z)
| any_float (x : spec_float)
| any_double (x : spec_float).

(** ** Date and time (oops [util::DateTime], [util::Duration])

    A [DateTime] holds a Julian day number and the seconds since midnight;
    a [Duration] is a number of seconds.  The calendar conversions are the
    integer formulas of Fliegel and Van Flandern, with C++ division. *)

Record DateTime : Type := mkDateTime { julian_ : Z; seconds_ : Z }.

Definition dateToJulian (year month day : Z) : Z :=
  let m1 := Z.quot (month - 14) 12 in
  let y1 := year + 4800 in
  Z.quot (1461 * (y1 + m1)) 4
  + Z.quot (367 * (month - 2 - 12 * m1)) 12
  - Z.quot (3 * Z.quot (y1 + m1 + 100) 100) 4
  + day - 32075.

Definition julianToDate (julian : Z) : Z * Z * Z :=
  let l := julian + 68569 in
  let n := Z.quot (4 * l) 146097 in
  let l := l - Z.quot (146097 * n + 3) 4 in
  let i := Z.quot (4000 * (l + 1)) 1461001 in
  let l := l - Z.quot (1461 * i) 4 + 31 in
  let j := Z.quot (80 * l) 2447 in
  let day := l - Z.quot (2447 * j) 80 in
  let l := Z.quot j 11 in
  let month := j + 2 - 12 * l in
  let year := 100 * (n - 49) + i + l in
  (year, month, day).

(** Seconds on a continuous axis; the order of [DateTime] is the order of
    this number when [0 <= seconds_ < 86400]. *)
Definition total_seconds (t : DateTime) : Z := julian_ t * 86400 + seconds_ t.

(** [datetime_setints_f(&dt, yyyymmdd, seconds)], for a date of the
    calendar and a time of day. *)
Definition datetime_setints_f (yyyymmdd seconds : Z) : DateTime :=
  let year := Z.quot yyyymmdd 10000 in
  let month := Z.quot (Z.rem yyyymmdd 10000) 100 in
  let day := Z.rem yyyymmdd 100 in
  mkDateTime (dateToJulian year month day) seconds.

(** [dt + util::Duration(secs)]: the time of day is kept in [0, 86400). *)
Definition addSeconds (t : DateTime) (secs : Z) : DateTime :=
  let s := seconds_ t + secs in
  mkDateTime (julian_ t + s / 86400) (s mod 86400).

(** [dt.toYYYYMMDDhhmmss(Year, Month, Day, Hour, Minute, Second)]. *)
Definition toYYYYMMDDhhmmss (t : DateTime) : Z * Z * Z * Z * Z * Z :=
  let '(year, month, day) := julianToDate (julian_ t) in
  let hour := Z.quot (seconds_ t) 3600 in
  let minute := Z.quot (Z.rem (seconds_ t) 3600) 60 in
  let second := Z.rem (seconds_ t) 60 in
  (year, month, day, hour, minute, second).

(** [operator<] and [operator<=] of [util::DateTime]: by day, then by time. *)
Definition dt_ltb (a b : DateTime) : bool :=
  (julian_ a <? julian_ b) || ((julian_ a =? julian_ b) && (seconds_ a <? seconds_ b)).

Definition dt_leb (a b : DateTime) : bool :=
  (julian_ a <? julian_ b) || ((julian_ a =? julian_ b) && (seconds_ a <=? seconds_ b)).

(** The integer date [yyyy*10000 + mm*100 + dd] and time
    [hh*10000 + mm*100 + ss] the constructor stores for a retained index. *)
Definition date_of (t : DateTime) : Z :=
  let '(Year, Month, Day, _, _, _) := toYYYYMMDDhhmmss t in
  Year * 10000 + Month * 100 + Day.

Definition time_of (t : DateTime) : Z :=
  let '(_, _, _, Hour, Minute, Second) := toYYYYMMDDhhmmss t in
  Hour * 10000 + Minute * 100 + Second.

(** ** Distribution of locations over the process elements *)

Record Comm : Type := mkComm { comm_rank : nat; comm_size : nat }.

(** Modelled from the spec: the [Distribution] base class and the body of
    the round-robin policy ([distribution/Distribution.h] and its
    implementation are not among the sources; only the declaration of
    [RoundRobin] is).  A distribution holds the owned global indices in
    ascending order; [erase] removes an index and keeps the order of the
    others; round-robin gives record [k] to rank [k mod R], and without a
    record-group vector each index is its own record. *)
Record Distribution : Type := mkDistribution { indx_ : list nat }.

Definition dist_index (d : Distribution) : list nat := indx_ d.
Definition dist_size (d : Distribution) : nat := List.length (indx_ d).

Fixpoint erase_index (i : nat) (l : list nat) : list nat :=
  match l with
  | [] => []
  | x :: t => if Nat.eqb x i then t else x :: erase_index i t
  end.

Definition erase (i : nat) (d : Distribution) : Distribution :=
  mkDistribution (erase_index i (indx_ d)).

Definition record_of (Groups : option (list nat)) (i : nat) : nat :=
  match Groups with
  | None => i
  | Some g => nth i g i
  end.

Definition roundrobin_distribution (comm : Comm) (Nlocs : nat)
    (Groups : option (list nat)) : Distribution :=
  mkDistribution
    (filter (fun i => Nat.eqb (Nat.modulo (record_of Groups i) (comm_size comm))
                              (comm_rank comm))
            (seq 0 Nlocs)).

(** ** The NetCDF library, as far as the reader and the writer use it *)

Inductive nc_type : Type := NC_CHAR | NC_INT | NC_FLOAT | NC_DOUBLE.

Inductive nc_data : Type :=
| CharData (l : list ascii)
| IntData (l : list Z)
| FloatData (l : list spec_float)
| DoubleData (l : list spec_float).

Record nc_var : Type := mkVar {
  var_name : string;
  var_dimids : list Z;
  var_data : nc_data
}.

Definition var_type (v : nc_var) : nc_type :=
  match var_data v with
  | CharData _ => NC_CHAR
  | IntData _ => NC_INT
  | FloatData _ => NC_FLOAT
  | DoubleData _ => NC_DOUBLE
  end.

(** A dataset: its dimensions (the id of a dimension is its position), the
    global integer attribute [date_time] when there is one, and its
    variables (the id of a variable is its position). *)
Record nc_file : Type := mkFile {
  nc_dims : list (string * nat);
  nc_date_time : option Z;
  nc_vars : list nc_var
}.

Definition NC_NOERR : Z := 0.
Definition NC_EEXIST : Z := -35.
Definition NC_ENAMEINUSE : Z := -42.
Definition NC_ENOTATT : Z := -43.
Definition NC_EBADDIM : Z := -46.
Definition NC_ENOTVAR : Z := -49.
Definition NC_ECHAR : Z := -56.
Definition NC_ERANGE : Z := -60.

(** The result of a library call: the values of its output parameters, or
    an error code with the output parameters untouched. *)
Inductive ncret (A : Type) : Type :=
| NcOk (a : A)
| NcErr (code : Z).

Arguments NcOk {A} a.
Arguments NcErr {A} code.

Definition retcode {A : Type} (r : ncret A) : Z :=
  match r with NcOk _ => NC_NOERR | NcErr c => c end.

Definition output {A : Type} (r : ncret A) (old : A) : A :=
  match r with NcOk a => a | NcErr _ => old end.

Fixpoint find_pos {A : Type} (p : A -> bool) (l : list A) (n : nat) : option nat :=
  match l with
  | [] => None
  | x :: t => if p x then Some n else find_pos p t (S n)
  end.

Definition nc_inq_dimid (f : nc_file) (name : string) : ncret Z :=
  match find_pos (fun d => String.eqb (fst d) name) (nc_dims f) 0 with
  | Some id => NcOk (Z.of_nat id)
  | None => NcErr NC_EBADDIM
  end.

Definition nc_inq_dimlen (f : nc_file) (dimid : Z) : ncret nat :=
  if dimid <? 0 then NcErr NC_EBADDIM
  else match nth_error (nc_dims f) (Z.to_nat dimid) with
       | Some d => NcOk (snd d)
       | None => NcErr NC_EBADDIM
       end.

Definition nc_inq_nvars (f : nc_file) : ncret nat := NcOk (List.length (nc_vars f)).

Definition nc_inq_var (f : nc_file) (varid : nat)
    : ncret (string * nc_type * nat * list Z) :=
  match nth_error (nc_vars f) varid with
  | Some v => NcOk (var_name v, var_type v, List.length (var_dimids v), var_dimids v)
  | None => NcErr NC_ENOTVAR
  end.

Definition nc_inq_varid (f : nc_file) (name : string) : ncret nat :=
  match find_pos (fun v => String.eqb (var_name v) name) (nc_vars f) 0 with
  | Some id => NcOk id
  | None => NcErr NC_ENOTVAR
  end.

Definition nc_inq_vartype (f : nc_file) (varid : nat) : ncret nc_type :=
  match nth_error (nc_vars f) varid with
  | Some v => NcOk (var_type v)
  | None => NcErr NC_ENOTVAR
  end.

Definition nc_inq_vardimid (f : nc_file) (varid : nat) : ncret (list Z) :=
  match nth_error (nc_vars f) varid with
  | Some v => NcOk (var_dimids v)
  | None => NcErr NC_ENOTVAR
  end.

Definition nc_inq_attid_date_time (f : nc_file) : Z :=
  match nc_date_time f with Some _ => NC_NOERR | None => NC_ENOTATT end.

Definition nc_get_att_int_date_time (f : nc_file) : ncret Z :=
  match nc_date_time f with Some v => NcOk v | None => NcErr NC_ENOTATT end.

Definition is_finite (x : spec_float) : bool :=
  match x with S754_finite _ _ _ | S754_zero _ => true | _ => false end.

(** [nc_get_var_int]: the library converts numeric data to [int]. *)
Definition nc_get_var_int (f : nc_file) (varid : nat) : ncret (list Z) :=
  match nth_error (nc_vars f) varid with
  | Some v =>
      match var_data v with
      | IntData l => NcOk l
      | FloatData l | DoubleData l =>
          if forallb (fun x => match x with
                               | S754_zero _ => true
                               | S754_finite s m e =>
                                   let z := trunc_finite s m e in
                                   (INT_MIN <=? z) && (z <=? INT_MAX)
                               | _ => false
                               end) l
          then NcOk (map float_to_int l) else NcErr NC_ERANGE
      | CharData _ => NcErr NC_ECHAR
      end
  | None => NcErr NC_ENOTVAR
  end.

(** [nc_get_var_float]: numeric data are converted to [float]; a value out
    of the range of [float] gives [NC_ERANGE]. *)
Definition nc_get_var_float (f : nc_file) (varid : nat) : ncret (list spec_float) :=
  match nth_error (nc_vars f) varid with
  | Some v =>
      match var_data v with
      | FloatData l => NcOk l
      | IntData l => NcOk (map F32.of_Z l)
      | DoubleData l =>
          if forallb (fun d => implb (is_finite d) (is_finite (double_to_float d))) l
          then NcOk (map double_to_float l) else NcErr NC_ERANGE
      | CharData _ => NcErr NC_ECHAR
      end
  | None => NcErr NC_ENOTVAR
  end.

(** [nc_get_var_double]: numeric data are converted to [double]. *)
Definition nc_get_var_double (f : nc_file) (varid : nat) : ncret (list spec_float) :=
  match nth_error (nc_vars f) varid with
  | Some v =>
      match var_data v with
      | DoubleData l => NcOk l
      | FloatData l => NcOk (map float_to_double l)
      | IntData l => NcOk (map F64.of_Z l)
      | CharData _ => NcErr NC_ECHAR
      end
  | None => NcErr NC_ENOTVAR
  end.

(** [nc_def_dim]: a new dimension at the end; its id is returned. *)
Definition nc_def_dim (f : nc_file) (name : string) (len : nat) : ncret Z * nc_file :=
  match find_pos (fun d => String.eqb (fst d) name) (nc_dims f) 0 with
  | Some _ => (NcErr NC_ENAMEINUSE, f)
  | None => (NcOk (Z.of_nat (List.length (nc_dims f))),
             mkFile (nc_dims f ++ [(name, len)]) (nc_date_time f) (nc_vars f))
  end.

(** [nc_def_var]: a new variable at the end, with no data yet. *)
Definition nc_def_var (f : nc_file) (name : string) (empty : nc_data) (dimids : list Z)
    : ncret nat * nc_file :=
  match find_pos (fun v => String.eqb (var_name v) name) (nc_vars f) 0 with
  | Some _ => (NcErr NC_ENAMEINUSE, f)
  | None => (NcOk (List.length (nc_vars f)),
             mkFile (nc_dims f) (nc_date_time f) (nc_vars f ++ [mkVar name dimids empty]))
  end.

Fixpoint set_nth {A : Type} (n : nat) (x : A) (l : list A) : list A :=
  match l, n with
  | [], _ => []
  | _ :: t, O => x :: t
  | y :: t, S k => y :: set_nth k x t
  end.

(** [nc_put_var_<type>]: replaces the data of the variable (the writer
    puts data of the type with which it has created the variable). *)
Definition nc_put_var (f : nc_file) (varid : nat) (d : nc_data) : Z * nc_file :=
  match nth_error (nc_vars f) varid with
  | Some v => (NC_NOERR,
               mkFile (nc_dims f) (nc_date_time f)
                 (set_nth varid (mkVar (var_name v) (var_dimids v) d) (nc_vars f)))
  | None => (NC_ENOTVAR, f)
  end.

(** What [nc_open] and [nc_create] answer for a path: the file system. *)
Record Backend : Type := mkBackend {
  nc_open : string -> ncret nc_file;
  (** the path and whether an existing file may be overwritten *)
  nc_create : string -> bool -> Z
}.

(** The dataset [nc_create] gives when it succeeds. *)
Definition empty_file : nc_file := mkFile [] None [].

Definition created (rc : Z) : ncret nc_file :=
  if rc =? NC_NOERR then NcOk empty_file else NcErr rc.

(** ** NetcdfIO

    Sizes and counts ([std::size_t]) are natural numbers, ids and return
    codes ([int]) are integers. *)

Record NetcdfIO : Type := mkNetcdfIO {
  fname_ : string;
  fmode_ : string;
  nlocs_ : nat;
  nobs_ : nat;
  nrecs_ : nat;
  nvars_ : nat;
  nfvlen_ : nat;
  ncid_ : nc_file;
  have_nrecs_ : bool;
  have_nobs_ : bool;
  have_nlocs_ : bool;
  have_nvars_ : bool;
  have_nchans_ : bool;
  nrecs_id_ : Z;
  nobs_id_ : Z;
  nlocs_id_ : Z;
  nvars_id_ : Z;
  nchans_id_ : Z;
  dist_ : Distribution;
  vname_group_ : list (string * string);
  date_ : list Z;
  time_ : list Z
}.

(** The values that members and locals hold before anything is assigned to
    them.  The constructor does not initialise them, and a failing library
    call leaves its output parameter as it was. *)
Record Indeterminate : Type := mkIndeterminate {
  u_nfvlen : nat;
  u_nrecs_id : Z;
  u_nobs_id : Z;
  u_nlocs_id : Z;
  u_nvars_id : Z;
  u_nchans_id : Z;
  u_dimid : Z;
  u_vsize : nat;
  u_have_nchans : bool
}.

(** [CheckNcCall]: the message is logged and execution is aborted when the
    return code is not [NC_NOERR]. *)
Definition CheckNcCall (RetCode : Z) (ErrorMsg : string) : outcome unit :=
  if RetCode =? NC_NOERR then Returned tt else ABORT ErrorMsg.

(** The opening of the file, first part of the constructor. *)
Definition open_file (be : Backend) (FileName FileMode : string) : outcome nc_file :=
  r <- (if String.eqb FileMode "r" then Returned (nc_open be FileName)
        else if String.eqb FileMode "w" then Returned (created (nc_create be FileName false))
        else if String.eqb FileMode "W" then Returned (created (nc_create be FileName true))
        else ABORT "Unrecognized file mode for NetcdfIO constructor") ;;
  match r with
  | NcOk f => Returned f
  | NcErr _ => ABORT "Unable to open file"
  end.

(** [vname.substr(0, Spos)] and [vname.substr(Spos+1)] around the first "@". *)
Definition split_name (vname : string) : string * string :=
  match index 0 "@" vname with
  | Some Spos =>
      (substring 0 Spos vname,
       substring (S Spos) (String.length vname - S Spos) vname)
  | None => (vname, "")
  end.

(** [s.find(p) == 0]. *)
Definition starts_with (p s : string) : bool := prefix p s.

(** The entries one variable of the file adds to [vname_group_]. *)
Definition valid_entries (nlocs_id : Z) (name : string) (ndimsp : nat) (dimids : list Z)
    : list (string * string) :=
  if Nat.eqb ndimsp 1 && (hd 0 dimids =? nlocs_id) then
    let (vname, gname) := split_name name in
    (vname, gname)
    :: (if starts_with "time" name then [("date", gname)] else [])
  else [].

(** The walk over the variables of the file. *)
Fixpoint scan_variables (f : nc_file) (nlocs_id : Z) (varids : list nat)
    (acc : list (string * string)) : outcome (list (string * string)) :=
  match varids with
  | [] => Returned acc
  | varid :: rest =>
      let r := nc_inq_var f varid in
      CheckNcCall (retcode r)
        "NetcdfIO::NetcdfIO: Unable to read variable of varid" ;;;
      match r with
      | NcOk (name, _, ndimsp, dimids) =>
          scan_variables f nlocs_id rest (acc ++ valid_entries nlocs_id name ndimsp dimids)
      | NcErr _ => scan_variables f nlocs_id rest acc
      end
  end.

Definition default_DateTime : DateTime := mkDateTime 0 0.

(** The timestamp of one observation: reference time plus the offset, the
    offset in hours times 3600 converted to [int]. *)
Definition offset_seconds (offset : spec_float) : Z :=
  float_to_int (F32.mul offset (F32.of_Z 3600)).

Definition obs_datetime (refdt : DateTime) (offset : spec_float) : DateTime :=
  addSeconds refdt (offset_seconds offset).

Definition reference_datetime (dtvals : Z) : DateTime :=
  datetime_setints_f (Z.quot dtvals 100) (Z.rem dtvals 100 * 3600).

(** [ReadDateTime(util::DateTime VarDateTime[])]; the array of the caller
    has [nfvlen] elements, default constructed.  The loop assigns one
    element for each of the [vsize_] elements of the time variable, so it
    writes beyond the array when the variable has more elements than the
    array. *)
Definition ReadDateTime (u : Indeterminate) (f : nc_file) (nfvlen : nat)
    : outcome (list DateTime) :=
  let a := nc_get_att_int_date_time f in
  CheckNcCall (retcode a) "NetcdfIO::ReadDateTime: Unable to read attribute: date_time" ;;;
  let refdt_ := reference_datetime (output a 0) in
  let v := match nc_inq_varid f "time" with
           | NcOk id => NcOk id
           | NcErr _ => nc_inq_varid f "time@MetaData"
           end in
  CheckNcCall (retcode v)
    "NetcdfIO::ReadDateTime: Unable to find time variable: time OR Obs_Time" ;;;
  let nc_varid := output v 0%nat in
  let dd := nc_inq_vardimid f nc_varid in
  CheckNcCall (retcode dd)
    "NetcdfIO::ReadDateTime: Unable to find dimension of time variable" ;;;
  let dimid_ := hd (u_dimid u) (output dd []) in
  let dl := nc_inq_dimlen f dimid_ in
  CheckNcCall (retcode dl)
    "NetcdfIO::ReadDateTime: Unable to find size of dimension of time variable" ;;;
  let vsize_ := output dl (u_vsize u) in
  let ot := nc_get_var_float f nc_varid in
  CheckNcCall (retcode ot) "NetcdfIO::ReadDateTime: Unable to read time variable: " ;;;
  let OffsetTime := output ot [] in
  if Nat.ltb nfvlen vsize_
  then Undefined "VarDateTime[i] beyond the end of the array"
  else Returned
         (map (fun i => if Nat.ltb i vsize_
                        then obs_datetime refdt_ (nth i OffsetTime (S754_zero false))
                        else default_DateTime)
              (seq 0 nfvlen)).

(** The loop over the owned indices that fills [date_], [time_] and
    [to_be_removed]. *)
Definition in_window (bgn end_ t : DateTime) : bool :=
  dt_ltb bgn t && dt_leb t end_.

(** The test of the loop on one index, and its negation. *)
Definition retained (bgn end_ : DateTime) (datetime : list DateTime) (index : nat) : bool :=
  in_window bgn end_ (nth index datetime default_DateTime).

Definition dropped (bgn end_ : DateTime) (datetime : list DateTime) (index : nat) : bool :=
  negb (retained bgn end_ datetime index).

Fixpoint window_loop (bgn end_ : DateTime) (datetime : list DateTime)
    (indices : list nat) (date time : list Z) (to_be_removed : list nat)
    : list Z * list Z * list nat :=
  match indices with
  | [] => (date, time, to_be_removed)
  | index :: rest =>
      let t := nth index datetime default_DateTime in
      if retained bgn end_ datetime index
      then window_loop bgn end_ datetime rest
             (date ++ [date_of t]) (time ++ [time_of t]) to_be_removed
      else window_loop bgn end_ datetime rest date time (to_be_removed ++ [index])
  end.

Definition erase_all (to_be_removed : list nat) (d : Distribution) : Distribution :=
  fold_left (fun d i => erase i d) to_be_removed d.

(** What the time-window part of the constructor leaves: the filtered
    distribution and the stored dates and times. *)
Record Windowed : Type := mkWindowed {
  w_dist : Distribution;
  w_date : list Z;
  w_time : list Z
}.

(** The time-window part of the constructor. *)
Definition apply_window (u : Indeterminate) (f : nc_file) (nfvlen : nat)
    (bgn end_ : DateTime) (d : Distribution) : outcome Windowed :=
  if nc_inq_attid_date_time f =? NC_NOERR then
    datetime <- ReadDateTime u f nfvlen ;;
    let '(date, time, to_be_removed) :=
      window_loop bgn end_ datetime (dist_index d) [] [] [] in
    let d' := erase_all to_be_removed d in
    ASSERT (Nat.eqb (List.length date) (dist_size d')) "date_.size() == dist_->size()" ;;;
    Returned (mkWindowed d' date time)
  else Returned (mkWindowed d [] []).

(** The dimensions found in the file: the flags and the ids. *)
Record Dims : Type := mkDims {
  d_have_nrecs : bool;
  d_have_nobs : bool;
  d_have_nlocs : bool;
  d_have_nvars : bool;
  d_have_nchans : bool;
  d_nrecs_id : Z;
  d_nobs_id : Z;
  d_nlocs_id : Z;
  d_nvars_id : Z;
  d_nchans_id : Z
}.

Definition inquire_dims (u : Indeterminate) (f : nc_file) : Dims :=
  let r_nrecs := nc_inq_dimid f "nrecs" in
  let r_nobs := nc_inq_dimid f "nobs" in
  let r_nlocs := nc_inq_dimid f "nlocs" in
  let r_nvars := nc_inq_dimid f "nvars" in
  let r_nchans := nc_inq_dimid f "nchans" in
  mkDims (retcode r_nrecs =? NC_NOERR) (retcode r_nobs =? NC_NOERR)
         (retcode r_nlocs =? NC_NOERR) (retcode r_nvars =? NC_NOERR)
         (retcode r_nchans =? NC_NOERR)
         (output r_nrecs (u_nrecs_id u)) (output r_nobs (u_nobs_id u))
         (output r_nlocs (u_nlocs_id u)) (output r_nvars (u_nvars_id u))
         (output r_nchans (u_nchans_id u)).

(** The sizes, for a new file (with [nrecs]) and for an old one. *)
Record Sizes : Type := mkSizes {
  s_nfvlen : nat;
  s_nobs : nat;
  s_nrecs : nat;
  s_nvars : nat
}.

(** The division [nobs_ / nvars_] is of [std::size_t]: it has no result
    when the dimension [nchans] of an old file has length 0. *)
Definition read_sizes (u : Indeterminate) (f : nc_file) (Nlocs Nobs Nrecs Nvars : nat)
    (dm : Dims) : outcome Sizes :=
  if d_have_nrecs dm then
    Returned
      (mkSizes (output (nc_inq_dimlen f (d_nlocs_id dm)) (u_nfvlen u))
               (output (nc_inq_dimlen f (d_nobs_id dm)) Nobs)
               (output (nc_inq_dimlen f (d_nrecs_id dm)) Nrecs)
               (output (nc_inq_dimlen f (d_nvars_id dm)) Nvars))
  else
    let nobs := output (nc_inq_dimlen f (d_nobs_id dm)) Nobs in
    let nvars := if d_have_nchans dm
                 then output (nc_inq_dimlen f (d_nchans_id dm)) Nvars
                 else 1%nat in
    if Nat.eqb nvars 0
    then Undefined "nobs_ / nvars_ with nvars_ equal to 0"
    else Returned (mkSizes (Nat.div nobs nvars) nobs Nlocs nvars).

(** The object at the end of the read branch. *)
Definition read_result (FileName : string) (f : nc_file) (dm : Dims) (sz : Sizes)
    (vname_group : list (string * string)) (w : Windowed) : NetcdfIO :=
  mkNetcdfIO FileName "r" (dist_size (w_dist w)) (s_nobs sz) (s_nrecs sz) (s_nvars sz)
    (s_nfvlen sz) f
    (d_have_nrecs dm) (d_have_nobs dm) (d_have_nlocs dm) (d_have_nvars dm)
    (d_have_nchans dm)
    (d_nrecs_id dm) (d_nobs_id dm) (d_nlocs_id dm) (d_nvars_id dm) (d_nchans_id dm)
    (w_dist w) vname_group (w_date w) (w_time w).

(** The read branch of the constructor. *)
Definition construct_read (u : Indeterminate) (f : nc_file) (FileName : string)
    (bgn end_ : DateTime) (comm : Comm) (Nlocs Nobs Nrecs Nvars : nat)
    : outcome NetcdfIO :=
  let dm := inquire_dims u f in
  sz <- read_sizes u f Nlocs Nobs Nrecs Nvars dm ;;
  let dist := roundrobin_distribution comm (s_nfvlen sz) None in
  let nv := nc_inq_nvars f in
  CheckNcCall (retcode nv) "NetcdfIO::NetcdfIO: Unable to read number of variables" ;;;
  let nvarsp := output nv 0%nat in
  vname_group <- scan_variables f (d_nlocs_id dm) (seq 0 nvarsp) [] ;;
  w <- apply_window u f (s_nfvlen sz) bgn end_ dist ;;
  Returned (read_result FileName f dm sz vname_group w).

(** The write branch of the constructor: the four dimensions are defined. *)
Definition construct_write (u : Indeterminate) (f : nc_file) (FileName FileMode : string)
    (Nlocs Nobs Nrecs Nvars : nat) : NetcdfIO :=
  let '(r_nlocs, f1) := nc_def_dim f "nlocs" Nlocs in
  let '(r_nobs, f2) := nc_def_dim f1 "nobs" Nobs in
  let '(r_nrecs, f3) := nc_def_dim f2 "nrecs" Nrecs in
  let '(r_nvars, f4) := nc_def_dim f3 "nvars" Nvars in
  mkNetcdfIO FileName FileMode Nlocs Nobs Nrecs Nvars (u_nfvlen u) f4
    (retcode r_nrecs =? NC_NOERR) (retcode r_nobs =? NC_NOERR)
    (retcode r_nlocs =? NC_NOERR) (retcode r_nvars =? NC_NOERR) (u_have_nchans u)
    (output r_nrecs (u_nrecs_id u)) (output r_nobs (u_nobs_id u))
    (output r_nlocs (u_nlocs_id u)) (output r_nvars (u_nvars_id u)) (u_nchans_id u)
    (mkDistribution []) [] [] [].

(** [NetcdfIO::NetcdfIO]. *)
Definition NetcdfIO_new (be : Backend) (u : Indeterminate) (FileName FileMode : string)
    (bgn end_ : DateTime) (comm : Comm) (Nlocs Nobs Nrecs Nvars : nat)
    : outcome NetcdfIO :=
  f <- open_file be FileName FileMode ;;
  if String.eqb FileMode "r"
  then construct_read u f FileName bgn end_ comm Nlocs Nobs Nrecs Nvars
  else Returned (construct_write u f FileName FileMode Nlocs Nobs Nrecs Nvars).

Definition nlocs (io : NetcdfIO) : nat := nlocs_ io.
Definition nvars (io : NetcdfIO) : nat := nvars_ io.
Definition varlist (io : NetcdfIO) : list (string * string) := vname_group_ io.

(** The three [ReadVar] overloads. *)
Definition ReadVar_int (io : NetcdfIO) (VarName : string) : outcome (list Z) :=
  let v := nc_inq_varid (ncid_ io) VarName in
  CheckNcCall (retcode v)
    (String.append "NetcdfIO::ReadVar: Netcdf dataset not found: " VarName) ;;;
  let d := nc_get_var_int (ncid_ io) (output v 0%nat) in
  CheckNcCall (retcode d)
    (String.append "NetcdfIO::ReadVar: Unable to read dataset: " VarName) ;;;
  Returned (output d []).

Definition ReadVar_float (io : NetcdfIO) (VarName : string) : outcome (list spec_float) :=
  let v := nc_inq_varid (ncid_ io) VarName in
  CheckNcCall (retcode v)
    (String.append "NetcdfIO::ReadVar: Netcdf dataset not found: " VarName) ;;;
  let d := nc_get_var_float (ncid_ io) (output v 0%nat) in
  CheckNcCall (retcode d)
    (String.append "NetcdfIO::ReadVar: Unable to read dataset: " VarName) ;;;
  Returned (output d []).

Definition ReadVar_double (io : NetcdfIO) (VarName : string) : outcome (list spec_float) :=
  let v := nc_inq_varid (ncid_ io) VarName in
  CheckNcCall (retcode v)
    (String.append "NetcdfIO::ReadVar: Netcdf dataset not found: " VarName) ;;;
  let d := nc_get_var_double (ncid_ io) (output v 0%nat) in
  CheckNcCall (retcode d)
    (String.append "NetcdfIO::ReadVar: Unable to read dataset: " VarName) ;;;
  Returned (output d []).

(** The cells [0 .. size-1] of the caller's array are assigned; the others
    keep what they held. *)
Definition assign_front {A : Type} (written VarData : list A) : list A :=
  written ++ skipn (List.length written) VarData.

(** The value a [float] cell gets: the missing value when the value read is
    above the threshold. *)
Definition substitute_missing (fmiss x : spec_float) : spec_float :=
  if exceeds_threshold x then fmiss else x.

Definition zero_float : spec_float := S754_zero false.

(** [NetcdfIO::ReadVar_any]; [fmiss] is [util::missingValue(fmiss)]. *)
Definition ReadVar_any (fmiss : spec_float) (io : NetcdfIO) (VarName : string)
    (VarData : list any) : outcome (list any) :=
  let owned := dist_index (dist_ io) in
  if starts_with "date" VarName then
    ASSERT (Nat.eqb (List.length (date_ io)) (dist_size (dist_ io)))
      "date_.size() == dist_->size()" ;;;
    Returned (assign_front
                (map (fun ii => any_int (nth ii (date_ io) 0))
                     (seq 0 (dist_size (dist_ io)))) VarData)
  else if starts_with "time" VarName then
    ASSERT (Nat.eqb (List.length (time_ io)) (dist_size (dist_ io)))
      "time_.size() == dist_->size()" ;;;
    Returned (assign_front
                (map (fun ii => any_int (nth ii (time_ io) 0))
                     (seq 0 (dist_size (dist_ io)))) VarData)
  else
    let ErrorMsg := String.append "NetcdfIO::ReadVar_any: Netcdf dataset not found: " VarName in
    let v := nc_inq_varid (ncid_ io) VarName in
    CheckNcCall (retcode v) ErrorMsg ;;;
    let t := nc_inq_vartype (ncid_ io) (output v 0%nat) in
    CheckNcCall (retcode t) ErrorMsg ;;;
    match t with
    | NcOk NC_INT =>
        iData <- ReadVar_int io VarName ;;
        Returned (assign_front (map (fun i => any_int (nth i iData 0)) owned) VarData)
    | NcOk NC_FLOAT =>
        rData <- ReadVar_float io VarName ;;
        Returned (assign_front
                    (map (fun i => any_float (substitute_missing fmiss (nth i rData zero_float)))
                         owned) VarData)
    | NcOk NC_DOUBLE =>
        dData <- ReadVar_double io VarName ;;
        Returned (assign_front
                    (map (fun i => any_float
                                     (substitute_missing fmiss
                                        (double_to_float (nth i dData zero_float))))
                         owned) VarData)
    | _ => Returned VarData
    end.

(** [boost::any_cast<T>] throws when the cell holds another type. *)
Definition any_cast_int (a : any) : outcome Z :=
  match a with any_int z => Returned z | _ => Raised BadAnyCast end.
Definition any_cast_float (a : any) : outcome spec_float :=
  match a with any_float x => Returned x | _ => Raised BadAnyCast end.
Definition any_cast_double (a : any) : outcome spec_float :=
  match a with any_double x => Returned x | _ => Raised BadAnyCast end.

Fixpoint cast_all {A : Type} (cast : any -> outcome A) (l : list any) : outcome (list A) :=
  match l with
  | [] => Returned []
  | a :: t => x <- cast a ;; r <- cast_all cast t ;; Returned (x :: r)
  end.

(** The object with the dataset behind [ncid_] changed by a library call. *)
Definition with_file (io : NetcdfIO) (f : nc_file) : NetcdfIO :=
  mkNetcdfIO (fname_ io) (fmode_ io) (nlocs_ io) (nobs_ io) (nrecs_ io)
    (nvars_ io) (nfvlen_ io) f
    (have_nrecs_ io) (have_nobs_ io) (have_nlocs_ io) (have_nvars_ io)
    (have_nchans_ io)
    (nrecs_id_ io) (nobs_id_ io) (nlocs_id_ io) (nvars_id_ io) (nchans_id_ io)
    (dist_ io) (vname_group_ io) (date_ io) (time_ io).

(** The three [WriteVar] overloads: the variable is created on the [nlocs]
    dimension when the file does not have it, then its data are written. *)
Definition WriteVar (io : NetcdfIO) (VarName : string) (empty d : nc_data)
    : outcome NetcdfIO :=
  let f := ncid_ io in
  created <-
    match nc_inq_varid f VarName with
    | NcOk id => Returned (id, f)
    | NcErr _ =>
        let '(r, f') := nc_def_var f VarName empty [nlocs_id_ io] in
        CheckNcCall (retcode r)
          (String.append "NetcdfIO::WriteVar: Unable to create variable dataset: " VarName) ;;;
        Returned (output r 0%nat, f')
    end ;;
  let '(nc_varid, f1) := created in
  let '(rc, f2) := nc_put_var f1 nc_varid d in
  CheckNcCall rc (String.append "NetcdfIO::WriteVar: Unable to write dataset: " VarName) ;;;
  Returned (with_file io f2).

(** The cells [0 .. nlocs()-1] of the caller's array. *)
Definition cells (io : NetcdfIO) (VarData : list any) : list any :=
  map (fun ii => nth ii VarData any_empty) (seq 0 (nlocs io)).

(** [NetcdfIO::WriteVar_any]: the type of the first cell selects the overload. *)
Definition WriteVar_any (io : NetcdfIO) (VarName : string) (VarData : list any)
    : outcome NetcdfIO :=
  match hd any_empty VarData with
  | any_int _ =>
      iData <- cast_all any_cast_int (cells io VarData) ;;
      WriteVar io VarName (IntData []) (IntData iData)
  | any_float _ =>
      fData <- cast_all any_cast_float (cells io VarData) ;;
      WriteVar io VarName (FloatData []) (FloatData fData)
  | any_double _ =>
      dData <- cast_all any_cast_double (cells io VarData) ;;
      WriteVar io VarName (DoubleData []) (DoubleData dData)
  | any_empty => Returned io
  end.

(** ** ObsSpaceContainer (database/MultiIndexContainer) *)

Module Database.

Record Record_ : Type := mkRecord {
  group : string;
  variable : string;
  mode : string;
  size : nat;
  data : list any
}.

(** The records are kept in the order of their insertion. *)
Record ObsSpaceContainer : Type := mkContainer {
  winbgn_ : DateTime;
  winend_ : DateTime;
  commMPI_ : Comm;
  c_nlocs_ : nat;
  c_nvars_ : nat;
  DataContainer : list Record_
}.

Definition same_key (g v : string) (r : Record_) : bool :=
  String.eqb (group r) g && String.eqb (variable r) v.

Definition has (c : ObsSpaceContainer) (g v : string) : bool :=
  existsb (same_key g v) (DataContainer c).

(** Modelled from the spec: the indices of the multi-index container
    ([database/MultiIndexContainer.h] is not among the sources).  The pair
    (group, variable) is a unique key, so an insertion with a key already
    present changes nothing; the by-variable index iterates in the order
    of the variable names, records with the same name in the order of
    their insertion. *)
Definition insert (r : Record_) (l : list Record_) : list Record_ :=
  if existsb (same_key (group r) (variable r)) l then l else l ++ [r].

Fixpoint insert_sorted (r : Record_) (l : list Record_) : list Record_ :=
  match l with
  | [] => [r]
  | x :: t =>
      if String.ltb (variable r) (variable x) then r :: x :: t
      else x :: insert_sorted r t
  end.

Definition by_variable (l : list Record_) : list Record_ :=
  fold_left (fun acc r => insert_sorted r acc) l [].

(** The name handed to [ReadVar_any] for an entry of the variable list,
    and the group the record is filed under. *)
Definition db_name (vg : string * string) : string :=
  let (variable, group) := vg in
  if Nat.ltb 0 (String.length group)
  then String.append variable (String.append "@" group)
  else variable.

Definition db_group (vg : string * string) : string :=
  if Nat.ltb 0 (String.length (snd vg)) then snd vg else "GroupUndefined".

Fixpoint load_variables (fmiss : spec_float) (fileio : NetcdfIO)
    (vl : list (string * string)) (db : list Record_) : outcome (list Record_) :=
  match vl with
  | [] => Returned db
  | vg :: rest =>
      let vect := repeat any_empty (nlocs fileio) in
      vect' <- ReadVar_any fmiss fileio (db_name vg) vect ;;
      load_variables fmiss fileio rest
        (insert (mkRecord (db_group vg) (fst vg) "r" (nlocs fileio) vect') db)
  end.

(** [ObsSpaceContainer::CreateFromFile]. *)
Definition CreateFromFile (be : Backend) (u : Indeterminate) (fmiss : spec_float)
    (c : ObsSpaceContainer) (filename mode : string) (bgn end_ : DateTime)
    (commMPI : Comm) : outcome ObsSpaceContainer :=
  fileio <- NetcdfIO_new be u filename mode bgn end_ commMPI 0 0 0 0 ;;
  db <- load_variables fmiss fileio (varlist fileio) (DataContainer c) ;;
  Returned (mkContainer (winbgn_ c) (winend_ c) (commMPI_ c)
              (nlocs fileio) (nvars fileio) db).

(** The name [dump] gives a record in the file. *)
Definition file_name_of (r : Record_) : string :=
  String.append (variable r) (String.append "@" (group r)).

Fixpoint write_records (fileio : NetcdfIO) (l : list Record_) : outcome NetcdfIO :=
  match l with
  | [] => Returned fileio
  | r :: rest =>
      fileio' <- WriteVar_any fileio (file_name_of r) (data r) ;;
      write_records fileio' rest
  end.

(** [ObsSpaceContainer::dump]; the result is the writer with the file as
    it is when the loop ends. *)
Definition dump (be : Backend) (u : Indeterminate) (c : ObsSpaceContainer)
    (file_name : string) : outcome NetcdfIO :=
  fileio <- NetcdfIO_new be u file_name "W" (winbgn_ c) (winend_ c) (commMPI_ c)
              (c_nlocs_ c) 0 0 (c_nvars_ c) ;;
  write_records fileio (by_variable (DataContainer c)).

(** The cells [0 .. nlocs-1] of the data hold values of one of the three
    types that [WriteVar_any] writes. *)
Definition same_type (a b : any) : bool :=
  match a, b with
  | any_int _, any_int _ => true
  | any_float _, any_float _ => true
  | any_double _, any_double _ => true
  | _, _ => false
  end.

Definition writable (nlocs : nat) (d : list any) : bool :=
  forallb (same_type (hd any_empty d))
          (hd any_empty d :: map (fun ii => nth ii d any_empty) (seq 0 nlocs)).

(** The name the specification asks for: the bare variable name for the
    group [GroupUndefined]. *)
Definition spec_file_name_of (r : Record_) : string :=
  if String.eqb (group r) "GroupUndefined" then variable r else file_name_of r.

End Database.

(** ** ObsSpace *)

Inductive ObsDomain : Type :=
| Radiance | Radiosonde | SeaIceFraction | StericHeight | SeaIceThickness | Aod.

Record Configuration : Type := mkConfiguration { ObsType : string }.

Record ObsSpace : Type := mkObsSpace {
  obsname_ : string;
  os_winbgn_ : DateTime;
  os_winend_ : DateTime;
  (** the Fortran set-up routine the constructor has called, if any *)
  setup_ : option ObsDomain
}.

(** The chain of comparisons on [obsname_]. *)
Definition obs_domain (obsname : string) : option ObsDomain :=
  if String.eqb obsname "Radiance" then Some Radiance
  else if String.eqb obsname "Radiosonde" then Some Radiosonde
  else if String.eqb obsname "SeaIceFraction" then Some SeaIceFraction
  else if String.eqb obsname "StericHeight" then Some StericHeight
  else if String.eqb obsname "SeaIceThickness" then Some SeaIceThickness
  else if String.eqb obsname "Aod" then Some Aod
  else None.

(** [ObsSpace::ObsSpace]. *)
Definition ObsSpace_new (config : Configuration) (bgn end_ : DateTime) : outcome ObsSpace :=
  let obsname := ObsType config in
  Returned (mkObsSpace obsname bgn end_ (obs_domain obsname)).

(** ** ObsSpaceContainer<VarType> and the segmented store and load of its test *)

Module Core.
Section Container.

Variable VarType : Type.

Record VarRecord : Type := mkVarRecord {
  group : string;
  variable : string;
  shape : list nat;
  data : list VarType
}.

Definition ObsSpaceContainer : Type := list VarRecord.

Definition same_key (g v : string) (r : VarRecord) : bool :=
  String.eqb (group r) g && String.eqb (variable r) v.

Definition lookup (c : ObsSpaceContainer) (g v : string) : option VarRecord :=
  find (same_key g v) c.

Fixpoint modify (g v : string) (f : VarRecord -> VarRecord) (c : ObsSpaceContainer)
    : ObsSpaceContainer :=
  match c with
  | [] => []
  | r :: t => if same_key g v r then f r :: t else r :: modify g v f t
  end.

(** Modelled from the spec: [StoreToDb] and [LoadFromDb] of the container
    ([ioda/core/ObsSpaceContainer.h] is not among the sources; its test
    is).  The first store of a (group, variable) creates the record at
    the end; a later store replaces the data or, with [Append], adds them
    at the end and grows the leading extent by [VarShape[0]], the other
    extents having to match; a load reads [Count] elements from [Start]
    and fails outside the stored data. *)
Definition StoreToDb (GroupName VarName : string) (VarShape : list nat)
    (VarData : list VarType) (Append : bool) (c : ObsSpaceContainer)
    : outcome ObsSpaceContainer :=
  match lookup c GroupName VarName with
  | None => Returned (c ++ [mkVarRecord GroupName VarName VarShape VarData])
  | Some r =>
      if Append then
        if list_eq_dec Nat.eq_dec (tl (shape r)) (tl VarShape) then
          Returned
            (modify GroupName VarName
               (fun r => mkVarRecord (group r) (variable r)
                           ((hd 0%nat (shape r) + hd 0%nat VarShape)%nat :: tl (shape r))
                           (data r ++ VarData)) c)
        else Raised ShapeMismatch
      else
        if list_eq_dec Nat.eq_dec (shape r) VarShape then
          Returned (modify GroupName VarName
                      (fun r => mkVarRecord (group r) (variable r) (shape r) VarData) c)
        else Raised ShapeMismatch
  end.

Definition LoadFromDb (GroupName VarName : string) (VarShape : list nat)
    (Start Count : nat) (c : ObsSpaceContainer) : outcome (list VarType) :=
  match lookup c GroupName VarName with
  | None => Raised (NotFound VarName)
  | Some r =>
      if Nat.leb (Start + Count) (List.length (data r))
      then Returned (firstn Count (skipn Start (data r)))
      else Raised OutOfRange
  end.

(** [VarData.begin() + Start .. VarData.begin() + Start + Count]. *)
Definition segment (VarData : list VarType) (Start Count : nat) : list VarType :=
  firstn Count (skipn Start VarData).

(** [StoreVarSegments] of the test: one appending store per segment. *)
Fixpoint StoreVarSegments (GroupName VarName : string) (VarShape : list nat)
    (VarData : list VarType) (segs : list (nat * nat)) (c : ObsSpaceContainer)
    : outcome ObsSpaceContainer :=
  match segs with
  | [] => Returned c
  | (Start, Count) :: rest =>
      c' <- StoreToDb GroupName VarName VarShape (segment VarData Start Count) true c ;;
      StoreVarSegments GroupName VarName VarShape VarData rest c'
  end.

(** [VarData[Start + j] = VarSegment[j]] for every [j]. *)
Fixpoint copy_at (Start : nat) (VarSegment VarData : list VarType) : list VarType :=
  match VarSegment with
  | [] => VarData
  | x :: t => copy_at (S Start) t (set_nth Start x VarData)
  end.

(** [LoadVarSegments] of the test: one load per segment, copied to its
    place in [VarData]. *)
Fixpoint LoadVarSegments (GroupName VarName : string) (VarShape : list nat)
    (VarData : list VarType) (segs : list (nat * nat)) (c : ObsSpaceContainer)
    : outcome (list VarType) :=
  match segs with
  | [] => Returned VarData
  | (Start, Count) :: rest =>
      VarSegment <- LoadFromDb GroupName VarName VarShape Start Count c ;;
      LoadVarSegments GroupName VarName VarShape (copy_at Start VarSegment VarData) rest c
  end.

(** The starts the test computes from the counts: each segment begins
    where the one before it ends. *)
Fixpoint starts_from (s : nat) (Counts : list nat) : list (nat * nat) :=
  match Counts with
  | [] => []
  | n :: rest => (s, n) :: starts_from (s + n) rest
  end.

(** The data of the segments, one after the other. *)
Definition segment_data (VarData : list VarType) (segs : list (nat * nat))
    : list VarType :=
  List.concat (map (fun sc => segment VarData (fst sc) (snd sc)) segs).

End Container.

Arguments mkVarRecord {VarType} group variable shape data.
Arguments group {VarType} _.
Arguments variable {VarType} _.
Arguments shape {VarType} _.
Arguments data {VarType} _.
Arguments same_key {VarType} g v r.
Arguments lookup {VarType} c g v.
Arguments modify {VarType} g v f c.
Arguments StoreToDb {VarType} GroupName VarName VarShape VarData Append c.
Arguments LoadFromDb {VarType} GroupName VarName VarShape Start Count c.
Arguments segment {VarType} VarData Start Count.
Arguments StoreVarSegments {VarType} GroupName VarName VarShape VarData segs c.
Arguments copy_at {VarType} Start VarSegment VarData.
Arguments LoadVarSegments {VarType} GroupName VarName VarShape VarData segs c.
Arguments segment_data {VarType} VarData segs.

End Core.

(** * Properties *)

(** ** A sample file and reader *)

Module Sample.

Definition fmiss : spec_float := F32.of_dyadic (-16777215) 100.

Definition u0 : Indeterminate := mkIndeterminate 0 0 0 0 0 0 0 0 false.

Definition serve (f : nc_file) : Backend :=
  mkBackend (fun _ => NcOk f) (fun _ _ => NC_NOERR).

Definition no_file : Backend :=
  mkBackend (fun _ => NcErr 2) (fun _ _ => NC_EEXIST).

Definition all_times : DateTime * DateTime :=
  (mkDateTime 0 0, mkDateTime 9999999 0).

Definition one_rank : Comm := mkComm 0 1.

(** A new-format file with one float variable. *)
Definition float_file (raw : list spec_float) : nc_file :=
  mkFile [("nlocs", List.length raw); ("nobs", List.length raw);
          ("nrecs", List.length raw); ("nvars", 1%nat)]
         None
         [mkVar "x@ObsValue" [0] (FloatData raw)].

Definition double_file (raw : list spec_float) : nc_file :=
  mkFile [("nlocs", List.length raw); ("nobs", List.length raw);
          ("nrecs", List.length raw); ("nvars", 1%nat)]
         None
         [mkVar "x@ObsValue" [0] (DoubleData raw)].


Definition raw3 : list spec_float :=
  [F32.of_Z 1; F32.of_Z 1000000000; F32.of_Z (-2)].

Definition float_io : NetcdfIO :=
  mkNetcdfIO "obs.nc" "r" 3 3 3 1 3 (float_file raw3)
    true true true true false 2 1 0 3 0
    (mkDistribution [0; 1; 2]%nat) [("x", "ObsValue")] [] [].

(** The time-filter scenario: reference date 2018041500, offsets
    -0.6, -0.4, 0.0, 0.4 and 0.6 hours. *)
Definition offsets5 : list spec_float :=
  [F32.of_ratio (-6) 10; F32.of_ratio (-4) 10; F32.of_Z 0;
   F32.of_ratio 4 10; F32.of_ratio 6 10].

Definition window_file : nc_file :=
  mkFile [("nlocs", 5%nat); ("nobs", 5%nat); ("nrecs", 5%nat); ("nvars", 1%nat)]
         (Some 2018041500)
         [mkVar "time@MetaData" [0] (FloatData offsets5);
          mkVar "x@ObsValue" [0] (FloatData (map F32.of_Z [10; 11; 12; 13; 14]))].

Definition t2330 : DateTime := datetime_setints_f 20180414 84600.
Definition t0000 : DateTime := datetime_setints_f 20180415 0.
Definition t0030 : DateTime := datetime_setints_f 20180415 1800.

Definition window_io : NetcdfIO :=
  read_result "obs.nc" window_file (inquire_dims u0 window_file)
    (mkSizes 5 5 5 1)
    [("time", "MetaData"); ("date", "MetaData"); ("x", "ObsValue")]
    (mkWindowed (mkDistribution [3%nat]) [20180415] [2400]).


(** The legacy scenario: 20 observations on 4 channels, and a variable
    on the channel dimension. *)
Definition legacy_file : nc_file :=
  mkFile [("nobs", 20%nat); ("nchans", 4%nat)]
         (Some 2018041500)
         [mkVar "time" [0] (FloatData (repeat (F32.of_Z 0) 20));
          mkVar "obs" [0] (FloatData (map F32.of_Z (map Z.of_nat (seq 0 20))));
          mkVar "chaninfo" [1] (FloatData (map F32.of_Z [1; 2; 3; 4]))].

(** A file of the old format (no [nrecs]) that has the dimension [nlocs]:
    five observations with the offsets of the time-filter scenario. *)
Definition legacy_time_file : nc_file :=
  mkFile [("nlocs", 5%nat); ("nobs", 5%nat)]
         (Some 2018041500)
         [mkVar "time@MetaData" [0] (FloatData offsets5);
          mkVar "x@ObsValue" [0] (FloatData (map F32.of_Z [10; 11; 12; 13; 14]))].

(** Its reader for the window from 00:00 to 00:30: the observation at
    00:24:00 is kept. *)
Definition legacy_time_io : NetcdfIO :=
  read_result "obs.nc" legacy_time_file (inquire_dims u0 legacy_time_file)
    (mkSizes 5 5 0 1)
    [("time", "MetaData"); ("date", "MetaData"); ("x", "ObsValue")]
    (mkWindowed (mkDistribution [3%nat]) [20180415] [2400]).

(** The same file without the reference date, and its reader. *)
Definition undated_time_file : nc_file :=
  mkFile [("nlocs", 5%nat); ("nobs", 5%nat)]
         None
         [mkVar "time@MetaData" [0] (FloatData offsets5);
          mkVar "x@ObsValue" [0] (FloatData (map F32.of_Z [10; 11; 12; 13; 14]))].

Definition undated_time_io : NetcdfIO :=
  read_result "obs.nc" undated_time_file (inquire_dims u0 undated_time_file)
    (mkSizes 5 5 0 1)
    [("time", "MetaData"); ("date", "MetaData"); ("x", "ObsValue")]
    (mkWindowed (mkDistribution [0; 1; 2; 3; 4]%nat) [] []).

(** A container with a variable of the group [GroupUndefined]. *)
Definition small_db : Database.ObsSpaceContainer :=
  Database.mkContainer t0000 t0030 one_rank 2 1
    [Database.mkRecord "ObsValue" "t" "r" 2 [any_float (F32.of_Z 1); any_float (F32.of_Z 2)];
     Database.mkRecord "GroupUndefined" "x" "r" 2 [any_int 7; any_int 8];
     Database.mkRecord "MetaData" "lat" "r" 2 [any_float (F32.of_Z 3); any_float (F32.of_Z 4)]].

(** A file with a variable that has no group in its name. *)
Definition bare_file : nc_file :=
  mkFile [("nlocs", 2%nat); ("nobs", 2%nat); ("nrecs", 2%nat); ("nvars", 1%nat)]
         None
         [mkVar "x" [0] (IntData [7; 8]);
          mkVar "t@ObsValue" [0] (FloatData [F32.of_Z 1; F32.of_Z 1000000000])].

Definition empty_db : Database.ObsSpaceContainer :=
  Database.mkContainer t0000 t0030 one_rank 0 0 [].

End Sample.





(** The obs types the constructor of [ObsSpace] compares with. *)
Definition recognized_obs_types : list string :=
  ["Radiance"; "Radiosonde"; "SeaIceFraction"; "StericHeight"; "SeaIceThickness"; "Aod"].

(** The entries a variable of the file contributes to the variable list. *)
Definition entries_of (nlocs_id : Z) (v : nc_var) : list (string * string) :=
  valid_entries nlocs_id (var_name v) (List.length (var_dimids v)) (var_dimids v).

(** The length of the dimension of that name, when the file has one. *)
Definition dim_length (f : nc_file) (name : string) : option nat :=
  option_map snd (find (fun d => String.eqb (fst d) name) (nc_dims f)).

(** ** The other overload of [ReadDateTime]

    [ReadDateTime(uint64_t* VarDate, int* VarTime)]: the same reading of the
    reference date and of the offsets, then for every element of the time
    variable the date [yyyymmdd] and the time [hhmmss] of its timestamp.
    The result is the two arrays of the caller with their first cells
    assigned; an array with fewer cells than the time variable has
    elements is written beyond its end. *)

Definition to_uint64 (z : Z) : Z := z mod 2 ^ 64.

Definition ReadDateTime_ints (u : Indeterminate) (f : nc_file) (VarDate VarTime : list Z)
    : outcome (list Z * list Z) :=
  let a := nc_get_att_int_date_time f in
  CheckNcCall (retcode a) "NetcdfIO::ReadDateTime: Unable to read attribute: date_time" ;;;
  let refdt_ := reference_datetime (output a 0) in
  let v := match nc_inq_varid f "time" with
           | NcOk id => NcOk id
           | NcErr _ => nc_inq_varid f "time@MetaData"
           end in
  CheckNcCall (retcode v)
    "NetcdfIO::ReadDateTime: Unable to find time variable: time OR Obs_Time" ;;;
  let nc_varid := output v 0%nat in
  let dd := nc_inq_vardimid f nc_varid in
  CheckNcCall (retcode dd)
    "NetcdfIO::ReadDateTime: Unable to find dimension of time variable" ;;;
  let dimid_ := hd (u_dimid u) (output dd []) in
  let dl := nc_inq_dimlen f dimid_ in
  CheckNcCall (retcode dl)
    "NetcdfIO::ReadDateTime: Unable to find size of dimension of time variable" ;;;
  let vsize_ := output dl (u_vsize u) in
  let ot := nc_get_var_float f nc_varid in
  CheckNcCall (retcode ot) "NetcdfIO::ReadDateTime: Unable to read time variable: " ;;;
  let OffsetTime := output ot [] in
  let dt_ := map (fun i => obs_datetime refdt_ (nth i OffsetTime (S754_zero false)))
                 (seq 0 vsize_) in
  if Nat.ltb (List.length VarDate) vsize_ || Nat.ltb (List.length VarTime) vsize_
  then Undefined "VarDate[i] or VarTime[i] beyond the end of the array"
  else Returned (assign_front (map (fun t => to_uint64 (date_of t)) dt_) VarDate,
                 assign_front (map time_of dt_) VarTime).

(** What a cell written by [WriteVar_any] is when [ReadVar_any] reads it
    back: an int as it is, a float with the missing value in the place of a
    value above the threshold, a double as such a float. *)
Definition read_back (fmiss : spec_float) (a : any) : any :=
  match a with
  | any_empty => any_empty
  | any_int z => any_int z
  | any_float x => any_float (substitute_missing fmiss x)
  | any_double x => any_float (substitute_missing fmiss (double_to_float x))
  end.

(** ** The other member functions of ObsSpace

    Each one is a chain of comparisons of [obsname_] that ends in a call of
    the Fortran routine of one obs domain; the routines are given by what
    they return. *)

Inductive F90Routine : Type :=
| delete_f90 (d : ObsDomain)
| generate_f90 (d : ObsDomain).

(** [ObsSpace::~ObsSpace]: the routine called, if any. *)
Definition ObsSpace_delete (os : ObsSpace) : option F90Routine :=
  if String.eqb (obsname_ os) "Radiance" then Some (delete_f90 Radiance)
  else if String.eqb (obsname_ os) "Radiosonde" then Some (delete_f90 Radiosonde)
  else if String.eqb (obsname_ os) "SeaIceFraction" then Some (delete_f90 SeaIceFraction)
  else if String.eqb (obsname_ os) "StericHeight" then Some (delete_f90 StericHeight)
  else if String.eqb (obsname_ os) "SeaIceThickness" then Some (delete_f90 SeaIceThickness)
  else if String.eqb (obsname_ os) "Aod" then Some (delete_f90 Aod)
  else None.

(** [ObsSpace::getdb]: [keyData] after the call; [get_f90 d col] is what the
    routine of domain [d] stores in it. *)
Definition getdb (get_f90 : ObsDomain -> string -> Z) (os : ObsSpace) (col : string)
    (keyData : Z) : Z :=
  if String.eqb (obsname_ os) "Radiance" then get_f90 Radiance col
  else if String.eqb (obsname_ os) "Radiosonde" then get_f90 Radiosonde col
  else if String.eqb (obsname_ os) "SeaIceFraction" then get_f90 SeaIceFraction col
  else if String.eqb (obsname_ os) "SeaIceThickness" then get_f90 SeaIceThickness col
  else if String.eqb (obsname_ os) "StericHeight" then get_f90 StericHeight col
  else if String.eqb (obsname_ os) "Aod" then get_f90 Aod col
  else keyData.

(** [ObsSpace::locations]: the key handed to [new Locations]; [keylocs] is
    what the local variable holds before any routine is called. *)
Definition locations (getlocations_f90 : ObsDomain -> DateTime -> DateTime -> Z)
    (os : ObsSpace) (t1 t2 : DateTime) (keylocs : Z) : Z :=
  if String.eqb (obsname_ os) "Radiance" then getlocations_f90 Radiance t1 t2
  else if String.eqb (obsname_ os) "Radiosonde" then getlocations_f90 Radiosonde t1 t2
  else if String.eqb (obsname_ os) "SeaIceFraction" then getlocations_f90 SeaIceFraction t1 t2
  else if String.eqb (obsname_ os) "StericHeight" then getlocations_f90 StericHeight t1 t2
  else if String.eqb (obsname_ os) "SeaIceThickness"
  then getlocations_f90 SeaIceThickness t1 t2
  else if String.eqb (obsname_ os) "Aod" then getlocations_f90 Aod t1 t2
  else keylocs.

(** [ObsSpace::nobs]: [n] is what the local variable holds before any
    routine is called. *)
Definition nobs (nobs_f90 : ObsDomain -> Z) (os : ObsSpace) (n : Z) : Z :=
  if String.eqb (obsname_ os) "Radiance" then nobs_f90 Radiance
  else if String.eqb (obsname_ os) "Radiosonde" then nobs_f90 Radiosonde
  else if String.eqb (obsname_ os) "SeaIceFraction" then nobs_f90 SeaIceFraction
  else if String.eqb (obsname_ os) "StericHeight" then nobs_f90 StericHeight
  else if String.eqb (obsname_ os) "SeaIceThickness" then nobs_f90 SeaIceThickness
  else if String.eqb (obsname_ os) "Aod" then nobs_f90 Aod
  else n.

(** [ObsSpace::generateDistribution]: the routine called, if any. *)
Definition generateDistribution (os : ObsSpace) : option F90Routine :=
  if String.eqb (obsname_ os) "Radiance" then Some (generate_f90 Radiance)
  else if String.eqb (obsname_ os) "Radiosonde" then Some (generate_f90 Radiosonde)
  else if String.eqb (obsname_ os) "SeaIceFraction" then Some (generate_f90 SeaIceFraction)
  else if String.eqb (obsname_ os) "StericHeight" then Some (generate_f90 StericHeight)
  else if String.eqb (obsname_ os) "SeaIceThickness" then Some (generate_f90 SeaIceThickness)
  else if String.eqb (obsname_ os) "Aod" then Some (generate_f90 Aod)
  else None.

(** ** ObsIo::isVarDimByNlocs

    [dims_attached_to_vars_] maps a variable to the list of its dimensions;
    here the names of both.  The element [0] of an empty list of dimensions
    does not exist: the function has no result then. *)

Module ObsIo.

Fixpoint scan_dims (dims_attached_to_vars_ : list (string * list string))
    (varName : string) (isDimByNlocs : bool) : option bool :=
  match dims_attached_to_vars_ with
  | [] => Some isDimByNlocs
  | ivar :: rest =>
      if String.eqb (fst ivar) varName then
        match snd ivar with
        | [] => None
        | d :: _ =>
            scan_dims rest varName (if String.eqb d "nlocs" then true else isDimByNlocs)
        end
      else scan_dims rest varName isDimByNlocs
  end.

Definition isVarDimByNlocs (dims_attached_to_vars_ : list (string * list string))
    (varName : string) : option bool :=
  scan_dims dims_attached_to_vars_ varName false.

End ObsIo.

(** ** [trim] of the ObsDataVector test *)

Definition newline : ascii := "010"%char.

(** [str.find_first_not_of(c)] and [str.find_last_not_of(c)]; [None] is
    [npos]. *)
Fixpoint find_first_not_of (c : ascii) (str : string) : option nat :=
  match str with
  | EmptyString => None
  | String a rest =>
      if Ascii.eqb a c then option_map S (find_first_not_of c rest) else Some 0%nat
  end.

Fixpoint find_last_not_of (c : ascii) (str : string) : option nat :=
  match str with
  | EmptyString => None
  | String a rest =>
      match find_last_not_of c rest with
      | Some k => Some (S k)
      | None => if Ascii.eqb a c then None else Some 0%nat
      end
  end.

(** [trim]: from the first to the last character that is not a newline.
    (When the first search finds a character the second does too.) *)
Definition trim (str : string) : string :=
  match find_first_not_of newline str with
  | None => ""
  | Some strBegin =>
      match find_last_not_of newline str with
      | Some strEnd => substring strBegin (strEnd - strBegin + 1) str
      | None => substring strBegin (String.length str - strBegin) str
      end
  end.

(** A string of newlines only. *)
Fixpoint only_newlines (str : string) : bool :=
  match str with
  | EmptyString => true
  | String a rest => Ascii.eqb a newline && only_newlines rest
  end.

(** ** More sample data *)

(** A file with the reference date and no time variable. *)
Definition no_time_file : nc_file :=
  mkFile [("nlocs", 2%nat); ("nobs", 2%nat); ("nrecs", 2%nat); ("nvars", 1%nat)]
         (Some 2018041500)
         [mkVar "x@ObsValue" [0] (FloatData [F32.of_Z 1; F32.of_Z 2])].

(** Two of three ranks. *)
Definition rank0_of_3 : Comm := mkComm 0 3.
Definition rank1_of_3 : Comm := mkComm 1 3.

(** The time-filter scenario read with the window from 23:30 to 00:30, on
    one rank and on ranks 0 and 1 of 3, and with the window from 00:30
    back to 00:00. *)
Definition window_io_wide : NetcdfIO :=
  read_result "obs.nc" Sample.window_file (inquire_dims Sample.u0 Sample.window_file)
    (mkSizes 5 5 5 1)
    [("time", "MetaData"); ("date", "MetaData"); ("x", "ObsValue")]
    (mkWindowed (mkDistribution [1; 2; 3]%nat)
       [20180414; 20180415; 20180415] [233600; 0; 2400]).

Definition window_io_rank0 : NetcdfIO :=
  read_result "obs.nc" Sample.window_file (inquire_dims Sample.u0 Sample.window_file)
    (mkSizes 5 5 5 1)
    [("time", "MetaData"); ("date", "MetaData"); ("x", "ObsValue")]
    (mkWindowed (mkDistribution [3%nat]) [20180415] [2400]).

Definition window_io_rank1 : NetcdfIO :=
  read_result "obs.nc" Sample.window_file (inquire_dims Sample.u0 Sample.window_file)
    (mkSizes 5 5 5 1)
    [("time", "MetaData"); ("date", "MetaData"); ("x", "ObsValue")]
    (mkWindowed (mkDistribution [1%nat]) [20180414] [233600]).

Definition window_io_empty : NetcdfIO :=
  read_result "obs.nc" Sample.window_file (inquire_dims Sample.u0 Sample.window_file)
    (mkSizes 5 5 5 1)
    [("time", "MetaData"); ("date", "MetaData"); ("x", "ObsValue")]
    (mkWindowed (mkDistribution []) [] []).

(** A file with an int variable that holds a value above the threshold and
    a char variable, and its reader. *)
Definition int_char_file : nc_file :=
  mkFile [("nlocs", 2%nat); ("nobs", 2%nat); ("nrecs", 2%nat); ("nvars", 1%nat)]
         None
         [mkVar "n@MetaData" [0] (IntData [7; 2000000000]);
          mkVar "id@MetaData" [0] (CharData ["a"%char; "b"%char])].

Definition int_char_io : NetcdfIO :=
  mkNetcdfIO "obs.nc" "r" 2 2 2 1 2 int_char_file
    true true true true false 2 1 0 3 0
    (mkDistribution [0; 1]%nat) [("n", "MetaData"); ("id", "MetaData")] [] [].

(** A writer for two locations, with one variable written and with a
    second one written after it. *)
Definition writer2 : NetcdfIO :=
  construct_write Sample.u0 empty_file "out.nc" "W" 2 0 0 1.

Definition writer2_x : NetcdfIO :=
  with_file writer2
    (mkFile (nc_dims (ncid_ writer2)) None
       [mkVar "x@ObsValue" [0] (FloatData [F32.of_Z 1; F32.of_Z 2])]).

Definition writer2_xy : NetcdfIO :=
  with_file writer2
    (mkFile (nc_dims (ncid_ writer2)) None
       [mkVar "x@ObsValue" [0] (FloatData [F32.of_Z 1; F32.of_Z 2]);
        mkVar "y@ObsValue" [0] (IntData [3; 4])]).

(** The part of a string up to its last character that is not a newline. *)
Definition up_to_last (str : string) : string :=
  match find_last_not_of newline str with
  | Some strEnd => substring 0 (strEnd + 1) str
  | None => ""
  end.

Example float_io_constructed :
  NetcdfIO_new (Sample.serve (Sample.float_file Sample.raw3)) Sample.u0 "obs.nc" "r"
    (fst Sample.all_times) (snd Sample.all_times) Sample.one_rank 0 0 0 0
  = Returned Sample.float_io.
Proof. reflexivity. Qed.

Example window_io_constructed :
  NetcdfIO_new (Sample.serve Sample.window_file) Sample.u0 "obs.nc" "r"
    Sample.t0000 Sample.t0030 Sample.one_rank 0 0 0 0
  = Returned Sample.window_io.
Proof. vm_compute. reflexivity. Qed.

(** ** Missing values of float and double variables *)




(** At the threshold itself a value is kept; the next float is replaced. *)
Example threshold_boundary :
  exceeds_threshold (F32.of_Z 100000000) = false
  /\ exceeds_threshold (F32.of_Z 100000008) = true
  /\ exceeds_threshold (S754_infinity false) = true
  /\ exceeds_threshold S754_nan = false.
Proof. repeat split. Qed.

Lemma ReadVar_any_float (fmiss : spec_float) (io : NetcdfIO) (VarName : string)
    (VarData : list any) (id : nat) (v : nc_var) (raw : list spec_float) :
  starts_with "date" VarName = false ->
  starts_with "time" VarName = false ->
  nc_inq_varid (ncid_ io) VarName = NcOk id ->
  nth_error (nc_vars (ncid_ io)) id = Some v ->
  var_data v = FloatData raw ->
  ReadVar_any fmiss io VarName VarData =
  Returned (assign_front
              (map (fun i => any_float (substitute_missing fmiss (nth i raw zero_float)))
                   (dist_index (dist_ io))) VarData).
Proof.
  intros Hd Ht Hid Hv Hraw.
  unfold ReadVar_any. rewrite Hd, Ht, Hid. simpl.
  unfold nc_inq_vartype, var_type. rewrite Hv, Hraw. simpl.
  unfold ReadVar_float. rewrite Hid. simpl.
  unfold nc_get_var_float. rewrite Hv, Hraw. reflexivity.
Qed.

Lemma ReadVar_any_double (fmiss : spec_float) (io : NetcdfIO) (VarName : string)
    (VarData : list any) (id : nat) (v : nc_var) (raw : list spec_float) :
  starts_with "date" VarName = false ->
  starts_with "time" VarName = false ->
  nc_inq_varid (ncid_ io) VarName = NcOk id ->
  nth_error (nc_vars (ncid_ io)) id = Some v ->
  var_data v = DoubleData raw ->
  ReadVar_any fmiss io VarName VarData =
  Returned (assign_front
              (map (fun i => any_float
                               (substitute_missing fmiss
                                  (double_to_float (nth i raw zero_float))))
                   (dist_index (dist_ io))) VarData).
Proof.
  intros Hd Ht Hid Hv Hraw.
  unfold ReadVar_any. rewrite Hd, Ht, Hid. simpl.
  unfold nc_inq_vartype, var_type. rewrite Hv, Hraw. simpl.
  unfold ReadVar_double. rewrite Hid. simpl.
  unfold nc_get_var_double. rewrite Hv, Hraw. reflexivity.
Qed.




(** ** The round-robin distribution *)

Lemma roundrobin_index_In (comm : Comm) (N : nat) (Groups : option (list nat)) (k : nat) :
  In k (dist_index (roundrobin_distribution comm N Groups)) <->
  (k < N)%nat /\ Nat.modulo (record_of Groups k) (comm_size comm) = comm_rank comm.
Proof.
  unfold roundrobin_distribution, dist_index; simpl.
  rewrite filter_In, in_seq, Nat.eqb_eq. lia.
Qed.

Lemma roundrobin_index_NoDup (comm : Comm) (N : nat) (Groups : option (list nat)) :
  NoDup (dist_index (roundrobin_distribution comm N Groups)).
Proof.
  unfold roundrobin_distribution, dist_index; simpl.
  apply NoDup_filter, seq_NoDup.
Qed.

Lemma filter_seq_sorted (p : nat -> bool) (n s : nat) :
  StronglySorted lt (filter p (seq s n)).
Proof.
  revert s. induction n as [| n IH]; intros s; simpl.
  - constructor.
  - destruct (p s).
    + constructor; [apply IH |].
      apply Forall_forall. intros x Hx.
      apply filter_In in Hx. destruct Hx as [Hx _].
      apply in_seq in Hx. lia.
    + apply IH.
Qed.



(** ** The time window *)

Lemma window_loop_spec (bgn end_ : DateTime) (datetime : list DateTime)
    (indices : list nat) (date time : list Z) (rem : list nat) :
  window_loop bgn end_ datetime indices date time rem =
  (date ++ map (fun i => date_of (nth i datetime default_DateTime))
               (filter (retained bgn end_ datetime) indices),
   time ++ map (fun i => time_of (nth i datetime default_DateTime))
               (filter (retained bgn end_ datetime) indices),
   rem ++ filter (dropped bgn end_ datetime) indices).
Proof.
  revert date time rem.
  induction indices as [| i rest IH]; intros date time rem; simpl.
  - now rewrite !app_nil_r.
  - unfold dropped at 1.
    destruct (retained bgn end_ datetime i) eqn:Hi; simpl; rewrite IH.
    + now rewrite <- !app_assoc.
    + now rewrite <- !app_assoc.
Qed.

Lemma erase_index_filter (i : nat) (l : list nat) :
  NoDup l -> erase_index i l = filter (fun x => negb (Nat.eqb x i)) l.
Proof.
  induction 1 as [| x l Hx Hl IH]; simpl; [reflexivity |].
  destruct (Nat.eqb x i) eqn:E; simpl.
  - apply Nat.eqb_eq in E. subst x.
    symmetry. apply forallb_filter_id.
    apply forallb_forall. intros y Hy.
    apply negb_true_iff, Nat.eqb_neq. intros ->. contradiction.
  - now rewrite IH.
Qed.

Lemma filter_filter {A : Type} (p q : A -> bool) (l : list A) :
  filter q (filter p l) = filter (fun x => p x && q x) l.
Proof.
  induction l as [| x l IH]; simpl; [reflexivity |].
  destruct (p x); simpl; [destruct (q x) |]; now rewrite IH.
Qed.

Lemma erase_all_filter (rem : list nat) (d : Distribution) :
  NoDup (indx_ d) ->
  indx_ (erase_all rem d) =
  filter (fun x => negb (existsb (Nat.eqb x) rem)) (indx_ d).
Proof.
  revert d. induction rem as [| i rem IH]; intros d Hd; simpl.
  - symmetry. apply forallb_filter_id. apply forallb_forall. reflexivity.
  - unfold erase_all in *. simpl. rewrite IH.
    + simpl. rewrite erase_index_filter by assumption.
      rewrite filter_filter. apply filter_ext. intros x.
      now rewrite negb_orb.
    + simpl. rewrite erase_index_filter by assumption. now apply NoDup_filter.
Qed.

(** Erasing the dropped indices one by one leaves the retained ones, in
    their order. *)
Lemma erase_dropped (p : nat -> bool) (d : Distribution) :
  NoDup (indx_ d) ->
  indx_ (erase_all (filter (fun i => negb (p i)) (indx_ d)) d) = filter p (indx_ d).
Proof.
  intros Hd. rewrite erase_all_filter by assumption.
  apply filter_ext_in. intros x Hx.
  destruct (p x) eqn:Hp.
  - apply negb_true_iff.
    destruct (existsb _ _) eqn:E; [| reflexivity].
    apply existsb_exists in E. destruct E as (y & Hy & Hxy).
    apply Nat.eqb_eq in Hxy. subst y.
    apply filter_In in Hy. rewrite Hp in Hy. destruct Hy; discriminate.
  - apply negb_false_iff. apply existsb_exists. exists x. split.
    + apply filter_In. now rewrite Hp.
    + apply Nat.eqb_refl.
Qed.

Lemma apply_window_filtered (u : Indeterminate) (f : nc_file) (nfvlen : nat)
    (bgn end_ : DateTime) (d : Distribution) (datetime : list DateTime) :
  NoDup (dist_index d) ->
  nc_date_time f <> None ->
  ReadDateTime u f nfvlen = Returned datetime ->
  apply_window u f nfvlen bgn end_ d =
  Returned
    (mkWindowed
       (erase_all (filter (dropped bgn end_ datetime) (dist_index d)) d)
       (map (fun i => date_of (nth i datetime default_DateTime))
            (filter (retained bgn end_ datetime) (dist_index d)))
       (map (fun i => time_of (nth i datetime default_DateTime))
            (filter (retained bgn end_ datetime) (dist_index d)))).
Proof.
  intros Hd Hat Hrd. unfold apply_window, nc_inq_attid_date_time.
  destruct (nc_date_time f); [| contradiction]. simpl.
  rewrite Hrd. simpl. rewrite window_loop_spec. simpl.
  unfold dist_size, dist_index in *. unfold dropped at 1.
  rewrite (erase_dropped (retained bgn end_ datetime) d Hd).
  rewrite length_map, Nat.eqb_refl. reflexivity.
Qed.

(** ** The constructor in read mode, step by step *)

Lemma bind_Returned {A B : Type} (m : outcome A) (k : A -> outcome B) (b : B) :
  bind m k = Returned b -> exists a, m = Returned a /\ k a = Returned b.
Proof.
  destruct m as [a | e | msg | what]; simpl; intros H; try discriminate.
  exists a. auto.
Qed.

Lemma open_file_read (be : Backend) (FileName : string) (f : nc_file) :
  open_file be FileName "r" = Returned f -> nc_open be FileName = NcOk f.
Proof.
  unfold open_file. simpl.
  destruct (nc_open be FileName) as [f' | c]; simpl; intros H; [| discriminate].
  now inversion H.
Qed.

Lemma scan_variables_spec (nlocs_id : Z) (post pre : list nc_var)
    (dims : list (string * nat)) (dt : option Z) (acc : list (string * string)) :
  scan_variables (mkFile dims dt (pre ++ post)) nlocs_id
    (seq (List.length pre) (List.length post)) acc
  = Returned (acc ++ flat_map (entries_of nlocs_id) post).
Proof.
  revert pre acc. induction post as [| v post IH]; intros pre acc; simpl.
  - now rewrite app_nil_r.
  - unfold nc_inq_var. simpl nc_vars.
    rewrite nth_error_app2 by lia. rewrite Nat.sub_diag. simpl.
    specialize (IH (pre ++ [v]) (acc ++ entries_of nlocs_id v)).
    rewrite <- app_assoc in IH. simpl in IH.
    rewrite length_app in IH. simpl in IH. rewrite Nat.add_1_r in IH.
    unfold entries_of in IH at 1. rewrite IH.
    now rewrite <- app_assoc.
Qed.

Lemma scan_all_variables (f : nc_file) (nlocs_id : Z) :
  scan_variables f nlocs_id (seq 0 (List.length (nc_vars f))) []
  = Returned (flat_map (entries_of nlocs_id) (nc_vars f)).
Proof.
  destruct f as [dims dt vars]. simpl.
  apply (scan_variables_spec nlocs_id vars [] dims dt []).
Qed.

(** What a successful construction in read mode has done. *)
Lemma NetcdfIO_new_read (be : Backend) (u : Indeterminate) (FileName : string)
    (bgn end_ : DateTime) (comm : Comm) (Nlocs Nobs Nrecs Nvars : nat) (io : NetcdfIO) :
  NetcdfIO_new be u FileName "r" bgn end_ comm Nlocs Nobs Nrecs Nvars = Returned io ->
  exists f sz w,
    nc_open be FileName = NcOk f
    /\ read_sizes u f Nlocs Nobs Nrecs Nvars (inquire_dims u f) = Returned sz
    /\ apply_window u f (s_nfvlen sz) bgn end_
         (roundrobin_distribution comm (s_nfvlen sz) None) = Returned w
    /\ io = read_result FileName f (inquire_dims u f) sz
              (flat_map (entries_of (d_nlocs_id (inquire_dims u f))) (nc_vars f)) w.
Proof.
  unfold NetcdfIO_new. intros H.
  apply bind_Returned in H. destruct H as (f & Hopen & H).
  apply open_file_read in Hopen. simpl in H.
  unfold construct_read in H. cbv zeta in H.
  apply bind_Returned in H. destruct H as (sz & Hsz & H).
  simpl in H. rewrite scan_all_variables in H. simpl in H.
  apply bind_Returned in H. destruct H as (w & Hw & H).
  exists f, sz, w. split; [assumption |]. split; [assumption |].
  split; [assumption |]. now inversion H.
Qed.

Lemma apply_window_inv (u : Indeterminate) (f : nc_file) (nfvlen : nat)
    (bgn end_ : DateTime) (d : Distribution) (w : Windowed) :
  NoDup (dist_index d) ->
  nc_date_time f <> None ->
  apply_window u f nfvlen bgn end_ d = Returned w ->
  exists datetime,
    ReadDateTime u f nfvlen = Returned datetime
    /\ w = mkWindowed
             (erase_all (filter (dropped bgn end_ datetime) (dist_index d)) d)
             (map (fun i => date_of (nth i datetime default_DateTime))
                  (filter (retained bgn end_ datetime) (dist_index d)))
             (map (fun i => time_of (nth i datetime default_DateTime))
                  (filter (retained bgn end_ datetime) (dist_index d))).
Proof.
  intros Hd Hat Hw.
  assert (exists datetime, ReadDateTime u f nfvlen = Returned datetime) as [datetime Hrd].
  { unfold apply_window, nc_inq_attid_date_time in Hw.
    destruct (nc_date_time f); [| contradiction]. simpl in Hw.
    apply bind_Returned in Hw. destruct Hw as (datetime & Hrd & _). eauto. }
  exists datetime. split; [assumption |].
  rewrite (apply_window_filtered u f nfvlen bgn end_ d datetime Hd Hat Hrd) in Hw.
  now inversion Hw.
Qed.

(** The construction in read mode returns for every file that opens, for
    which the sizes are defined, and that either has no reference date or
    has a time variable that can be read into the array of timestamps. *)
Lemma NetcdfIO_new_read_total (be : Backend) (u : Indeterminate) (FileName : string)
    (bgn end_ : DateTime) (comm : Comm) (Nlocs Nobs Nrecs Nvars : nat) (f : nc_file)
    (sz : Sizes) :
  nc_open be FileName = NcOk f ->
  read_sizes u f Nlocs Nobs Nrecs Nvars (inquire_dims u f) = Returned sz ->
  (nc_date_time f = None
   \/ exists datetime, ReadDateTime u f (s_nfvlen sz) = Returned datetime) ->
  exists io,
    NetcdfIO_new be u FileName "r" bgn end_ comm Nlocs Nobs Nrecs Nvars = Returned io
    /\ ncid_ io = f.
Proof.
  intros Hopen Hsz Hdt.
  assert (exists w,
             apply_window u f (s_nfvlen sz) bgn end_
               (roundrobin_distribution comm (s_nfvlen sz) None) = Returned w)
    as [w Hw].
  { destruct Hdt as [Hnone | [datetime Hrd]].
    - unfold apply_window, nc_inq_attid_date_time. rewrite Hnone. simpl. eauto.
    - destruct (nc_date_time f) eqn:Hat.
      + eexists. apply apply_window_filtered with (datetime := datetime);
          [apply roundrobin_index_NoDup | congruence | assumption].
      + unfold apply_window, nc_inq_attid_date_time. rewrite Hat. simpl. eauto. }
  unfold NetcdfIO_new, open_file. simpl. rewrite Hopen. simpl.
  unfold construct_read. cbv zeta. rewrite Hsz. simpl.
  rewrite scan_all_variables. simpl.
  rewrite Hw. simpl. eauto.
Qed.

(** The order of two timestamps is the order of their seconds on the
    continuous axis, when their times of day are below 86400 seconds. *)
Lemma dt_ltb_total_seconds (a b : DateTime) :
  0 <= seconds_ a < 86400 -> 0 <= seconds_ b < 86400 ->
  (dt_ltb a b = true <-> total_seconds a < total_seconds b)
  /\ (dt_leb a b = true <-> total_seconds a <= total_seconds b).
Proof.
  intros Ha Hb. unfold dt_ltb, dt_leb, total_seconds.
  rewrite !orb_true_iff, !andb_true_iff, !Z.ltb_lt, Z.eqb_eq, Z.leb_le.
  split; lia.
Qed.

Lemma addSeconds_normal (t : DateTime) (secs : Z) :
  0 <= seconds_ (addSeconds t secs) < 86400
  /\ total_seconds (addSeconds t secs) = total_seconds t + secs.
Proof.
  unfold addSeconds, total_seconds. simpl. split.
  - apply Z.mod_pos_bound. lia.
  - pose proof (Z.div_mod (seconds_ t + secs) 86400). lia.
Qed.

Lemma retained_iff (bgn end_ : DateTime) (datetime : list DateTime) (i : nat) :
  retained bgn end_ datetime i = true <->
  dt_ltb bgn (nth i datetime default_DateTime) = true
  /\ dt_leb (nth i datetime default_DateTime) end_ = true.
Proof. unfold retained, in_window. apply andb_true_iff. Qed.

(** C3.  With no record-group vector the round-robin distribution gives
    index [k] of [0 .. N-1] to rank [k mod R]: a rank owns exactly those
    indices, in ascending order, and every index has one owner among the
    [R] ranks.  With 9 locations on 3 ranks, rank 0 owns 0, 3, 6, rank 1
    owns 1, 4, 7 and rank 2 owns 2, 5, 8.  The reader distributes the
    locations of its file in this way, with no record-group vector. *)
Theorem C3_round_robin_assignment :
  (forall (R r N k : nat),
      In k (dist_index (roundrobin_distribution (mkComm r R) N None)) <->
      (k < N)%nat /\ Nat.modulo k R = r)
  /\ (forall (R r N : nat),
      StronglySorted lt (dist_index (roundrobin_distribution (mkComm r R) N None)))
  /\ (forall (R N k : nat), (0 < R)%nat -> (k < N)%nat ->
      exists r, (r < R)%nat
        /\ In k (dist_index (roundrobin_distribution (mkComm r R) N None))
        /\ forall r', In k (dist_index (roundrobin_distribution (mkComm r' R) N None)) ->
                      r' = r)
  /\ dist_index (roundrobin_distribution (mkComm 0 3) 9 None) = [0; 3; 6]%nat
  /\ dist_index (roundrobin_distribution (mkComm 1 3) 9 None) = [1; 4; 7]%nat
  /\ dist_index (roundrobin_distribution (mkComm 2 3) 9 None) = [2; 5; 8]%nat
  /\ (forall be u FileName bgn end_ comm Nlocs Nobs Nrecs Nvars io,
        NetcdfIO_new be u FileName "r" bgn end_ comm Nlocs Nobs Nrecs Nvars = Returned io ->
        nc_date_time (ncid_ io) = None ->
        dist_ io = roundrobin_distribution comm (nfvlen_ io) None).
Proof.
  split; [| split; [| split; [| split; [| split; [| split]]]]];
    try reflexivity.
  - intros R r N k. apply (roundrobin_index_In (mkComm r R) N None k).
  - intros R r N. apply filter_seq_sorted.
  - intros R N k HR Hk. exists (Nat.modulo k R). split; [| split].
    + apply Nat.mod_upper_bound. lia.
    + apply (roundrobin_index_In (mkComm (Nat.modulo k R) R) N None k). simpl. auto.
    + intros r' Hr'.
      apply (roundrobin_index_In (mkComm r' R) N None k) in Hr'. simpl in Hr'.
      symmetry. apply Hr'.
  - intros be u FileName bgn end_ comm Nlocs Nobs Nrecs Nvars io Hnew.
    apply NetcdfIO_new_read in Hnew. destruct Hnew as (f & sz & w & _ & _ & Hw & Hio).
    subst io. simpl. intros Hnone.
    unfold apply_window, nc_inq_attid_date_time in Hw. rewrite Hnone in Hw.
    simpl in Hw. now injection Hw as <-.
Qed.

(** Index 4 of 9 locations on 3 ranks belongs to rank 1 and to no other;
    and the reader of the sample file, alone in its communicator, owns the
    three locations of the file. *)
Lemma C3_round_robin_witness :
  (exists r, (r < 3)%nat
     /\ In 4%nat (dist_index (roundrobin_distribution (mkComm r 3) 9 None))
     /\ forall r', In 4%nat (dist_index (roundrobin_distribution (mkComm r' 3) 9 None)) ->
                   r' = r)
  /\ dist_ Sample.float_io = roundrobin_distribution Sample.one_rank 3 None.
Proof.
  destruct C3_round_robin_assignment as (_ & _ & Howner & _ & _ & _ & Hreader).
  split.
  - apply (Howner 3 9 4)%nat; lia.
  - apply (Hreader (Sample.serve (Sample.float_file Sample.raw3)) Sample.u0 "obs.nc"
             (fst Sample.all_times) (snd Sample.all_times) Sample.one_rank
             0%nat 0%nat 0%nat 0%nat Sample.float_io float_io_constructed eq_refl).
Defined.

(** C2.  When the file has the reference date, the constructor keeps an
    owned index [i] if and only if [bgn < t_i] and [t_i <= end_], where
    [t_i] is the timestamp [ReadDateTime] derived for it; the other indices
    are those handed to [erase], and the kept ones stay in their order. *)
Theorem C2_window_filter (be : Backend) (u : Indeterminate) (FileName : string)
    (bgn end_ : DateTime) (comm : Comm) (Nlocs Nobs Nrecs Nvars : nat) (io : NetcdfIO) :
  NetcdfIO_new be u FileName "r" bgn end_ comm Nlocs Nobs Nrecs Nvars = Returned io ->
  nc_date_time (ncid_ io) <> None ->
  exists datetime,
    ReadDateTime u (ncid_ io) (nfvlen_ io) = Returned datetime
    /\ let d0 := roundrobin_distribution comm (nfvlen_ io) None in
       let t := fun i => nth i datetime default_DateTime in
       (forall i, In i (dist_index (dist_ io)) <->
                  In i (dist_index d0)
                  /\ dt_ltb bgn (t i) = true /\ dt_leb (t i) end_ = true)
       /\ dist_ io = erase_all (filter (dropped bgn end_ datetime) (dist_index d0)) d0
       /\ (forall i, In i (filter (dropped bgn end_ datetime) (dist_index d0)) <->
                     In i (dist_index d0)
                     /\ ~ (dt_ltb bgn (t i) = true /\ dt_leb (t i) end_ = true))
       /\ dist_index (dist_ io) = filter (retained bgn end_ datetime) (dist_index d0)
       /\ nlocs_ io = dist_size (dist_ io).
Proof.
  intros Hnew Hat.
  apply NetcdfIO_new_read in Hnew. destruct Hnew as (f & sz & w & _ & _ & Hw & Hio).
  subst io. simpl in *.
  apply apply_window_inv in Hw; [| apply roundrobin_index_NoDup | assumption].
  destruct Hw as (datetime & Hrd & Hw). exists datetime. split; [assumption |].
  cbv zeta.
  set (d0 := roundrobin_distribution comm _ None) in *.
  assert (Hidx : dist_index (w_dist w) = filter (retained bgn end_ datetime) (dist_index d0)).
  { subst w. simpl.
    apply (erase_dropped (retained bgn end_ datetime) d0).
    apply roundrobin_index_NoDup. }
  split; [| split; [| split; [| split]]].
  - intros i. rewrite Hidx, filter_In, retained_iff. tauto.
  - now subst w.
  - intros i. rewrite filter_In. unfold dropped.
    rewrite negb_true_iff, <- not_true_iff_false, retained_iff. tauto.
  - assumption.
  - reflexivity.
Qed.

(** The time-filter scenario: of the five observations only the one at
    00:24 is inside the window from 00:00 (excluded) to 00:30. *)
Lemma C2_window_filter_witness :
  exists datetime,
    ReadDateTime Sample.u0 Sample.window_file 5 = Returned datetime
    /\ let d0 := roundrobin_distribution Sample.one_rank 5 None in
       let t := fun i => nth i datetime default_DateTime in
       (forall i, In i [3%nat] <->
                  In i (dist_index d0)
                  /\ dt_ltb Sample.t0000 (t i) = true /\ dt_leb (t i) Sample.t0030 = true)
       /\ mkDistribution [3%nat]
          = erase_all (filter (dropped Sample.t0000 Sample.t0030 datetime) (dist_index d0)) d0
       /\ (forall i, In i (filter (dropped Sample.t0000 Sample.t0030 datetime)
                                  (dist_index d0)) <->
                     In i (dist_index d0)
                     /\ ~ (dt_ltb Sample.t0000 (t i) = true
                           /\ dt_leb (t i) Sample.t0030 = true))
       /\ [3%nat] = filter (retained Sample.t0000 Sample.t0030 datetime) (dist_index d0)
       /\ 1%nat = 1%nat.
Proof.
  exact (C2_window_filter (Sample.serve Sample.window_file) Sample.u0 "obs.nc"
           Sample.t0000 Sample.t0030 Sample.one_rank 0 0 0 0 Sample.window_io
           window_io_constructed
           (fun H : Some 2018041500 = None => eq_ind (Some 2018041500)
              (fun o => match o with Some _ => True | None => False end) I None H)).
Defined.

(** ** The derived timestamps *)

Lemma nth_map_seq {A : Type} (g : nat -> A) (n i : nat) (d : A) :
  (i < n)%nat -> nth i (map g (seq 0 n)) d = g i.
Proof.
  intros Hi.
  rewrite (nth_indep _ d (g 0%nat)) by now rewrite length_map, length_seq.
  rewrite (map_nth g (seq 0 n) 0%nat i).
  now rewrite seq_nth.
Qed.






(** ** The variable list and the date and time variables *)

Lemma starts_with_time_not_date (s : string) :
  starts_with "time" s = true -> starts_with "date" s = false.
Proof.
  unfold starts_with. intros Ht.
  destruct (prefix "date" s) eqn:Hd; [| reflexivity].
  apply prefix_correct in Ht, Hd.
  change (String.length "time") with 4%nat in Ht.
  change (String.length "date") with 4%nat in Hd.
  rewrite Ht in Hd. discriminate Hd.
Qed.

Lemma map_nth_seq {A B : Type} (g : A -> B) (l : list A) (d : A) :
  map (fun ii => g (nth ii l d)) (seq 0 (List.length l)) = map g l.
Proof.
  apply nth_ext with (d := g d) (d' := g d).
  - now rewrite !length_map, length_seq.
  - intros n Hn. rewrite length_map, length_seq in Hn.
    rewrite nth_map_seq by assumption.
    now rewrite (map_nth g l d n).
Qed.

Lemma entries_of_selected (nlocs_id : Z) (v : nc_var) :
  var_dimids v = [nlocs_id] ->
  entries_of nlocs_id v =
  split_name (var_name v)
  :: (if starts_with "time" (var_name v)
      then [("date", snd (split_name (var_name v)))] else []).
Proof.
  intros Hd. unfold entries_of, valid_entries. rewrite Hd. simpl.
  rewrite Z.eqb_refl. destruct (split_name (var_name v)). reflexivity.
Qed.

Lemma entries_of_nonempty (nlocs_id : Z) (v : nc_var) :
  entries_of nlocs_id v <> [] <-> var_dimids v = [nlocs_id].
Proof.
  split.
  - unfold entries_of, valid_entries.
    destruct (var_dimids v) as [| d [| d' r]]; simpl; try congruence.
    destruct (Z.eqb_spec d nlocs_id); congruence.
  - intros H. rewrite (entries_of_selected nlocs_id v H). discriminate.
Qed.

Lemma ReadVar_any_date (fmiss : spec_float) (io : NetcdfIO) (VarName : string)
    (VarData : list any) :
  starts_with "date" VarName = true ->
  List.length (date_ io) = dist_size (dist_ io) ->
  ReadVar_any fmiss io VarName VarData
  = Returned (assign_front (map any_int (date_ io)) VarData).
Proof.
  intros Hname Hlen. unfold ReadVar_any. rewrite Hname, <- Hlen, Nat.eqb_refl.
  simpl. now rewrite (map_nth_seq any_int).
Qed.

Lemma ReadVar_any_time (fmiss : spec_float) (io : NetcdfIO) (VarName : string)
    (VarData : list any) :
  starts_with "time" VarName = true ->
  List.length (time_ io) = dist_size (dist_ io) ->
  ReadVar_any fmiss io VarName VarData
  = Returned (assign_front (map any_int (time_ io)) VarData).
Proof.
  intros Hname Hlen. unfold ReadVar_any.
  rewrite (starts_with_time_not_date VarName Hname), Hname, <- Hlen, Nat.eqb_refl.
  simpl. now rewrite (map_nth_seq any_int).
Qed.

(** ** Files of the old format *)

Lemma find_pos_None {A : Type} (p : A -> bool) (l : list A) (n : nat) :
  find p l = None -> find_pos p l n = None.
Proof.
  revert n. induction l as [| x l IH]; intros n; simpl; [reflexivity |].
  destruct (p x); [discriminate | apply IH].
Qed.

Lemma find_pos_Some {A : Type} (p : A -> bool) (l : list A) (n : nat) (x : A) :
  find p l = Some x ->
  exists k, find_pos p l n = Some (n + k)%nat /\ nth_error l k = Some x.
Proof.
  revert n. induction l as [| y l IH]; intros n; simpl; [discriminate |].
  destruct (p y).
  - intros H. injection H as <-. exists 0%nat. now rewrite Nat.add_0_r.
  - intros H. destruct (IH (S n) H) as (k & Hk & Hn).
    exists (S k). now rewrite Nat.add_succ_r.
Qed.

Lemma dim_absent (f : nc_file) (name : string) :
  dim_length f name = None -> nc_inq_dimid f name = NcErr NC_EBADDIM.
Proof.
  unfold dim_length, nc_inq_dimid.
  destruct (find _ (nc_dims f)) eqn:E; [discriminate |].
  intros _. now rewrite (find_pos_None _ _ 0%nat E).
Qed.

Lemma dim_present (f : nc_file) (name : string) (n : nat) :
  dim_length f name = Some n ->
  exists id, nc_inq_dimid f name = NcOk id /\ nc_inq_dimlen f id = NcOk n.
Proof.
  unfold dim_length, nc_inq_dimid, nc_inq_dimlen.
  destruct (find _ (nc_dims f)) as [d |] eqn:E; [| discriminate].
  simpl. intros H. injection H as <-.
  destruct (find_pos_Some _ _ 0%nat _ E) as (k & Hk & Hn). simpl in Hk.
  rewrite Hk. exists (Z.of_nat k). split; [reflexivity |].
  destruct (Z.ltb_spec (Z.of_nat k) 0); [lia |].
  now rewrite Nat2Z.id, Hn.
Qed.

(** C5.  The legacy scenario of the specification: 20 observations on 4
    channels, no dimension [nrecs] and none named [nlocs], the variables
    time and obs on [nobs].  The reader computes 4 variables and
    20 / 4 = 5 locations, as the rule for the old files says.  But the
    file has no dimension whose id could be given to [nlocs_id_], which
    keeps what it held before the constructor, and the variables selected
    are those whose dimension id equals that value: the variables on
    [nobs] if it is 0, chaninfo if it is 1, and none otherwise.  And the
    array of 5 timestamps is handed to ReadDateTime, which writes one
    timestamp for each of the 20 elements of time: the constructor does not
    return, whatever the window, the communicator and the sizes given. *)
Theorem C5_legacy_scenario :
  dim_length Sample.legacy_file "nrecs" = None
  /\ dim_length Sample.legacy_file "nlocs" = None
  /\ (forall u Nlocs Nobs Nrecs Nvars,
        read_sizes u Sample.legacy_file Nlocs Nobs Nrecs Nvars
          (inquire_dims u Sample.legacy_file)
        = Returned (mkSizes 5 20 Nlocs 4))
  /\ (forall u,
        d_nlocs_id (inquire_dims u Sample.legacy_file) = u_nlocs_id u
        /\ scan_variables Sample.legacy_file
             (d_nlocs_id (inquire_dims u Sample.legacy_file)) (seq 0 3) []
           = Returned (if 0 =? u_nlocs_id u
                       then [("time", ""); ("date", ""); ("obs", "")]
                       else if 1 =? u_nlocs_id u then [("chaninfo", "")] else []))
  /\ (forall u bgn end_ comm Nlocs Nobs Nrecs Nvars,
        NetcdfIO_new (Sample.serve Sample.legacy_file) u "obs.nc" "r" bgn end_ comm
          Nlocs Nobs Nrecs Nvars
        = Undefined "VarDateTime[i] beyond the end of the array").
Proof.
  split; [reflexivity |]. split; [reflexivity |].
  split; [intros; reflexivity |]. split.
  - intros u. split; [reflexivity |].
    rewrite (scan_all_variables Sample.legacy_file).
    unfold entries_of, valid_entries. cbn [Sample.legacy_file nc_vars flat_map].
    cbn [var_name var_dimids List.length hd Nat.eqb andb].
    change (d_nlocs_id (inquire_dims u Sample.legacy_file)) with (u_nlocs_id u).
    destruct (Z.eqb_spec 0 (u_nlocs_id u)) as [E | E].
    + rewrite <- E. reflexivity.
    + destruct (Z.eqb_spec 1 (u_nlocs_id u)) as [E1 | E1]; reflexivity.
  - intros u bgn end_ comm Nlocs Nobs Nrecs Nvars.
    unfold NetcdfIO_new, open_file. cbn [String.eqb Ascii.eqb Bool.eqb bind].
    cbn [Sample.serve nc_open bind].
    unfold construct_read. cbv zeta.
    change (read_sizes u Sample.legacy_file Nlocs Nobs Nrecs Nvars
              (inquire_dims u Sample.legacy_file))
      with (Returned (A := Sizes) (mkSizes 5 20 Nlocs 4)).
    cbn [bind s_nfvlen]. unfold nc_inq_nvars. cbn [retcode CheckNcCall bind].
    change (CheckNcCall NC_NOERR "NetcdfIO::NetcdfIO: Unable to read number of variables")
      with (Returned (A := unit) tt).
    cbn [bind output]. rewrite (scan_all_variables Sample.legacy_file).
    cbn [bind]. reflexivity.
Qed.

(** ** Failing library calls *)

(** C8 (as amended).  A NetCDF call whose return code is checked by
    [CheckNcCall] and is not [NC_NOERR] aborts execution with the message of
    the call; so does a failure to open or create the file, and a file mode
    other than "r", "w" and "W".  Nothing is thrown to the caller in these
    cases.  In particular reading a variable that the file does not have
    aborts. *)
Theorem C8_failed_call_aborts :
  (forall RetCode ErrorMsg,
      RetCode <> NC_NOERR -> CheckNcCall RetCode ErrorMsg = Aborted ErrorMsg)
  /\ (forall RetCode ErrorMsg e, CheckNcCall RetCode ErrorMsg <> Raised e)
  /\ (forall be u FileName bgn end_ comm Nlocs Nobs Nrecs Nvars code,
        nc_open be FileName = NcErr code ->
        NetcdfIO_new be u FileName "r" bgn end_ comm Nlocs Nobs Nrecs Nvars
        = Aborted "Unable to open file")
  /\ (forall be u FileName bgn end_ comm Nlocs Nobs Nrecs Nvars,
        nc_create be FileName false <> NC_NOERR ->
        NetcdfIO_new be u FileName "w" bgn end_ comm Nlocs Nobs Nrecs Nvars
        = Aborted "Unable to open file")
  /\ (forall be u FileName bgn end_ comm Nlocs Nobs Nrecs Nvars,
        nc_create be FileName true <> NC_NOERR ->
        NetcdfIO_new be u FileName "W" bgn end_ comm Nlocs Nobs Nrecs Nvars
        = Aborted "Unable to open file")
  /\ (forall be u FileName FileMode bgn end_ comm Nlocs Nobs Nrecs Nvars,
        FileMode <> "r" -> FileMode <> "w" -> FileMode <> "W" ->
        NetcdfIO_new be u FileName FileMode bgn end_ comm Nlocs Nobs Nrecs Nvars
        = Aborted "Unrecognized file mode for NetcdfIO constructor")
  /\ (forall fmiss io VarName VarData,
        starts_with "date" VarName = false ->
        starts_with "time" VarName = false ->
        nc_inq_varid (ncid_ io) VarName = NcErr NC_ENOTVAR ->
        ReadVar_any fmiss io VarName VarData
        = Aborted (String.append "NetcdfIO::ReadVar_any: Netcdf dataset not found: "
                                 VarName)).
Proof.
  split; [| split; [| split; [| split; [| split; [| split]]]]].
  - intros rc msg Hrc. unfold CheckNcCall.
    destruct (Z.eqb_spec rc NC_NOERR); [contradiction | reflexivity].
  - intros rc msg e. unfold CheckNcCall.
    destruct (rc =? NC_NOERR); discriminate.
  - intros be u FileName bgn end_ comm Nlocs Nobs Nrecs Nvars code Hopen.
    unfold NetcdfIO_new, open_file. simpl. now rewrite Hopen.
  - intros be u FileName bgn end_ comm Nlocs Nobs Nrecs Nvars Hc.
    unfold NetcdfIO_new, open_file, created. simpl.
    destruct (Z.eqb_spec (nc_create be FileName false) NC_NOERR);
      [contradiction | reflexivity].
  - intros be u FileName bgn end_ comm Nlocs Nobs Nrecs Nvars Hc.
    unfold NetcdfIO_new, open_file, created. simpl.
    destruct (Z.eqb_spec (nc_create be FileName true) NC_NOERR);
      [contradiction | reflexivity].
  - intros be u FileName FileMode bgn end_ comm Nlocs Nobs Nrecs Nvars Hr Hw HW.
    unfold NetcdfIO_new, open_file.
    destruct (String.eqb_spec FileMode "r"); [contradiction |].
    destruct (String.eqb_spec FileMode "w"); [contradiction |].
    destruct (String.eqb_spec FileMode "W"); [contradiction |].
    reflexivity.
  - intros fmiss io VarName VarData Hd Ht Hid.
    unfold ReadVar_any. rewrite Hd, Ht, Hid. reflexivity.
Qed.

(** A file that cannot be opened, and a variable that the file lacks: the
    process is aborted. *)
Lemma C8_abort_witness :
  CheckNcCall NC_ENOTVAR "Unable to read dataset" = Aborted "Unable to read dataset"
  /\ NetcdfIO_new Sample.no_file Sample.u0 "absent.nc" "r"
       (fst Sample.all_times) (snd Sample.all_times) Sample.one_rank 0 0 0 0
     = Aborted "Unable to open file"
  /\ NetcdfIO_new Sample.no_file Sample.u0 "present.nc" "w"
       (fst Sample.all_times) (snd Sample.all_times) Sample.one_rank 0 0 0 0
     = Aborted "Unable to open file"
  /\ NetcdfIO_new Sample.no_file Sample.u0 "present.nc" "a"
       (fst Sample.all_times) (snd Sample.all_times) Sample.one_rank 0 0 0 0
     = Aborted "Unrecognized file mode for NetcdfIO constructor"
  /\ ReadVar_any Sample.fmiss Sample.float_io "y@ObsValue" (repeat any_empty 3)
     = Aborted "NetcdfIO::ReadVar_any: Netcdf dataset not found: y@ObsValue".
Proof.
  destruct C8_failed_call_aborts as (Hcheck & _ & Hopen & Hw & _ & Hmode & Hread).
  split; [| split; [| split; [| split]]].
  - apply Hcheck. discriminate.
  - apply Hopen with (code := 2). reflexivity.
  - apply Hw. discriminate.
  - apply Hmode; discriminate.
  - apply Hread; reflexivity.
Defined.

(** Opening a file that does not exist does not give the caller an error;
    it ends the process. *)
Lemma C8_open_failure_exits :
  nc_open Sample.no_file "absent.nc" = NcErr 2
  /\ NetcdfIO_new Sample.no_file Sample.u0 "absent.nc" "r"
       (fst Sample.all_times) (snd Sample.all_times) Sample.one_rank 0 0 0 0
     = Aborted "Unable to open file"
  /\ ~ (exists e,
          NetcdfIO_new Sample.no_file Sample.u0 "absent.nc" "r"
            (fst Sample.all_times) (snd Sample.all_times) Sample.one_rank 0 0 0 0
          = Raised e).
Proof.
  split; [reflexivity | split; [reflexivity |]].
  intros [e H]. discriminate H.
Qed.

(** ** The obs type of an ObsSpace *)

Lemma obs_domain_unrecognized (obsname : string) :
  ~ In obsname recognized_obs_types -> obs_domain obsname = None.
Proof.
  intros H. unfold obs_domain, recognized_obs_types in *. simpl in H.
  repeat match goal with
         | |- context [String.eqb obsname ?s] =>
             destruct (String.eqb_spec obsname s); [exfalso; apply H; subst; tauto |]
         end.
  reflexivity.
Qed.

(** C9 (as amended).  For a configuration whose [ObsType] is none of the
    recognized obs types the constructor of [ObsSpace] does not fail: it
    returns an object that carries the name and for which no set-up routine
    has been called. *)
Theorem C9_unknown_obs_type_is_accepted (config : Configuration) (bgn end_ : DateTime) :
  ~ In (ObsType config) recognized_obs_types ->
  ObsSpace_new config bgn end_ = Returned (mkObsSpace (ObsType config) bgn end_ None).
Proof.
  intros H. unfold ObsSpace_new. now rewrite (obs_domain_unrecognized _ H).
Qed.

Lemma C9_unknown_obs_type_witness :
  ObsSpace_new (mkConfiguration "Sonde") Sample.t0000 Sample.t0030
  = Returned (mkObsSpace "Sonde" Sample.t0000 Sample.t0030 None).
Proof.
  apply (C9_unknown_obs_type_is_accepted (mkConfiguration "Sonde")).
  simpl. intros H.
  repeat (destruct H as [H | H]; [discriminate H |]). exact H.
Defined.

(** The obs type "Sonde" is not recognized, and the construction returns
    all the same. *)
Lemma C9_no_invalid_config :
  ~ In "Sonde" recognized_obs_types
  /\ ~ (exists msg,
          ObsSpace_new (mkConfiguration "Sonde") Sample.t0000 Sample.t0030
          = Raised (InvalidConfig msg)).
Proof.
  split.
  - simpl. intros H.
    repeat (destruct H as [H | H]; [discriminate H |]). exact H.
  - intros [msg H]. discriminate H.
Qed.

(** ** Segmented store and load *)

Section Segments.

Variable VarType : Type.
Variables (g v : string) (VarShape : list nat).

Lemma same_key_refl (sh : list nat) (d : list VarType) :
  Core.same_key g v (Core.mkVarRecord g v sh d) = true.
Proof. unfold Core.same_key. simpl. now rewrite !String.eqb_refl. Qed.

Lemma lookup_created (c : Core.ObsSpaceContainer VarType) (r : Core.VarRecord VarType) :
  Core.lookup c g v = None -> Core.same_key g v r = true ->
  Core.lookup (c ++ [r]) g v = Some r.
Proof.
  unfold Core.lookup. induction c as [| x c IH]; simpl; intros Hn Hr.
  - now rewrite Hr.
  - destruct (Core.same_key g v x); [discriminate | now apply IH].
Qed.

Lemma lookup_modify (f : Core.VarRecord VarType -> Core.VarRecord VarType)
    (c : Core.ObsSpaceContainer VarType) (r : Core.VarRecord VarType) :
  Core.lookup c g v = Some r -> Core.same_key g v (f r) = true ->
  Core.lookup (Core.modify g v f c) g v = Some (f r).
Proof.
  unfold Core.lookup. induction c as [| x c IH]; simpl; intros Hl Hf; [discriminate |].
  destruct (Core.same_key g v x) eqn:E; simpl.
  - injection Hl as ->. now rewrite Hf.
  - rewrite E. now apply IH.
Qed.

Lemma lookup_key (c : Core.ObsSpaceContainer VarType) (r : Core.VarRecord VarType) :
  Core.lookup c g v = Some r -> Core.group r = g /\ Core.variable r = v.
Proof.
  unfold Core.lookup. intros H. apply find_some in H. destruct H as [_ H].
  unfold Core.same_key in H. apply andb_true_iff in H. destruct H as [Hg Hv].
  now apply String.eqb_eq in Hg, Hv.
Qed.

(** One appending store on a record that is there. *)
Lemma StoreToDb_append (c : Core.ObsSpaceContainer VarType) (r : Core.VarRecord VarType)
    (VarData : list VarType) :
  Core.lookup c g v = Some r -> tl (Core.shape r) = tl VarShape ->
  exists c' r',
    Core.StoreToDb g v VarShape VarData true c = Returned c'
    /\ Core.lookup c' g v = Some r'
    /\ Core.data r' = Core.data r ++ VarData
    /\ tl (Core.shape r') = tl VarShape.
Proof.
  intros Hl Hs. unfold Core.StoreToDb. rewrite Hl.
  destruct (list_eq_dec Nat.eq_dec _ _) as [_ | n]; [| contradiction].
  destruct (lookup_key c r Hl) as [Hg Hv].
  set (f := fun r0 : Core.VarRecord VarType =>
              Core.mkVarRecord (Core.group r0) (Core.variable r0)
                ((hd 0%nat (Core.shape r0) + hd 0%nat VarShape)%nat :: tl (Core.shape r0))
                (Core.data r0 ++ VarData)).
  exists (Core.modify g v f c), (f r).
  split; [reflexivity |]. split; [| split].
  - apply lookup_modify; [assumption |].
    unfold Core.same_key, f. simpl. rewrite Hg, Hv. now rewrite !String.eqb_refl.
  - reflexivity.
  - simpl. assumption.
Qed.

Lemma StoreVarSegments_on_record (VarData : list VarType) (segs : list (nat * nat))
    (c : Core.ObsSpaceContainer VarType) (r : Core.VarRecord VarType) :
  Core.lookup c g v = Some r -> tl (Core.shape r) = tl VarShape ->
  exists c' r',
    Core.StoreVarSegments g v VarShape VarData segs c = Returned c'
    /\ Core.lookup c' g v = Some r'
    /\ Core.data r' = Core.data r ++ Core.segment_data VarData segs.
Proof.
  revert c r. induction segs as [| [s n] segs IH]; intros c r Hl Hs; simpl.
  - exists c, r. unfold Core.segment_data. simpl. now rewrite app_nil_r.
  - destruct (StoreToDb_append c r (Core.segment VarData s n) Hl Hs)
      as (c1 & r1 & Hst & Hl1 & Hd1 & Hs1).
    rewrite Hst. simpl.
    destruct (IH c1 r1 Hl1 Hs1) as (c' & r' & Hst' & Hl' & Hd').
    exists c', r'. split; [assumption |]. split; [assumption |].
    rewrite Hd', Hd1. unfold Core.segment_data. simpl. now rewrite app_assoc.
Qed.

(** The segments, stored one after the other on a container that does not
    have the variable, leave it with their data in the order of the calls. *)
Lemma StoreVarSegments_fresh (VarData : list VarType) (segs : list (nat * nat))
    (c : Core.ObsSpaceContainer VarType) :
  Core.lookup c g v = None -> segs <> [] ->
  exists c' r',
    Core.StoreVarSegments g v VarShape VarData segs c = Returned c'
    /\ Core.lookup c' g v = Some r'
    /\ Core.data r' = Core.segment_data VarData segs.
Proof.
  intros Hn Hne. destruct segs as [| [s n] segs]; [contradiction |]. simpl.
  unfold Core.StoreToDb at 1. rewrite Hn. simpl.
  set (r0 := Core.mkVarRecord g v VarShape (Core.segment VarData s n)).
  destruct (StoreVarSegments_on_record VarData segs (c ++ [r0]) r0)
    as (c' & r' & H1 & H2 & H3).
  - apply lookup_created; [assumption | apply same_key_refl].
  - reflexivity.
  - exists c', r'. split; [assumption |]. split; [assumption |].
    rewrite H3. reflexivity.
Qed.

Lemma firstn_add_skipn (n m : nat) (l : list VarType) :
  firstn (n + m) l = firstn n l ++ firstn m (skipn n l).
Proof.
  revert l. induction n as [| n IH]; intros l; simpl; [reflexivity |].
  destruct l as [| x l]; simpl.
  - now rewrite firstn_nil.
  - now rewrite IH.
Qed.

Lemma skipn_add (n m : nat) (l : list VarType) :
  skipn (n + m) l = skipn m (skipn n l).
Proof.
  revert l. induction n as [| n IH]; intros l; simpl; [reflexivity |].
  destruct l as [| x l]; simpl; [now rewrite skipn_nil | apply IH].
Qed.

(** Consecutive segments, taken in their order, make up the range they
    cover. *)
Lemma segment_data_consecutive (VarData : list VarType) (Counts : list nat) (s : nat) :
  Core.segment_data VarData (Core.starts_from s Counts)
  = firstn (list_sum Counts) (skipn s VarData).
Proof.
  revert s. induction Counts as [| n Counts IH]; intros s; simpl; [reflexivity |].
  unfold Core.segment_data in *. simpl. rewrite IH.
  unfold Core.segment. rewrite firstn_add_skipn. f_equal.
  now rewrite <- skipn_add.
Qed.

End Segments.

Section Loading.

Variable VarType : Type.
Variables (g v : string) (VarShape : list nat).

Lemma set_nth_length (n : nat) (x : VarType) (l : list VarType) :
  List.length (set_nth n x l) = List.length l.
Proof.
  revert n. induction l as [| y l IH]; intros [| n]; simpl; auto.
Qed.

Lemma nth_error_set_nth_same (n : nat) (x : VarType) (l : list VarType) :
  (n < List.length l)%nat -> nth_error (set_nth n x l) n = Some x.
Proof.
  revert n. induction l as [| y l IH]; intros [| n] H; simpl in *;
    try lia; auto. apply IH. lia.
Qed.

Lemma nth_error_set_nth_other (n i : nat) (x : VarType) (l : list VarType) :
  i <> n -> nth_error (set_nth n x l) i = nth_error l i.
Proof.
  revert n i. induction l as [| y l IH]; intros [| n] [| i] H; simpl;
    try congruence; auto.
Qed.

Lemma copy_at_length (seg : list VarType) (s : nat) (B : list VarType) :
  List.length (Core.copy_at s seg B) = List.length B.
Proof.
  revert s B. induction seg as [| x seg IH]; intros s B; simpl; [reflexivity |].
  now rewrite IH, set_nth_length.
Qed.

Lemma nth_error_copy_at_outside (seg : list VarType) (s : nat) (B : list VarType)
    (i : nat) :
  (i < s \/ s + List.length seg <= i)%nat ->
  nth_error (Core.copy_at s seg B) i = nth_error B i.
Proof.
  revert s B. induction seg as [| x seg IH]; intros s B H; simpl in *; [reflexivity |].
  rewrite IH by lia. apply nth_error_set_nth_other. lia.
Qed.

Lemma nth_error_copy_at_inside (seg : list VarType) (s : nat) (B : list VarType)
    (i : nat) :
  (s <= i < s + List.length seg)%nat -> (i < List.length B)%nat ->
  nth_error (Core.copy_at s seg B) i = nth_error seg (i - s).
Proof.
  revert s B. induction seg as [| x seg IH]; intros s B H HB; simpl in *; [lia |].
  destruct (Nat.eq_dec i s) as [-> | Hne].
  - rewrite nth_error_copy_at_outside by lia.
    rewrite Nat.sub_diag. simpl. now apply nth_error_set_nth_same.
  - rewrite IH by (rewrite ?set_nth_length; lia).
    replace (i - s)%nat with (S (i - S s)) by lia. reflexivity.
Qed.

Variables (c : Core.ObsSpaceContainer VarType) (r : Core.VarRecord VarType).
Hypothesis Hrec : Core.lookup c g v = Some r.

Lemma LoadFromDb_in_range (s n : nat) :
  (s + n <= List.length (Core.data r))%nat ->
  Core.LoadFromDb g v VarShape s n c = Returned (firstn n (skipn s (Core.data r))).
Proof.
  intros H. unfold Core.LoadFromDb. rewrite Hrec.
  apply Nat.leb_le in H. now rewrite H.
Qed.

(** Where the output agrees with the stored data, before and after the
    segments have been loaded. *)
Lemma LoadVarSegments_agree (segs : list (nat * nat)) (P : nat -> Prop)
    (B : list VarType) :
  List.length B = List.length (Core.data r) ->
  (forall s n, In (s, n) segs -> (s + n <= List.length (Core.data r))%nat) ->
  (forall i, P i -> nth_error B i = nth_error (Core.data r) i) ->
  exists B',
    Core.LoadVarSegments g v VarShape B segs c = Returned B'
    /\ List.length B' = List.length (Core.data r)
    /\ forall i, P i \/ (exists s n, In (s, n) segs /\ (s <= i < s + n)%nat) ->
                 nth_error B' i = nth_error (Core.data r) i.
Proof.
  revert P B. induction segs as [| [s n] segs IH]; intros P B HB Hin HP; simpl.
  - exists B. split; [reflexivity |]. split; [assumption |].
    intros i [Hi | (s & n & [] & _)]. now apply HP.
  - assert (Hsn : (s + n <= List.length (Core.data r))%nat) by (apply Hin; now left).
    rewrite (LoadFromDb_in_range s n Hsn). simpl.
    set (seg := firstn n (skipn s (Core.data r))).
    assert (Hseg : List.length seg = n).
    { unfold seg. rewrite length_firstn, length_skipn. lia. }
    destruct (IH (fun i => P i \/ (s <= i < s + n)%nat) (Core.copy_at s seg B))
      as (B' & Hload & HlenB' & Hagree).
    + now rewrite copy_at_length.
    + intros s' n' H'. apply Hin. now right.
    + intros i [Hi | Hi].
      * destruct (le_lt_dec s i) as [Hle | Hlt];
          [destruct (le_lt_dec (s + n) i) as [Hge | Hin'] |].
        -- rewrite nth_error_copy_at_outside by lia. now apply HP.
        -- rewrite nth_error_copy_at_inside by lia.
           unfold seg. rewrite nth_error_firstn, nth_error_skipn.
           replace (i - s <? n)%nat with true by (symmetry; apply Nat.ltb_lt; lia).
           f_equal. lia.
        -- rewrite nth_error_copy_at_outside by lia. now apply HP.
      * rewrite nth_error_copy_at_inside by lia.
        unfold seg. rewrite nth_error_firstn, nth_error_skipn.
        replace (i - s <? n)%nat with true by (symmetry; apply Nat.ltb_lt; lia).
        f_equal. lia.
    + exists B'. split; [assumption |]. split; [assumption |].
      intros i [Hi | (s' & n' & [Heq | Hin'] & Hr)].
      * apply Hagree. left. now left.
      * injection Heq as <- <-. apply Hagree. left. now right.
      * apply Hagree. right. exists s', n'. auto.
Qed.

(** Segments that lie in the stored data and cover all of it load the
    stored data, whatever their order. *)
Lemma LoadVarSegments_cover (segs : list (nat * nat)) (B : list VarType) :
  List.length B = List.length (Core.data r) ->
  (forall s n, In (s, n) segs -> (s + n <= List.length (Core.data r))%nat) ->
  (forall i, (i < List.length (Core.data r))%nat ->
             exists s n, In (s, n) segs /\ (s <= i < s + n)%nat) ->
  Core.LoadVarSegments g v VarShape B segs c = Returned (Core.data r).
Proof.
  intros HB Hin Hcov.
  destruct (LoadVarSegments_agree segs (fun _ => False) B HB Hin)
    as (B' & Hload & Hlen & Hagree); [contradiction |].
  rewrite Hload. f_equal. apply nth_error_ext. intros i.
  destruct (le_lt_dec (List.length (Core.data r)) i) as [Hge | Hlt].
  - rewrite (proj2 (nth_error_None (Core.data r) i) Hge).
    apply nth_error_None. lia.
  - apply Hagree. right. now apply Hcov.
Qed.

End Loading.

Lemma starts_from_in_range (Counts : list nat) (s0 s n : nat) :
  In (s, n) (Core.starts_from s0 Counts) ->
  (s0 <= s /\ s + n <= s0 + list_sum Counts)%nat.
Proof.
  revert s0. induction Counts as [| k Counts IH]; intros s0; simpl; [contradiction |].
  intros [H | H].
  - injection H as <- <-. lia.
  - apply IH in H. lia.
Qed.

Lemma starts_from_cover (Counts : list nat) (s0 i : nat) :
  (s0 <= i < s0 + list_sum Counts)%nat ->
  exists s n, In (s, n) (Core.starts_from s0 Counts) /\ (s <= i < s + n)%nat.
Proof.
  revert s0. induction Counts as [| k Counts IH]; intros s0; simpl; [lia |].
  intros H. destruct (le_lt_dec (s0 + k) i) as [Hge | Hlt].
  - destruct (IH (s0 + k)%nat) as (s & n & Hin & Hr); [lia |].
    exists s, n. auto.
  - exists s0, k. split; [now left | lia].
Qed.

(** C7 (as amended).  Segments that partition [0 .. n), stored by appending
    in ascending order, leave the buffer that one store of the whole range
    leaves; and from that buffer the segments of any such partition, loaded
    in any order, give the data that one load of the whole range gives.
    (An appending store takes no start: segments stored in another order
    end up in the order of the calls.) *)
Theorem C7_segmented_store_load (VarType : Type) (g v : string) (VarShape : list nat)
    (VarData : list VarType) (Counts : list nat) (c : Core.ObsSpaceContainer VarType) :
  Counts <> [] ->
  list_sum Counts = List.length VarData ->
  Core.lookup c g v = None ->
  exists c' r',
    Core.StoreVarSegments g v VarShape VarData (Core.starts_from 0 Counts) c = Returned c'
    /\ Core.lookup c' g v = Some r'
    /\ Core.data r' = VarData
    /\ (exists c1 r1,
          Core.StoreToDb g v VarShape VarData false c = Returned c1
          /\ Core.lookup c1 g v = Some r1
          /\ Core.data r1 = Core.data r')
    /\ Core.LoadFromDb g v VarShape 0 (List.length VarData) c' = Returned VarData
    /\ forall (Counts' : list nat) (segs : list (nat * nat)) (out : list VarType),
         list_sum Counts' = List.length VarData ->
         Permutation segs (Core.starts_from 0 Counts') ->
         List.length out = List.length VarData ->
         Core.LoadVarSegments g v VarShape out segs c' = Returned VarData.
Proof.
  intros Hne Hsum Hnone.
  destruct (StoreVarSegments_fresh VarType g v VarShape VarData
              (Core.starts_from 0 Counts) c Hnone) as (c' & r' & Hst & Hl & Hd).
  { destruct Counts; [contradiction | discriminate]. }
  assert (Hdata : Core.data r' = VarData).
  { rewrite Hd, segment_data_consecutive, Hsum. simpl. apply firstn_all. }
  exists c', r'. split; [assumption |]. split; [assumption |]. split; [assumption |].
  split; [| split].
  - unfold Core.StoreToDb. rewrite Hnone.
    eexists. eexists. split; [reflexivity |]. split.
    + apply lookup_created; [assumption | apply same_key_refl].
    + now rewrite Hdata.
  - rewrite (LoadFromDb_in_range VarType g v VarShape c' r' Hl 0 (List.length VarData))
      by (rewrite Hdata; simpl; lia).
    simpl. rewrite Hdata. now rewrite firstn_all.
  - intros Counts' segs out Hsum' Hperm Hout.
    replace (Returned VarData) with (Returned (Core.data r')) by now rewrite Hdata.
    apply (LoadVarSegments_cover VarType g v VarShape c' r' Hl segs out).
    + now rewrite Hdata.
    + intros s n Hin. apply (Permutation_in _ Hperm) in Hin.
      apply starts_from_in_range in Hin. rewrite Hdata. lia.
    + intros i Hi. rewrite Hdata in Hi.
      destruct (starts_from_cover Counts' 0 i) as (s & n & Hin & Hr); [lia |].
      exists s, n. split; [| assumption].
      apply (Permutation_in _ (Permutation_sym Hperm)). assumption.
Qed.

(** The scenario of the specification: five values stored as the segments
    (0,2), (2,1), (3,2) and loaded as the segments (0,2), (2,2), (4,1),
    here loaded last segment first. *)
Lemma C7_segmented_witness :
  exists c',
    Core.StoreVarSegments "ObsValue" "t" [5%nat] [1; 2; 3; 4; 5]
      [(0, 2); (2, 1); (3, 2)]%nat [] = Returned c'
    /\ Core.LoadVarSegments "ObsValue" "t" [5%nat] [0; 0; 0; 0; 0]
         [(4, 1); (2, 2); (0, 2)]%nat c' = Returned [1; 2; 3; 4; 5].
Proof.
  destruct (C7_segmented_store_load Z "ObsValue" "t" [5%nat] [1; 2; 3; 4; 5]
              [2; 1; 2]%nat [] ltac:(discriminate) eq_refl eq_refl)
    as (c' & r' & Hst & _ & _ & _ & _ & Hload).
  exists c'. split; [exact Hst |].
  apply (Hload [2; 2; 1]%nat); [reflexivity | | reflexivity].
  simpl.
  apply Permutation_trans with (l' := [(2, 2); (4, 1); (0, 2)]%nat).
  - apply perm_swap.
  - apply Permutation_trans with (l' := [(2, 2); (0, 2); (4, 1)]%nat).
    + apply perm_skip. apply perm_swap.
    + apply perm_swap.
Defined.

(** Stored in another order, the segments (2,1), (0,2), (3,2) of the same
    partition leave the buffer 3, 1, 2, 4, 5, which is not what one store
    of the whole range leaves. *)
Lemma C7_store_order_matters :
  Permutation [(2, 1); (0, 2); (3, 2)]%nat (Core.starts_from 0 [2; 1; 2]%nat)
  /\ (exists c',
        Core.StoreVarSegments "ObsValue" "t" [5%nat] [1; 2; 3; 4; 5]
          [(2, 1); (0, 2); (3, 2)]%nat [] = Returned c'
        /\ option_map Core.data (Core.lookup c' "ObsValue" "t") = Some [3; 1; 2; 4; 5])
  /\ (exists c1,
        Core.StoreToDb "ObsValue" "t" [5%nat] [1; 2; 3; 4; 5] false [] = Returned c1
        /\ option_map Core.data (Core.lookup c1 "ObsValue" "t") = Some [1; 2; 3; 4; 5])
  /\ [3; 1; 2; 4; 5] <> [1; 2; 3; 4; 5].
Proof.
  split; [simpl; apply perm_swap |].
  split; [eexists; split; reflexivity |].
  split; [eexists; split; reflexivity | discriminate].
Qed.

(** ** Loading and saving the container *)

(** A file with the variables x and t@ObsValue is loaded into the groups
    GroupUndefined and ObsValue, the value above the threshold replaced;
    saved again, its variables are t@ObsValue and x@GroupUndefined. *)
Example load_then_dump :
  Database.CreateFromFile (Sample.serve Sample.bare_file) Sample.u0 Sample.fmiss
    Sample.empty_db "in.nc" "r" Sample.t0000 Sample.t0030 Sample.one_rank
  = Returned
      (Database.mkContainer Sample.t0000 Sample.t0030 Sample.one_rank 2 1
         [Database.mkRecord "GroupUndefined" "x" "r" 2 [any_int 7; any_int 8];
          Database.mkRecord "ObsValue" "t" "r" 2
            [any_float (F32.of_Z 1); any_float Sample.fmiss]])
  /\ (c <- Database.CreateFromFile (Sample.serve Sample.bare_file) Sample.u0 Sample.fmiss
             Sample.empty_db "in.nc" "r" Sample.t0000 Sample.t0030 Sample.one_rank ;;
      io <- Database.dump (Sample.serve Sample.bare_file) Sample.u0 c "out.nc" ;;
      Returned (map var_name (nc_vars (ncid_ io))))
     = Returned ["t@ObsValue"; "x@GroupUndefined"].
Proof. split; vm_compute; reflexivity. Qed.

Lemma find_pos_absent {A : Type} (p : A -> bool) (l : list A) (n : nat) :
  (forall x, In x l -> p x = false) -> find_pos p l n = None.
Proof.
  revert n. induction l as [| x l IH]; intros n H; simpl; [reflexivity |].
  rewrite (H x (or_introl eq_refl)). apply IH. intros y Hy. apply H. now right.
Qed.

Lemma varid_absent (f : nc_file) (name : string) :
  ~ In name (map var_name (nc_vars f)) -> nc_inq_varid f name = NcErr NC_ENOTVAR.
Proof.
  intros H. unfold nc_inq_varid. rewrite find_pos_absent; [reflexivity |].
  intros x Hx. apply String.eqb_neq. intros Heq. apply H.
  rewrite <- Heq. now apply in_map.
Qed.

Lemma set_nth_last {A : Type} (l : list A) (x y : A) :
  set_nth (List.length l) x (l ++ [y]) = l ++ [x].
Proof. induction l as [| z l IH]; simpl; [reflexivity | now rewrite IH]. Qed.

(** Writing a variable that the file does not have adds it at the end. *)
Lemma WriteVar_new (io : NetcdfIO) (VarName : string) (empty d : nc_data) :
  ~ In VarName (map var_name (nc_vars (ncid_ io))) ->
  WriteVar io VarName empty d =
  Returned (with_file io
              (mkFile (nc_dims (ncid_ io)) (nc_date_time (ncid_ io))
                 (nc_vars (ncid_ io) ++ [mkVar VarName [nlocs_id_ io] d]))).
Proof.
  intros H. unfold WriteVar. rewrite (varid_absent _ _ H).
  unfold nc_def_var. unfold nc_inq_varid in *.
  rewrite find_pos_absent.
  2:{ intros x Hx. apply String.eqb_neq. intros Heq. apply H.
      rewrite <- Heq. now apply in_map. }
  simpl. unfold nc_put_var. simpl.
  rewrite nth_error_app2 by lia. rewrite Nat.sub_diag. simpl.
  now rewrite set_nth_last.
Qed.

Lemma cast_all_int (z : Z) (l : list any) :
  forallb (Database.same_type (any_int z)) l = true ->
  exists zs, cast_all any_cast_int l = Returned zs.
Proof.
  induction l as [| a l IH]; simpl; [eauto |].
  intros H. apply andb_true_iff in H. destruct H as [Ha Hl].
  destruct a; try discriminate. destruct (IH Hl) as [zs Hzs].
  simpl. rewrite Hzs. simpl. eauto.
Qed.

Lemma cast_all_float (x : spec_float) (l : list any) :
  forallb (Database.same_type (any_float x)) l = true ->
  exists xs, cast_all any_cast_float l = Returned xs.
Proof.
  induction l as [| a l IH]; simpl; [eauto |].
  intros H. apply andb_true_iff in H. destruct H as [Ha Hl].
  destruct a; try discriminate. destruct (IH Hl) as [xs Hxs].
  simpl. rewrite Hxs. simpl. eauto.
Qed.

Lemma cast_all_double (x : spec_float) (l : list any) :
  forallb (Database.same_type (any_double x)) l = true ->
  exists xs, cast_all any_cast_double l = Returned xs.
Proof.
  induction l as [| a l IH]; simpl; [eauto |].
  intros H. apply andb_true_iff in H. destruct H as [Ha Hl].
  destruct a; try discriminate. destruct (IH Hl) as [xs Hxs].
  simpl. rewrite Hxs. simpl. eauto.
Qed.

Lemma WriteVar_any_new (io : NetcdfIO) (VarName : string) (VarData : list any) :
  Database.writable (nlocs io) VarData = true ->
  ~ In VarName (map var_name (nc_vars (ncid_ io))) ->
  exists d,
    WriteVar_any io VarName VarData =
    Returned (with_file io
                (mkFile (nc_dims (ncid_ io)) (nc_date_time (ncid_ io))
                   (nc_vars (ncid_ io) ++ [mkVar VarName [nlocs_id_ io] d]))).
Proof.
  intros Hw Hn. unfold Database.writable in Hw. unfold WriteVar_any, cells.
  simpl in Hw. apply andb_true_iff in Hw. destruct Hw as [Hhd Hw].
  destruct (hd any_empty VarData) as [| z | x | x]; [discriminate | | |].
  - destruct (cast_all_int z _ Hw) as [zs Hzs]. rewrite Hzs. simpl.
    exists (IntData zs). now apply WriteVar_new.
  - destruct (cast_all_float x _ Hw) as [xs Hxs]. rewrite Hxs. simpl.
    exists (FloatData xs). now apply WriteVar_new.
  - destruct (cast_all_double x _ Hw) as [xs Hxs]. rewrite Hxs. simpl.
    exists (DoubleData xs). now apply WriteVar_new.
Qed.

Lemma write_records_names (recs : list Database.Record_) (io : NetcdfIO) :
  (forall r, In r recs -> Database.writable (nlocs io) (Database.data r) = true) ->
  NoDup (map Database.file_name_of recs) ->
  (forall r, In r recs ->
             ~ In (Database.file_name_of r) (map var_name (nc_vars (ncid_ io)))) ->
  exists io',
    Database.write_records io recs = Returned io'
    /\ map var_name (nc_vars (ncid_ io'))
       = map var_name (nc_vars (ncid_ io)) ++ map Database.file_name_of recs.
Proof.
  revert io. induction recs as [| r recs IH]; intros io Hw Hnd Hfresh; simpl.
  - exists io. now rewrite app_nil_r.
  - destruct (WriteVar_any_new io (Database.file_name_of r) (Database.data r))
      as (d & Hd).
    + apply Hw. now left.
    + apply Hfresh. now left.
    + rewrite Hd. simpl.
      inversion Hnd as [| n l Hnotin Hnd']; subst.
      destruct (IH (with_file io
                      (mkFile (nc_dims (ncid_ io)) (nc_date_time (ncid_ io))
                         (nc_vars (ncid_ io)
                          ++ [mkVar (Database.file_name_of r) [nlocs_id_ io] d]))))
        as (io' & Hio' & Hnames).
      * intros r' Hr'. apply Hw. now right.
      * assumption.
      * intros r' Hr'. simpl. rewrite map_app. simpl. intros Hin.
        apply in_app_or in Hin. destruct Hin as [Hin | [Heq | []]].
        -- apply (Hfresh r'); [now right | assumption].
        -- apply Hnotin. rewrite Heq. now apply in_map.
      * exists io'. split; [assumption |].
        rewrite Hnames. simpl. rewrite map_app. simpl. now rewrite <- app_assoc.
Qed.

(** The by-variable iteration goes up in the variable names. *)
Lemma insert_sorted_sorted (r : Database.Record_) (l : list Database.Record_) :
  Sorted (fun a b => String.ltb (Database.variable b) (Database.variable a) = false) l ->
  Sorted (fun a b => String.ltb (Database.variable b) (Database.variable a) = false)
         (Database.insert_sorted r l).
Proof.
  induction 1 as [| x l Hl IH Hhd]; simpl.
  - repeat constructor.
  - destruct (String.ltb (Database.variable r) (Database.variable x)) eqn:E.
    + constructor; [now constructor |]. constructor.
      unfold String.ltb in *. rewrite String.compare_antisym.
      destruct (String.compare (Database.variable r) (Database.variable x));
        try discriminate. reflexivity.
    + constructor; [assumption |].
      destruct l as [| y l]; simpl.
      * now constructor.
      * destruct (String.ltb (Database.variable r) (Database.variable y)).
        -- now constructor.
        -- inversion Hhd; subst. now constructor.
Qed.

Lemma by_variable_sorted (l : list Database.Record_) :
  Sorted (fun a b => String.ltb (Database.variable b) (Database.variable a) = false)
         (Database.by_variable l).
Proof.
  unfold Database.by_variable.
  assert (H : forall acc,
             Sorted (fun a b => String.ltb (Database.variable b) (Database.variable a)
                                = false) acc ->
             Sorted (fun a b => String.ltb (Database.variable b) (Database.variable a)
                                = false)
                    (fold_left (fun acc r => Database.insert_sorted r acc) l acc)).
  { induction l as [| r l IH]; intros acc Hacc; simpl; [assumption |].
    apply IH. now apply insert_sorted_sorted. }
  apply H. constructor.
Qed.

Lemma insert_sorted_perm (r : Database.Record_) (l : list Database.Record_) :
  Permutation (Database.insert_sorted r l) (r :: l).
Proof.
  induction l as [| x l IH]; simpl; [apply Permutation_refl |].
  destruct (String.ltb _ _); [apply Permutation_refl |].
  apply Permutation_trans with (l' := x :: r :: l); [now apply perm_skip | apply perm_swap].
Qed.

Lemma by_variable_perm (l : list Database.Record_) :
  Permutation (Database.by_variable l) l.
Proof.
  unfold Database.by_variable.
  assert (H : forall acc, Permutation
                (fold_left (fun acc r => Database.insert_sorted r acc) l acc) (acc ++ l)).
  { induction l as [| r l IH]; intros acc; simpl.
    - rewrite app_nil_r. apply Permutation_refl.
    - apply Permutation_trans with (l' := Database.insert_sorted r acc ++ l); [apply IH |].
      apply Permutation_trans with (l' := (r :: acc) ++ l).
      + apply Permutation_app_tail. apply insert_sorted_perm.
      + simpl. apply Permutation_cons_app. apply Permutation_refl. }
  apply (H []).
Qed.

(** C6 (as amended).  [dump] writes every record of the container under
    the name [variable@group], whatever the group: a variable of the group
    [GroupUndefined] is written as [variable@GroupUndefined].  The variables
    are created in the file in the order of the by-variable iteration, which
    goes up in the variable names.
    (For a file that can be created, records whose first [nlocs] cells hold
    one of the types int, float, double, and names that differ from record
    to record.) *)
Theorem C6_dump_names_and_order (be : Backend) (u : Indeterminate)
    (c : Database.ObsSpaceContainer) (file_name : string) :
  nc_create be file_name true = NC_NOERR ->
  (forall r, In r (Database.DataContainer c) ->
             Database.writable (Database.c_nlocs_ c) (Database.data r) = true) ->
  NoDup (map Database.file_name_of (Database.DataContainer c)) ->
  exists fileio,
    Database.dump be u c file_name = Returned fileio
    /\ map var_name (nc_vars (ncid_ fileio))
       = map (fun r => String.append (Database.variable r)
                         (String.append "@" (Database.group r)))
             (Database.by_variable (Database.DataContainer c))
    /\ Sorted (fun a b => String.ltb (Database.variable b) (Database.variable a) = false)
              (Database.by_variable (Database.DataContainer c))
    /\ forall r, In r (Database.DataContainer c) ->
                 Database.group r = "GroupUndefined" ->
                 In (String.append (Database.variable r) "@GroupUndefined")
                    (map var_name (nc_vars (ncid_ fileio))).
Proof.
  intros Hcreate Hw Hnd. unfold Database.dump.
  unfold NetcdfIO_new, open_file, created. simpl. rewrite Hcreate. simpl.
  set (io0 := construct_write u empty_file file_name "W"
                (Database.c_nlocs_ c) 0 0 (Database.c_nvars_ c)).
  pose proof (by_variable_perm (Database.DataContainer c)) as Hperm.
  destruct (write_records_names (Database.by_variable (Database.DataContainer c)) io0)
    as (io' & Hio' & Hnames).
  - intros r Hr. apply Hw. now apply (Permutation_in _ Hperm).
  - apply (Permutation_NoDup (l := map Database.file_name_of (Database.DataContainer c)));
      [| assumption].
    apply Permutation_map. now apply Permutation_sym.
  - intros r _ [].
  - exists io'. split; [exact Hio' |]. split; [| split].
    + rewrite Hnames. reflexivity.
    + apply by_variable_sorted.
    + intros r Hr Hg. rewrite Hnames. simpl.
      apply (Permutation_in _ (Permutation_sym Hperm)) in Hr.
      apply (in_map Database.file_name_of) in Hr.
      unfold Database.file_name_of in Hr at 1. now rewrite Hg in Hr.
Qed.

(** A container with the records t@ObsValue, x@GroupUndefined and
    lat@MetaData is written as lat@MetaData, t@ObsValue, x@GroupUndefined. *)
Lemma C6_dump_witness :
  exists fileio,
    Database.dump (Sample.serve empty_file) Sample.u0 Sample.small_db "out.nc"
    = Returned fileio
    /\ map var_name (nc_vars (ncid_ fileio))
       = ["lat@MetaData"; "t@ObsValue"; "x@GroupUndefined"].
Proof.
  destruct (C6_dump_names_and_order (Sample.serve empty_file) Sample.u0
              Sample.small_db "out.nc" eq_refl) as (fileio & Hdump & Hnames & _ & _).
  - intros r [<- | [<- | [<- | []]]]; reflexivity.
  - simpl. repeat constructor; simpl; intuition discriminate.
  - exists fileio. split; [exact Hdump | exact Hnames].
Defined.

(** The variable x of the group GroupUndefined is not written under the
    bare name x. *)
Lemma C6_group_undefined_keeps_group :
  exists fileio,
    Database.dump (Sample.serve empty_file) Sample.u0 Sample.small_db "out.nc"
    = Returned fileio
    /\ map Database.spec_file_name_of
           (Database.by_variable (Database.DataContainer Sample.small_db))
       = ["lat@MetaData"; "t@ObsValue"; "x"]
    /\ map var_name (nc_vars (ncid_ fileio))
       = ["lat@MetaData"; "t@ObsValue"; "x@GroupUndefined"]
    /\ ~ In "x" (map var_name (nc_vars (ncid_ fileio))).
Proof.
  eexists. split; [vm_compute; reflexivity |].
  split; [reflexivity | split; [reflexivity |]].
  simpl. intros [H | [H | [H | []]]]; discriminate H.
Qed.


(** * Further properties *)

(** ** The two overloads of ReadDateTime *)

Lemma map_if_ltb_seq {A : Type} (g : nat -> A) (d : A) (n : nat) :
  map (fun i => if Nat.ltb i n then g i else d) (seq 0 n) = map g (seq 0 n).
Proof.
  apply map_ext_in. intros i Hi. apply in_seq in Hi.
  destruct (Nat.ltb_spec i n); [reflexivity | lia].
Qed.

Lemma CheckNcCall_cases (rc : Z) (msg : string) :
  (rc = NC_NOERR /\ CheckNcCall rc msg = Returned tt)
  \/ (rc <> NC_NOERR /\ CheckNcCall rc msg = Aborted msg).
Proof.
  unfold CheckNcCall. destruct (Z.eqb_spec rc NC_NOERR); auto.
Qed.

Lemma firstn_seq_le (k n s : nat) :
  (k <= n)%nat -> firstn k (seq s n) = seq s k.
Proof.
  revert n s. induction k as [| k IH]; intros [| n] s Hle; simpl; try reflexivity; try lia.
  f_equal. apply IH. lia.
Qed.

Lemma varid_found (f : nc_file) (name : string) :
  retcode (nc_inq_varid f name) = NC_NOERR -> exists id, nc_inq_varid f name = NcOk id.
Proof.
  unfold nc_inq_varid. destruct (find_pos _ _ _) as [id |]; [eauto | discriminate].
Qed.

Lemma vardimid_found (f : nc_file) (id : nat) :
  retcode (nc_inq_vardimid f id) = NC_NOERR ->
  exists v, nth_error (nc_vars f) id = Some v /\ nc_inq_vardimid f id = NcOk (var_dimids v).
Proof.
  unfold nc_inq_vardimid. destruct (nth_error _ _) as [v |]; [eauto | discriminate].
Qed.

Lemma dimlen_found (f : nc_file) (dimid : Z) :
  retcode (nc_inq_dimlen f dimid) = NC_NOERR -> exists n, nc_inq_dimlen f dimid = NcOk n.
Proof.
  unfold nc_inq_dimlen. destruct (dimid <? 0); [discriminate |].
  destruct (nth_error _ _) as [d |]; [eauto | discriminate].
Qed.

(** The overload that fills the arrays of dates and times, on two arrays,
    against the overload that fills an array of timestamps that has as
    many cells as the shorter of the two.  Where the one aborts the other
    aborts with the same message; where the one writes beyond its array
    the other writes beyond one of its arrays; and where the one returns,
    the other assigns to the first [vsize] cells of its arrays the dates
    [yyyymmdd] and the times [hhmmss] of the first [vsize] timestamps,
    [vsize] being the length of the first dimension of the time variable,
    and leaves the other cells as they were.  With the reference date
    2018041500 and the offsets -3.5 and 0.5 hours the dates are 20180414
    and 20180415 and the times 203000 and 003000. *)
Theorem ReadDateTime_overloads_agree :
  (forall (u : Indeterminate) (f : nc_file) (VarDate VarTime : list Z),
      match ReadDateTime u f (Nat.min (List.length VarDate) (List.length VarTime)) with
      | Returned datetime =>
          exists id v vsize,
            match nc_inq_varid f "time" with
            | NcOk id => NcOk id
            | NcErr _ => nc_inq_varid f "time@MetaData"
            end = NcOk id
            /\ nth_error (nc_vars f) id = Some v
            /\ nc_inq_dimlen f (hd (u_dimid u) (var_dimids v)) = NcOk vsize
            /\ (vsize <= Nat.min (List.length VarDate) (List.length VarTime))%nat
            /\ ReadDateTime_ints u f VarDate VarTime
               = Returned
                   (assign_front
                      (map (fun t => to_uint64 (date_of t)) (firstn vsize datetime))
                      VarDate,
                    assign_front (map time_of (firstn vsize datetime)) VarTime)
      | Aborted msg => ReadDateTime_ints u f VarDate VarTime = Aborted msg
      | Undefined _ => exists what, ReadDateTime_ints u f VarDate VarTime = Undefined what
      | Raised _ => False
      end)
  /\ ReadDateTime_ints Sample.u0
       (mkFile [("nlocs", 2%nat)] (Some 2018041500)
          [mkVar "time" [0] (FloatData [F32.of_dyadic (-7) (-1); F32.of_dyadic 1 (-1)])])
       [7; 7; 7] [8; 8; 8]
     = Returned ([20180414; 20180415; 7], [203000; 3000; 8]).
Proof.
  split; [| reflexivity].
  intros u f VarDate VarTime.
  set (n := Nat.min (List.length VarDate) (List.length VarTime)).
  unfold ReadDateTime_ints, ReadDateTime. cbv zeta.
  destruct (CheckNcCall_cases (retcode (nc_get_att_int_date_time f))
              "NetcdfIO::ReadDateTime: Unable to read attribute: date_time")
    as [[_ H1] | [_ H1]]; rewrite H1; cbn [bind]; [| reflexivity].
  set (tv := match nc_inq_varid f "time" with
             | NcOk id => NcOk id
             | NcErr _ => nc_inq_varid f "time@MetaData"
             end).
  destruct (CheckNcCall_cases (retcode tv)
              "NetcdfIO::ReadDateTime: Unable to find time variable: time OR Obs_Time")
    as [[Hrc2 H2] | [_ H2]]; rewrite H2; cbn [bind]; [| reflexivity].
  assert (exists id, tv = NcOk id) as [id Htv].
  { unfold tv in *. destruct (nc_inq_varid f "time") as [id |]; [eauto |].
    now apply varid_found. }
  rewrite Htv. cbn [output].
  destruct (CheckNcCall_cases (retcode (nc_inq_vardimid f id))
              "NetcdfIO::ReadDateTime: Unable to find dimension of time variable")
    as [[Hrc3 H3] | [_ H3]]; rewrite H3; cbn [bind]; [| reflexivity].
  destruct (vardimid_found f id Hrc3) as (v & Hv & Hdd). rewrite Hdd. cbn [output].
  destruct (CheckNcCall_cases
              (retcode (nc_inq_dimlen f (hd (u_dimid u) (var_dimids v))))
              "NetcdfIO::ReadDateTime: Unable to find size of dimension of time variable")
    as [[Hrc4 H4] | [_ H4]]; rewrite H4; cbn [bind]; [| reflexivity].
  destruct (dimlen_found f _ Hrc4) as (vsize & Hdl). rewrite Hdl. cbn [output].
  destruct (CheckNcCall_cases (retcode (nc_get_var_float f id))
              "NetcdfIO::ReadDateTime: Unable to read time variable: ")
    as [[_ H5] | [_ H5]]; rewrite H5; cbn [bind]; [| reflexivity].
  destruct (Nat.ltb_spec n vsize) as [Hlt | Hle].
  - assert (Hor : Nat.ltb (List.length VarDate) vsize
                  || Nat.ltb (List.length VarTime) vsize = true).
    { apply orb_true_iff. unfold n in Hlt.
      destruct (Nat.ltb_spec (List.length VarDate) vsize); [now left |].
      right. apply Nat.ltb_lt. lia. }
    rewrite Hor. eauto.
  - assert (Hor : Nat.ltb (List.length VarDate) vsize
                  || Nat.ltb (List.length VarTime) vsize = false).
    { apply orb_false_iff. unfold n in Hle. split; apply Nat.ltb_ge; lia. }
    rewrite Hor. exists id, v, vsize.
    split; [reflexivity |]. split; [exact Hv |]. split; [exact Hdl |].
    split; [exact Hle |].
    rewrite firstn_map, (firstn_seq_le vsize n 0 Hle).
    rewrite map_if_ltb_seq. reflexivity.
Qed.

(** ** The reader after its construction *)

(** What the constructor has done when it returns in read mode. *)
Lemma reader_state (be : Backend) (u : Indeterminate) (FileName : string)
    (bgn end_ : DateTime) (comm : Comm) (Nlocs Nobs Nrecs Nvars : nat) (io : NetcdfIO) :
  NetcdfIO_new be u FileName "r" bgn end_ comm Nlocs Nobs Nrecs Nvars = Returned io ->
  exists f,
    nc_open be FileName = NcOk f
    /\ ncid_ io = f
    /\ read_sizes u f Nlocs Nobs Nrecs Nvars (inquire_dims u f)
       = Returned (mkSizes (nfvlen_ io) (nobs_ io) (nrecs_ io) (nvars_ io))
    /\ nlocs_ io = dist_size (dist_ io)
    /\ match nc_date_time f with
       | None =>
           dist_ io = roundrobin_distribution comm (nfvlen_ io) None
           /\ date_ io = [] /\ time_ io = []
       | Some _ =>
           exists datetime,
             ReadDateTime u f (nfvlen_ io) = Returned datetime
             /\ dist_index (dist_ io)
                = filter (retained bgn end_ datetime)
                    (dist_index (roundrobin_distribution comm (nfvlen_ io) None))
             /\ date_ io = map (fun i => date_of (nth i datetime default_DateTime))
                               (dist_index (dist_ io))
             /\ time_ io = map (fun i => time_of (nth i datetime default_DateTime))
                               (dist_index (dist_ io))
       end.
Proof.
  intros Hnew.
  apply NetcdfIO_new_read in Hnew.
  destruct Hnew as (f & sz & w & Hopen & Hsz & Hw & Hio).
  exists f. split; [assumption |].
  assert (Hf : ncid_ io = f) by (rewrite Hio; reflexivity).
  assert (Hn : nfvlen_ io = s_nfvlen sz) by (rewrite Hio; reflexivity).
  assert (Hsizes : mkSizes (nfvlen_ io) (nobs_ io) (nrecs_ io) (nvars_ io) = sz)
    by (rewrite Hio; destruct sz; reflexivity).
  assert (Hnl : nlocs_ io = dist_size (dist_ io)) by (rewrite Hio; reflexivity).
  assert (Hdist : dist_ io = w_dist w) by (rewrite Hio; reflexivity).
  assert (Hdate : date_ io = w_date w) by (rewrite Hio; reflexivity).
  assert (Htime : time_ io = w_time w) by (rewrite Hio; reflexivity).
  clear Hio. split; [assumption |]. split; [now rewrite Hsizes |].
  split; [assumption |].
  rewrite Hn, Hdist, Hdate, Htime.
  destruct (nc_date_time f) as [dtvals |] eqn:Hat.
  - apply apply_window_inv in Hw; [| apply roundrobin_index_NoDup | congruence].
    destruct Hw as (datetime & Hrd & Hw). exists datetime. split; [assumption |].
    assert (Hidx : dist_index (w_dist w)
                   = filter (retained bgn end_ datetime)
                       (dist_index (roundrobin_distribution comm (s_nfvlen sz) None))).
    { rewrite Hw. cbn [w_dist].
      apply (erase_dropped (retained bgn end_ datetime)
               (roundrobin_distribution comm (s_nfvlen sz) None)).
      apply roundrobin_index_NoDup. }
    split; [assumption |]. rewrite Hidx. rewrite Hw. split; reflexivity.
  - unfold apply_window, nc_inq_attid_date_time in Hw. rewrite Hat in Hw. simpl in Hw.
    injection Hw as <-. simpl. auto.
Qed.

Lemma filter_length_le_seq (p : nat -> bool) (n : nat) :
  (List.length (filter p (seq 0 n)) <= n)%nat.
Proof.
  pose proof (filter_length_le p (seq 0 n)) as H. now rewrite length_seq in H.
Qed.

(** The reader the constructor returns: [nlocs_] is the number of owned
    indices; these are below [nfvlen_], belong to the rank of the reader
    and go up strictly; and with a reference date in the file there is one
    date and one time for each of them, without it there is none. *)
Theorem reader_invariants (be : Backend) (u : Indeterminate) (FileName : string)
    (bgn end_ : DateTime) (comm : Comm) (Nlocs Nobs Nrecs Nvars : nat) (io : NetcdfIO) :
  NetcdfIO_new be u FileName "r" bgn end_ comm Nlocs Nobs Nrecs Nvars = Returned io ->
  nlocs io = List.length (dist_index (dist_ io))
  /\ (nlocs io <= nfvlen_ io)%nat
  /\ StronglySorted lt (dist_index (dist_ io))
  /\ (forall i, In i (dist_index (dist_ io)) ->
                (i < nfvlen_ io)%nat
                /\ Nat.modulo i (comm_size comm) = comm_rank comm)
  /\ (nc_date_time (ncid_ io) <> None ->
      List.length (date_ io) = nlocs io /\ List.length (time_ io) = nlocs io)
  /\ (nc_date_time (ncid_ io) = None -> date_ io = [] /\ time_ io = []).
Proof.
  intros Hnew. apply reader_state in Hnew.
  destruct Hnew as (f & _ & Hf & _ & Hnl & Hcase).
  unfold nlocs. rewrite Hnl, Hf. unfold dist_size. fold (dist_index (dist_ io)).
  assert (Hidx : exists p, dist_index (dist_ io) = filter p (seq 0 (nfvlen_ io))
                           /\ forall i, p i = true ->
                                Nat.modulo i (comm_size comm) = comm_rank comm).
  { destruct (nc_date_time f).
    - destruct Hcase as (datetime & _ & Hidx & _).
      exists (fun i => Nat.eqb (Nat.modulo i (comm_size comm)) (comm_rank comm)
                       && retained bgn end_ datetime i).
      split.
      + rewrite Hidx. unfold roundrobin_distribution, dist_index. simpl.
        apply filter_filter.
      + intros i Hi. apply andb_true_iff in Hi. now apply Nat.eqb_eq.
    - destruct Hcase as (Hd & _). rewrite Hd.
      exists (fun i => Nat.eqb (Nat.modulo i (comm_size comm)) (comm_rank comm)).
      split; [reflexivity |]. intros i Hi. now apply Nat.eqb_eq. }
  destruct Hidx as (p & Hidx & Hp).
  split; [reflexivity |]. split; [| split; [| split; [| split]]].
  - rewrite Hidx. apply filter_length_le_seq.
  - rewrite Hidx. apply filter_seq_sorted.
  - intros i Hi. rewrite Hidx in Hi. apply filter_In in Hi. destruct Hi as [Hi Hpi].
    apply in_seq in Hi. split; [lia | now apply Hp].
  - intros Hat. destruct (nc_date_time f); [| contradiction].
    destruct Hcase as (datetime & _ & _ & Hd & Ht).
    rewrite Hd, Ht, !length_map. auto.
  - intros Hat. rewrite Hat in Hcase. tauto.
Qed.

(** In the time-filter scenario one of five locations is owned, with one
    date and one time. *)
Lemma reader_invariants_witness :
  nlocs Sample.window_io = 1%nat
  /\ (nlocs Sample.window_io <= 5)%nat
  /\ List.length (date_ Sample.window_io) = 1%nat.
Proof.
  destruct (reader_invariants (Sample.serve Sample.window_file) Sample.u0 "obs.nc"
              Sample.t0000 Sample.t0030 Sample.one_rank 0 0 0 0 Sample.window_io
              window_io_constructed) as (Hn & Hle & _ & _ & Hdt & _).
  split; [exact Hn | split; [exact Hle |]].
  exact (proj1 (Hdt ltac:(discriminate))).
Defined.

(** ** Files without the reference date, or without the time variable *)

(** In a file without the attribute [date_time] no location is filtered and
    no date or time is stored; reading a variable whose name begins with
    "date" or "time" then fails its assertion, unless the reader owns no
    location, in which case the array of the caller is returned as it is. *)
Theorem no_reference_date (be : Backend) (u : Indeterminate) (FileName : string)
    (bgn end_ : DateTime) (comm : Comm) (Nlocs Nobs Nrecs Nvars : nat) (io : NetcdfIO) :
  NetcdfIO_new be u FileName "r" bgn end_ comm Nlocs Nobs Nrecs Nvars = Returned io ->
  nc_date_time (ncid_ io) = None ->
  dist_ io = roundrobin_distribution comm (nfvlen_ io) None
  /\ date_ io = [] /\ time_ io = []
  /\ forall fmiss VarName VarData,
       (starts_with "date" VarName = true ->
        ReadVar_any fmiss io VarName VarData
        = if Nat.eqb (nlocs io) 0 then Returned VarData
          else Raised (AssertionFailed "date_.size() == dist_->size()"))
       /\ (starts_with "time" VarName = true ->
           ReadVar_any fmiss io VarName VarData
           = if Nat.eqb (nlocs io) 0 then Returned VarData
             else Raised (AssertionFailed "time_.size() == dist_->size()")).
Proof.
  intros Hnew Hat. apply reader_state in Hnew.
  destruct Hnew as (f & _ & Hf & _ & Hnl & Hcase).
  rewrite Hf in Hat. rewrite Hat in Hcase. destruct Hcase as (Hd & Hdate & Htime).
  split; [assumption |]. split; [assumption |]. split; [assumption |].
  intros fmiss VarName VarData. unfold nlocs. rewrite Hnl.
  split; intros Hname; unfold ReadVar_any.
  - rewrite Hname, Hdate. simpl.
    destruct (dist_size (dist_ io)); reflexivity.
  - rewrite (starts_with_time_not_date VarName Hname), Hname, Htime. simpl.
    destruct (dist_size (dist_ io)); reflexivity.
Qed.

(** The sample file has no reference date and three locations: reading
    "date" from it fails the assertion. *)
Lemma no_reference_date_witness :
  ReadVar_any Sample.fmiss Sample.float_io "date@MetaData" (repeat any_empty 3)
  = Raised (AssertionFailed "date_.size() == dist_->size()").
Proof.
  destruct (no_reference_date (Sample.serve (Sample.float_file Sample.raw3)) Sample.u0
              "obs.nc" (fst Sample.all_times) (snd Sample.all_times) Sample.one_rank
              0 0 0 0 Sample.float_io float_io_constructed eq_refl) as (_ & _ & _ & H).
  exact (proj1 (H Sample.fmiss "date@MetaData" (repeat any_empty 3)) eq_refl).
Defined.

(** The sizes are defined for a new file and for an old file whose
    dimension [nchans], if it has one, is not of length 0. *)
Lemma read_sizes_defined (u : Indeterminate) (f : nc_file) (Nlocs Nobs Nrecs Nvars : nat) :
  dim_length f "nrecs" <> None \/ dim_length f "nchans" <> Some 0%nat ->
  exists sz, read_sizes u f Nlocs Nobs Nrecs Nvars (inquire_dims u f) = Returned sz.
Proof.
  intros H. unfold read_sizes.
  destruct (d_have_nrecs (inquire_dims u f)) eqn:Hrecs; [eauto |].
  assert (Hnone : dim_length f "nrecs" = None).
  { destruct (dim_length f "nrecs") as [n |] eqn:Hn; [| reflexivity].
    destruct (dim_present f "nrecs" n Hn) as (id & Hid & _).
    unfold inquire_dims in Hrecs. simpl in Hrecs. rewrite Hid in Hrecs. discriminate. }
  destruct H as [H | H]; [contradiction |].
  cbv zeta.
  destruct (d_have_nchans (inquire_dims u f)) eqn:Hchans; [| simpl; eauto].
  destruct (dim_length f "nchans") as [n |] eqn:Hn.
  - destruct (dim_present f "nchans" n Hn) as (id & Hid & Hlen).
    unfold inquire_dims. simpl. rewrite Hid. simpl. rewrite Hlen. simpl.
    destruct n as [| n]; [contradiction | simpl; eauto].
  - apply dim_absent in Hn. unfold inquire_dims in Hchans. simpl in Hchans.
    rewrite Hn in Hchans. discriminate.
Qed.

Lemma read_sizes_undefined (u : Indeterminate) (f : nc_file) (Nlocs Nobs Nrecs Nvars : nat) :
  dim_length f "nrecs" = None -> dim_length f "nchans" = Some 0%nat ->
  read_sizes u f Nlocs Nobs Nrecs Nvars (inquire_dims u f)
  = Undefined "nobs_ / nvars_ with nvars_ equal to 0".
Proof.
  intros Hrecs Hchans. apply dim_absent in Hrecs.
  destruct (dim_present f "nchans" 0%nat Hchans) as (id & Hid & Hlen).
  unfold read_sizes, inquire_dims. simpl. rewrite Hrecs, Hid. simpl.
  rewrite Hlen. reflexivity.
Qed.

(** A file that has the attribute [date_time] and neither a variable "time"
    nor a variable "time@MetaData" cannot be opened for reading: the
    constructor aborts; unless the file is of the old format with a
    dimension [nchans] of length 0, where the constructor has divided by
    zero before. *)
Theorem no_time_variable_aborts (be : Backend) (u : Indeterminate) (FileName : string)
    (bgn end_ : DateTime) (comm : Comm) (Nlocs Nobs Nrecs Nvars : nat) (f : nc_file) :
  nc_open be FileName = NcOk f ->
  nc_date_time f <> None ->
  ~ In "time" (map var_name (nc_vars f)) ->
  ~ In "time@MetaData" (map var_name (nc_vars f)) ->
  (dim_length f "nrecs" <> None \/ dim_length f "nchans" <> Some 0%nat ->
   NetcdfIO_new be u FileName "r" bgn end_ comm Nlocs Nobs Nrecs Nvars
   = Aborted "NetcdfIO::ReadDateTime: Unable to find time variable: time OR Obs_Time")
  /\ (dim_length f "nrecs" = None -> dim_length f "nchans" = Some 0%nat ->
      NetcdfIO_new be u FileName "r" bgn end_ comm Nlocs Nobs Nrecs Nvars
      = Undefined "nobs_ / nvars_ with nvars_ equal to 0").
Proof.
  intros Hopen Hat Ht Htm.
  unfold NetcdfIO_new, open_file. simpl. rewrite Hopen. simpl.
  unfold construct_read. cbv zeta. split.
  - intros Hdef.
    destruct (read_sizes_defined u f Nlocs Nobs Nrecs Nvars Hdef) as [sz Hsz].
    rewrite Hsz. simpl. rewrite scan_all_variables. simpl.
    unfold apply_window, nc_inq_attid_date_time.
    destruct (nc_date_time f) as [dtvals |] eqn:Hdt; [| contradiction]. simpl.
    unfold ReadDateTime, nc_get_att_int_date_time. rewrite Hdt. simpl.
    rewrite (varid_absent f "time" Ht), (varid_absent f "time@MetaData" Htm).
    reflexivity.
  - intros Hrecs Hchans.
    now rewrite (read_sizes_undefined u f Nlocs Nobs Nrecs Nvars Hrecs Hchans).
Qed.

Lemma no_time_variable_witness :
  NetcdfIO_new (Sample.serve no_time_file) Sample.u0 "obs.nc" "r"
    Sample.t0000 Sample.t0030 Sample.one_rank 0 0 0 0
  = Aborted "NetcdfIO::ReadDateTime: Unable to find time variable: time OR Obs_Time".
Proof.
  refine (proj1 (no_time_variable_aborts (Sample.serve no_time_file) Sample.u0 "obs.nc"
                   Sample.t0000 Sample.t0030 Sample.one_rank 0 0 0 0 no_time_file
                   eq_refl _ _ _) _).
  - discriminate.
  - simpl. intros [H | []]. discriminate H.
  - simpl. intros [H | []]. discriminate H.
  - left. discriminate.
Defined.

(** ** The window and the ranks *)

Lemma dt_order_props (a b : DateTime) :
  (dt_ltb a b = true <->
   julian_ a < julian_ b \/ (julian_ a = julian_ b /\ seconds_ a < seconds_ b))
  /\ (dt_leb a b = true <->
      julian_ a < julian_ b \/ (julian_ a = julian_ b /\ seconds_ a <= seconds_ b)).
Proof.
  unfold dt_ltb, dt_leb.
  rewrite !orb_true_iff, !andb_true_iff, !Z.ltb_lt, Z.eqb_eq, Z.leb_le. tauto.
Qed.

Lemma retained_wider (bgn end_ bgn' end_' : DateTime) (datetime : list DateTime) (i : nat) :
  dt_leb bgn' bgn = true -> dt_leb end_ end_' = true ->
  retained bgn end_ datetime i = true -> retained bgn' end_' datetime i = true.
Proof.
  intros Hb He H. apply retained_iff in H. apply retained_iff.
  destruct H as [H1 H2].
  apply (proj2 (dt_order_props _ _)) in Hb, He.
  apply (proj1 (dt_order_props _ _)) in H1.
  apply (proj2 (dt_order_props _ _)) in H2.
  split.
  - apply (proj1 (dt_order_props _ _)). lia.
  - apply (proj2 (dt_order_props _ _)). lia.
Qed.

Lemma retained_empty_window (bgn end_ : DateTime) (datetime : list DateTime) (i : nat) :
  dt_leb end_ bgn = true -> retained bgn end_ datetime i = false.
Proof.
  intros He. destruct (retained bgn end_ datetime i) eqn:H; [| reflexivity].
  apply retained_iff in H. destruct H as [H1 H2].
  apply (proj2 (dt_order_props _ _)) in He, H2.
  apply (proj1 (dt_order_props _ _)) in H1. lia.
Qed.

(** A wider window keeps at least the locations a narrower one keeps: the
    same file read by the same rank with a window from an earlier or equal
    begin to a later or equal end owns every index it owns with the
    narrower window. *)
Theorem wider_window_keeps_more (be : Backend) (u : Indeterminate) (FileName : string)
    (bgn end_ bgn' end_' : DateTime) (comm : Comm) (Nlocs Nobs Nrecs Nvars : nat)
    (io io' : NetcdfIO) :
  NetcdfIO_new be u FileName "r" bgn end_ comm Nlocs Nobs Nrecs Nvars = Returned io ->
  NetcdfIO_new be u FileName "r" bgn' end_' comm Nlocs Nobs Nrecs Nvars = Returned io' ->
  dt_leb bgn' bgn = true ->
  dt_leb end_ end_' = true ->
  (forall i, In i (dist_index (dist_ io)) -> In i (dist_index (dist_ io')))
  /\ (nlocs io <= nlocs io')%nat.
Proof.
  intros Hio Hio' Hb He.
  apply reader_state in Hio, Hio'.
  destruct Hio as (f & Hopen & Hf & Hn & Hnl & Hcase).
  destruct Hio' as (f' & Hopen' & Hf' & Hn' & Hnl' & Hcase').
  assert (Heq : f' = f) by congruence. rewrite Heq in *. clear Heq f'.
  assert (Hnn : nfvlen_ io' = nfvlen_ io) by congruence.
  assert (Hincl : exists p q,
             dist_index (dist_ io) = filter p (seq 0 (nfvlen_ io))
             /\ dist_index (dist_ io') = filter q (seq 0 (nfvlen_ io))
             /\ forall i, p i = true -> q i = true).
  { destruct (nc_date_time f).
    - destruct Hcase as (datetime & Hrd & Hidx & _).
      destruct Hcase' as (datetime' & Hrd' & Hidx' & _).
      rewrite Hnn in Hrd', Hidx'.
      assert (datetime' = datetime) by congruence. subst datetime'.
      exists (fun i => Nat.eqb (Nat.modulo i (comm_size comm)) (comm_rank comm)
                       && retained bgn end_ datetime i),
             (fun i => Nat.eqb (Nat.modulo i (comm_size comm)) (comm_rank comm)
                       && retained bgn' end_' datetime i).
      split; [| split].
      + rewrite Hidx. apply filter_filter.
      + rewrite Hidx'. apply filter_filter.
      + intros i Hi. cbv beta in Hi. apply andb_true_iff in Hi.
        destruct Hi as [Hr Hw]. cbv beta.
        rewrite Hr. simpl. now apply (retained_wider bgn end_).
    - destruct Hcase as (Hd & _). destruct Hcase' as (Hd' & _).
      rewrite Hnn in Hd'.
      exists (fun i => Nat.eqb (Nat.modulo i (comm_size comm)) (comm_rank comm)),
             (fun i => Nat.eqb (Nat.modulo i (comm_size comm)) (comm_rank comm)).
      rewrite Hd, Hd'. auto. }
  destruct Hincl as (p & q & Hp & Hq & Hpq).
  split.
  - intros i Hi. rewrite Hp in Hi. rewrite Hq.
    apply filter_In in Hi. apply filter_In. split; [apply Hi | apply Hpq, Hi].
  - unfold nlocs. rewrite Hnl, Hnl'. unfold dist_size.
    fold (dist_index (dist_ io)). fold (dist_index (dist_ io')). rewrite Hp, Hq.
    generalize (seq 0 (nfvlen_ io)). intros l.
    induction l as [| x l IH]; simpl; [lia |].
    destruct (p x) eqn:Hx.
    + rewrite (Hpq x Hx). simpl. lia.
    + destruct (q x); simpl; lia.
Qed.

Example window_io_wide_constructed :
  NetcdfIO_new (Sample.serve Sample.window_file) Sample.u0 "obs.nc" "r"
    Sample.t2330 Sample.t0030 Sample.one_rank 0 0 0 0
  = Returned window_io_wide.
Proof. vm_compute. reflexivity. Qed.

(** The time-filter scenario: the window from 00:00 to 00:30 keeps the
    observation at 00:24 (index 3), the window from 23:30 to 00:30 keeps
    those at 23:36, 00:00 and 00:24 (indices 1, 2 and 3); the index of the
    first is among those of the second. *)
Lemma wider_window_witness :
  (forall i, In i [3%nat] -> In i [1; 2; 3]%nat)
  /\ (1 <= 3)%nat.
Proof.
  exact (wider_window_keeps_more (Sample.serve Sample.window_file) Sample.u0
           "obs.nc" Sample.t0000 Sample.t0030 Sample.t2330 Sample.t0030
           Sample.one_rank 0 0 0 0 Sample.window_io window_io_wide
           window_io_constructed window_io_wide_constructed eq_refl eq_refl).
Defined.

(** A window whose end is not after its begin keeps no location of a file
    that has the reference date. *)
Theorem empty_window_keeps_nothing (be : Backend) (u : Indeterminate) (FileName : string)
    (bgn end_ : DateTime) (comm : Comm) (Nlocs Nobs Nrecs Nvars : nat) (io : NetcdfIO) :
  NetcdfIO_new be u FileName "r" bgn end_ comm Nlocs Nobs Nrecs Nvars = Returned io ->
  nc_date_time (ncid_ io) <> None ->
  dt_leb end_ bgn = true ->
  nlocs io = 0%nat /\ dist_index (dist_ io) = [] /\ date_ io = [] /\ time_ io = [].
Proof.
  intros Hio Hat He. apply reader_state in Hio.
  destruct Hio as (f & _ & Hf & _ & Hnl & Hcase).
  rewrite Hf in Hat. destruct (nc_date_time f); [| contradiction].
  destruct Hcase as (datetime & _ & Hidx & Hd & Ht).
  assert (Hnil : dist_index (dist_ io) = []).
  { rewrite Hidx.
    generalize (dist_index (roundrobin_distribution comm (nfvlen_ io) None)).
    intros l. induction l as [| x l IH]; simpl; [reflexivity |].
    now rewrite (retained_empty_window bgn end_ datetime x He). }
  unfold nlocs. rewrite Hnl, Hd, Ht. unfold dist_size.
  fold (dist_index (dist_ io)). rewrite Hnil. auto.
Qed.

Example window_io_empty_constructed :
  NetcdfIO_new (Sample.serve Sample.window_file) Sample.u0 "obs.nc" "r"
    Sample.t0030 Sample.t0000 Sample.one_rank 0 0 0 0
  = Returned window_io_empty.
Proof. vm_compute. reflexivity. Qed.

(** The time-filter scenario with begin and end exchanged. *)
Lemma empty_window_witness :
  nlocs window_io_empty = 0%nat /\ dist_index (dist_ window_io_empty) = []
  /\ date_ window_io_empty = [] /\ time_ window_io_empty = [].
Proof.
  apply (empty_window_keeps_nothing (Sample.serve Sample.window_file) Sample.u0 "obs.nc"
           Sample.t0030 Sample.t0000 Sample.one_rank 0 0 0 0 window_io_empty
           window_io_empty_constructed).
  - discriminate.
  - reflexivity.
Defined.

(** Readers of one file on the ranks of one communicator: two ranks own no
    index in common, and every location that passes the window is owned by
    the reader of rank [i mod R]. *)
Theorem ranks_partition_the_locations (be : Backend) (u : Indeterminate)
    (FileName : string) (bgn end_ : DateTime) (R : nat) (Nlocs Nobs Nrecs Nvars : nat) :
  (forall r r' io io',
      NetcdfIO_new be u FileName "r" bgn end_ (mkComm r R) Nlocs Nobs Nrecs Nvars
      = Returned io ->
      NetcdfIO_new be u FileName "r" bgn end_ (mkComm r' R) Nlocs Nobs Nrecs Nvars
      = Returned io' ->
      r <> r' ->
      nfvlen_ io = nfvlen_ io'
      /\ forall i, In i (dist_index (dist_ io)) -> ~ In i (dist_index (dist_ io')))
  /\ (forall r io i,
        NetcdfIO_new be u FileName "r" bgn end_ (mkComm r R) Nlocs Nobs Nrecs Nvars
        = Returned io ->
        (i < nfvlen_ io)%nat ->
        (forall datetime,
            ReadDateTime u (ncid_ io) (nfvlen_ io) = Returned datetime ->
            retained bgn end_ datetime i = true) ->
        exists io',
          NetcdfIO_new be u FileName "r" bgn end_ (mkComm (Nat.modulo i R) R)
            Nlocs Nobs Nrecs Nvars = Returned io'
          /\ In i (dist_index (dist_ io'))).
Proof.
  split.
  - intros r r' io io' Hio Hio' Hne.
    apply reader_state in Hio, Hio'.
    destruct Hio as (f & Hopen & Hf & Hn & Hnl & Hcase).
    destruct Hio' as (f' & Hopen' & Hf' & Hn' & Hnl' & Hcase').
    assert (Heq : f' = f) by congruence. rewrite Heq in *. clear Heq f'.
    split; [congruence |].
    intros i Hi Hi'.
    assert (Hr : Nat.modulo i R = r).
    { destruct (nc_date_time f).
      - destruct Hcase as (datetime & _ & Hidx & _). rewrite Hidx in Hi.
        apply filter_In in Hi. destruct Hi as [Hi _].
        apply roundrobin_index_In in Hi. apply Hi.
      - destruct Hcase as (Hd & _). rewrite Hd in Hi.
        apply roundrobin_index_In in Hi. apply Hi. }
    assert (Hr' : Nat.modulo i R = r').
    { destruct (nc_date_time f).
      - destruct Hcase' as (datetime & _ & Hidx & _). rewrite Hidx in Hi'.
        apply filter_In in Hi'. destruct Hi' as [Hi' _].
        apply roundrobin_index_In in Hi'. apply Hi'.
      - destruct Hcase' as (Hd & _). rewrite Hd in Hi'.
        apply roundrobin_index_In in Hi'. apply Hi'. }
    congruence.
  - intros r io i Hio Hi Hkept.
    apply reader_state in Hio.
    destruct Hio as (f & Hopen & Hf & Hn & Hnl & Hcase).
    rewrite Hf in Hkept.
    destruct (NetcdfIO_new_read_total be u FileName bgn end_ (mkComm (Nat.modulo i R) R)
                Nlocs Nobs Nrecs Nvars f _ Hopen Hn) as (io' & Hio' & _).
    { destruct (nc_date_time f); [right | now left].
      destruct Hcase as (datetime & Hrd & _). eauto. }
    exists io'. split; [assumption |].
    apply reader_state in Hio'.
    destruct Hio' as (f' & Hopen' & Hf' & Hn' & Hnl' & Hcase').
    assert (Heq : f' = f) by congruence. rewrite Heq in *. clear Heq f'.
    assert (Hnn : nfvlen_ io' = nfvlen_ io) by congruence.
    assert (Hrr : In i (dist_index (roundrobin_distribution (mkComm (Nat.modulo i R) R)
                                      (nfvlen_ io') None))).
    { apply roundrobin_index_In. simpl. split; [lia | reflexivity]. }
    destruct (nc_date_time f).
    + destruct Hcase' as (datetime & Hrd & Hidx & _). rewrite Hidx.
      apply filter_In. split; [assumption |].
      apply Hkept. now rewrite <- Hnn.
    + destruct Hcase' as (Hd & _). now rewrite Hd.
Qed.

Example window_io_rank0_constructed :
  NetcdfIO_new (Sample.serve Sample.window_file) Sample.u0 "obs.nc" "r"
    Sample.t2330 Sample.t0030 rank0_of_3 0 0 0 0
  = Returned window_io_rank0.
Proof. vm_compute. reflexivity. Qed.

Example window_io_rank1_constructed :
  NetcdfIO_new (Sample.serve Sample.window_file) Sample.u0 "obs.nc" "r"
    Sample.t2330 Sample.t0030 rank1_of_3 0 0 0 0
  = Returned window_io_rank1.
Proof. vm_compute. reflexivity. Qed.

(** The time-filter scenario read on three ranks with the window from
    23:30 to 00:30: rank 0 owns index 3 and rank 1 owns index 1, which
    rank 0 does not own; and index 3, inside the window, is owned by the
    reader of rank 3 mod 3. *)
Lemma ranks_partition_witness :
  (nfvlen_ window_io_rank1 = nfvlen_ window_io_rank0
   /\ forall i, In i [1%nat] -> ~ In i [3%nat])
  /\ exists io',
       NetcdfIO_new (Sample.serve Sample.window_file) Sample.u0 "obs.nc" "r"
         Sample.t2330 Sample.t0030 rank0_of_3 0 0 0 0 = Returned io'
       /\ In 3%nat (dist_index (dist_ io')).
Proof.
  destruct (ranks_partition_the_locations (Sample.serve Sample.window_file) Sample.u0
              "obs.nc" Sample.t2330 Sample.t0030 3 0 0 0 0) as [Hdisjoint Hcover].
  split.
  - apply (Hdisjoint 1%nat 0%nat window_io_rank1 window_io_rank0).
    + exact window_io_rank1_constructed.
    + exact window_io_rank0_constructed.
    + discriminate.
  - apply (Hcover 1%nat window_io_rank1 3%nat).
    + exact window_io_rank1_constructed.
    + vm_compute. lia.
    + intros datetime Hrd. vm_compute in Hrd. injection Hrd as <-. reflexivity.
Defined.

(** ** What ReadVar_any leaves alone *)

Lemma ReadVar_any_int (fmiss : spec_float) (io : NetcdfIO) (VarName : string)
    (VarData : list any) (id : nat) (v : nc_var) (raw : list Z) :
  starts_with "date" VarName = false ->
  starts_with "time" VarName = false ->
  nc_inq_varid (ncid_ io) VarName = NcOk id ->
  nth_error (nc_vars (ncid_ io)) id = Some v ->
  var_data v = IntData raw ->
  ReadVar_any fmiss io VarName VarData =
  Returned (assign_front (map (fun i => any_int (nth i raw 0)) (dist_index (dist_ io)))
              VarData).
Proof.
  intros Hd Ht Hid Hv Hraw.
  unfold ReadVar_any. rewrite Hd, Ht, Hid. simpl.
  unfold nc_inq_vartype, var_type. rewrite Hv, Hraw. simpl.
  unfold ReadVar_int. rewrite Hid. simpl.
  unfold nc_get_var_int. rewrite Hv, Hraw. reflexivity.
Qed.



Example int_char_io_constructed :
  NetcdfIO_new (Sample.serve int_char_file) Sample.u0 "obs.nc" "r"
    (fst Sample.all_times) (snd Sample.all_times) Sample.one_rank 0 0 0 0
  = Returned int_char_io.
Proof. reflexivity. Qed.


(** ** The cells ReadVar_any assigns *)

Lemma assign_front_frame {A : Type} (written VarData : list A) :
  (List.length written <= List.length VarData)%nat ->
  List.length (assign_front written VarData) = List.length VarData
  /\ forall i, (List.length written <= i)%nat ->
       nth_error (assign_front written VarData) i = nth_error VarData i.
Proof.
  intros Hle. unfold assign_front. split.
  - rewrite length_app, length_skipn. lia.
  - intros i Hi. rewrite nth_error_app2 by exact Hi.
    rewrite nth_error_skipn. f_equal. lia.
Qed.

Lemma ReadVar_any_shape (fmiss : spec_float) (io : NetcdfIO) (VarName : string)
    (VarData res : list any) :
  ReadVar_any fmiss io VarName VarData = Returned res ->
  res = VarData
  \/ exists written,
       List.length written = dist_size (dist_ io)
       /\ res = assign_front written VarData.
Proof.
  unfold ReadVar_any.
  destruct (starts_with "date" VarName).
  { destruct (Nat.eqb _ _); simpl; intros H; [| discriminate].
    injection H as <-. right. eexists. split; [| reflexivity].
    now rewrite length_map, length_seq. }
  destruct (starts_with "time" VarName).
  { destruct (Nat.eqb _ _); simpl; intros H; [| discriminate].
    injection H as <-. right. eexists. split; [| reflexivity].
    now rewrite length_map, length_seq. }
  cbv zeta.
  repeat match goal with
         | |- context [CheckNcCall ?rc ?msg] =>
             let H := fresh "H" in
             destruct (CheckNcCall_cases rc msg) as [[_ H] | [_ H]];
             rewrite H; cbn [bind]; [| discriminate]
         end.
  destruct (nc_inq_vartype _ _) as [[| | |] | c].
  - intros Hr. injection Hr as <-. now left.
  - destruct (ReadVar_int io VarName) as [iData | e | msg | what]; simpl; intros Hr;
      [| discriminate | discriminate | discriminate].
    injection Hr as <-. right. eexists. split; [| reflexivity].
    now rewrite length_map.
  - destruct (ReadVar_float io VarName) as [rData | e | msg | what]; simpl; intros Hr;
      [| discriminate | discriminate | discriminate].
    injection Hr as <-. right. eexists. split; [| reflexivity].
    now rewrite length_map.
  - destruct (ReadVar_double io VarName) as [dData | e | msg | what]; simpl; intros Hr;
      [| discriminate | discriminate | discriminate].
    injection Hr as <-. right. eexists. split; [| reflexivity].
    now rewrite length_map.
  - intros Hr. injection Hr as <-. now left.
Qed.

(** ReadVar_any assigns at most the first [dist_->size()] cells of the array
    of the caller: for an array that has that many cells, the array keeps
    its length and every cell from that position on keeps its content,
    whatever the variable and its type. *)
Theorem ReadVar_any_frame (fmiss : spec_float) (io : NetcdfIO) (VarName : string)
    (VarData res : list any) :
  ReadVar_any fmiss io VarName VarData = Returned res ->
  (dist_size (dist_ io) <= List.length VarData)%nat ->
  List.length res = List.length VarData
  /\ forall i, (dist_size (dist_ io) <= i)%nat -> nth_error res i = nth_error VarData i.
Proof.
  intros Hres Hle.
  destruct (ReadVar_any_shape fmiss io VarName VarData res Hres)
    as [-> | (written & Hlen & ->)]; [auto |].
  rewrite <- Hlen in *. now apply assign_front_frame.
Qed.

(** The time-filter scenario, where one location is owned: of three cells
    the second and the third are left as they were. *)
Lemma ReadVar_any_frame_witness :
  List.length [any_float (F32.of_Z 13); any_int 5; any_int 6] = 3%nat
  /\ forall i, (1 <= i)%nat ->
       nth_error [any_float (F32.of_Z 13); any_int 5; any_int 6] i
       = nth_error [any_int 4; any_int 5; any_int 6] i.
Proof.
  apply (ReadVar_any_frame Sample.fmiss Sample.window_io "x@ObsValue"
           [any_int 4; any_int 5; any_int 6]).
  - vm_compute. reflexivity.
  - vm_compute. lia.
Defined.

(** ** A variable written and read again *)

Lemma filter_all {A : Type} (p : A -> bool) (l : list A) :
  (forall x, In x l -> p x = true) -> filter p l = l.
Proof.
  induction l as [| x l IH]; intros H; simpl; [reflexivity |].
  rewrite (H x (or_introl eq_refl)). f_equal. apply IH. intros y Hy. apply H. now right.
Qed.

(** With one process element every location is owned. *)
Lemma roundrobin_one_rank (N : nat) :
  roundrobin_distribution (mkComm 0 1) N None = mkDistribution (seq 0 N).
Proof.
  unfold roundrobin_distribution. f_equal. apply filter_all.
  intros i _. simpl. reflexivity.
Qed.

Lemma writer_constructed (be : Backend) (u : Indeterminate) (FileName : string)
    (bgn end_ : DateTime) (comm : Comm) (Nlocs Nobs Nrecs Nvars : nat) :
  nc_create be FileName true = NC_NOERR ->
  NetcdfIO_new be u FileName "W" bgn end_ comm Nlocs Nobs Nrecs Nvars
  = Returned (construct_write u empty_file FileName "W" Nlocs Nobs Nrecs Nvars).
Proof.
  intros Hc. unfold NetcdfIO_new, open_file. simpl. now rewrite Hc.
Qed.

Lemma cast_all_int_inv (l : list any) (zs : list Z) :
  cast_all any_cast_int l = Returned zs -> l = map any_int zs.
Proof.
  revert zs. induction l as [| a l IH]; intros zs; simpl.
  - intros H. now injection H as <-.
  - destruct a; simpl; try discriminate.
    destruct (cast_all any_cast_int l) as [r | e | msg | what]; simpl; try discriminate.
    intros H. injection H as <-. simpl. now rewrite (IH r eq_refl).
Qed.

Lemma cast_all_float_inv (l : list any) (xs : list spec_float) :
  cast_all any_cast_float l = Returned xs -> l = map any_float xs.
Proof.
  revert xs. induction l as [| a l IH]; intros xs; simpl.
  - intros H. now injection H as <-.
  - destruct a; simpl; try discriminate.
    destruct (cast_all any_cast_float l) as [r | e | msg | what]; simpl; try discriminate.
    intros H. injection H as <-. simpl. now rewrite (IH r eq_refl).
Qed.

Lemma cast_all_double_inv (l : list any) (xs : list spec_float) :
  cast_all any_cast_double l = Returned xs -> l = map any_double xs.
Proof.
  revert xs. induction l as [| a l IH]; intros xs; simpl.
  - intros H. now injection H as <-.
  - destruct a; simpl; try discriminate.
    destruct (cast_all any_cast_double l) as [r | e | msg | what]; simpl; try discriminate.
    intros H. injection H as <-. simpl. now rewrite (IH r eq_refl).
Qed.

(** The data that WriteVar_any stores for a new variable are the cells of
    the caller. *)
Lemma WriteVar_any_new_data (io : NetcdfIO) (VarName : string) (VarData : list any) :
  Database.writable (nlocs io) VarData = true ->
  ~ In VarName (map var_name (nc_vars (ncid_ io))) ->
  exists d,
    WriteVar_any io VarName VarData =
    Returned (with_file io
                (mkFile (nc_dims (ncid_ io)) (nc_date_time (ncid_ io))
                   (nc_vars (ncid_ io) ++ [mkVar VarName [nlocs_id_ io] d])))
    /\ ((exists zs, d = IntData zs /\ cells io VarData = map any_int zs)
        \/ (exists xs, d = FloatData xs /\ cells io VarData = map any_float xs)
        \/ (exists xs, d = DoubleData xs /\ cells io VarData = map any_double xs)).
Proof.
  intros Hw Hn. unfold Database.writable in Hw. unfold WriteVar_any.
  simpl in Hw. apply andb_true_iff in Hw. destruct Hw as [Hhd Hw].
  fold (cells io VarData) in Hw.
  destruct (hd any_empty VarData) as [| z | x | x]; [discriminate | | |].
  - destruct (cast_all_int z _ Hw) as [zs Hzs]. rewrite Hzs. simpl.
    exists (IntData zs). split; [now apply WriteVar_new |].
    left. exists zs. split; [reflexivity | now apply cast_all_int_inv].
  - destruct (cast_all_float x _ Hw) as [xs Hxs]. rewrite Hxs. simpl.
    exists (FloatData xs). split; [now apply WriteVar_new |].
    right; left. exists xs. split; [reflexivity | now apply cast_all_float_inv].
  - destruct (cast_all_double x _ Hw) as [xs Hxs]. rewrite Hxs. simpl.
    exists (DoubleData xs). split; [now apply WriteVar_new |].
    right; right. exists xs. split; [reflexivity | now apply cast_all_double_inv].
Qed.

Lemma cells_length (io : NetcdfIO) (VarData : list any) :
  List.length (cells io VarData) = nlocs io.
Proof. unfold cells. now rewrite length_map, length_seq. Qed.

(** A variable written by WriteVar_any to a new file, on a name that does
    not begin with "date" or "time", and read by one process element from
    the file so written: the reader owns all the locations of the writer,
    lists the one variable, and ReadVar_any gives the cells that were
    written, an int as it was, a float with the missing value in the place
    of a value above the threshold, a double as such a float. *)
Theorem write_then_read (be : Backend) (u : Indeterminate) (fmiss : spec_float)
    (out VarName : string) (VarData : list any) (bgn end_ : DateTime) (comm : Comm)
    (Nlocs Nobs Nrecs Nvars : nat) :
  nc_create be out true = NC_NOERR ->
  Database.writable Nlocs VarData = true ->
  starts_with "date" VarName = false ->
  starts_with "time" VarName = false ->
  exists w w',
    NetcdfIO_new be u out "W" bgn end_ comm Nlocs Nobs Nrecs Nvars = Returned w
    /\ WriteVar_any w VarName VarData = Returned w'
    /\ forall be' u' inp bgn' end_' a b c d buf,
         nc_open be' inp = NcOk (ncid_ w') ->
         exists r,
           NetcdfIO_new be' u' inp "r" bgn' end_' (mkComm 0 1) a b c d = Returned r
           /\ nlocs r = Nlocs
           /\ varlist r = [split_name VarName]
           /\ ReadVar_any fmiss r VarName buf
              = Returned (assign_front (map (read_back fmiss) (cells w VarData)) buf).
Proof.
  intros Hc Hw Hd Ht.
  set (w := construct_write u empty_file out "W" Nlocs Nobs Nrecs Nvars).
  assert (Hfile : ncid_ w = mkFile [("nlocs", Nlocs); ("nobs", Nobs);
                                    ("nrecs", Nrecs); ("nvars", Nvars)] None [])
    by reflexivity.
  assert (Hid : nlocs_id_ w = 0) by reflexivity.
  assert (Hn : nlocs w = Nlocs) by reflexivity.
  destruct (WriteVar_any_new_data w VarName VarData) as (dat & Hwr & Hdat).
  { now rewrite Hn. }
  { rewrite Hfile. simpl. tauto. }
  rewrite Hfile, Hid in Hwr. simpl in Hwr.
  exists w. eexists. split; [now apply writer_constructed |]. split; [exact Hwr |].
  intros be' u' inp bgn' end_' a b c d buf Hopen. simpl in Hopen.
  set (f := mkFile [("nlocs", Nlocs); ("nobs", Nobs); ("nrecs", Nrecs); ("nvars", Nvars)]
              None [mkVar VarName [0] dat]) in *.
  assert (Hdm : inquire_dims u' f
                = mkDims true true true true false 2 1 0 3 (u_nchans_id u'))
    by reflexivity.
  assert (Hsz : read_sizes u' f a b c d (inquire_dims u' f)
                = Returned (mkSizes Nlocs Nobs Nrecs Nvars))
    by (rewrite Hdm; reflexivity).
  assert (Hent : flat_map (entries_of 0) (nc_vars f) = [split_name VarName]).
  { unfold f. cbn [nc_vars flat_map]. unfold entries_of, valid_entries. simpl.
    rewrite Ht. destruct (split_name VarName). reflexivity. }
  assert (Hat : nc_date_time f = None) by reflexivity.
  assert (Hnid : output (nc_inq_dimid f "nlocs") (u_nlocs_id u') = 0) by reflexivity.
  assert (Hvid : nc_inq_varid f VarName = NcOk 0%nat).
  { unfold f, nc_inq_varid. simpl. now rewrite String.eqb_refl. }
  assert (Hv : nth_error (nc_vars f) 0 = Some (mkVar VarName [0] dat)) by reflexivity.
  clearbody f.
  set (r := read_result inp f (inquire_dims u' f) (mkSizes Nlocs Nobs Nrecs Nvars)
              [split_name VarName] (mkWindowed (mkDistribution (seq 0 Nlocs)) [] [])).
  assert (Hr : NetcdfIO_new be' u' inp "r" bgn' end_' (mkComm 0 1) a b c d = Returned r).
  { unfold NetcdfIO_new, open_file. simpl. rewrite Hopen. simpl.
    unfold construct_read. cbv zeta. rewrite Hsz. simpl.
    rewrite scan_all_variables. simpl. rewrite roundrobin_one_rank.
    unfold apply_window, nc_inq_attid_date_time. rewrite Hat. simpl.
    unfold r. rewrite Hdm, Hnid, Hent. reflexivity. }
  exists r. split; [exact Hr |].
  split; [unfold r, nlocs, read_result, dist_size; simpl; apply length_seq |].
  split; [reflexivity |].
  assert (Hrf : ncid_ r = f) by reflexivity.
  assert (Hrd : dist_index (dist_ r) = seq 0 Nlocs) by reflexivity.
  clearbody r. rewrite <- Hrf in Hvid, Hv.
  assert (Hlen : List.length (cells w VarData) = Nlocs)
    by (rewrite cells_length; exact Hn).
  destruct Hdat as [(zs & -> & Hcells) | [(xs & -> & Hcells) | (xs & -> & Hcells)]];
    rewrite Hcells in *; rewrite length_map in Hlen.
  - rewrite (ReadVar_any_int fmiss r VarName buf 0%nat (mkVar VarName [0] (IntData zs)) zs
               Hd Ht Hvid Hv eq_refl).
    do 2 f_equal. rewrite Hrd, <- Hlen.
    rewrite (map_nth_seq any_int). now rewrite map_map.
  - rewrite (ReadVar_any_float fmiss r VarName buf 0%nat
               (mkVar VarName [0] (FloatData xs)) xs Hd Ht Hvid Hv eq_refl).
    do 2 f_equal. rewrite Hrd, <- Hlen.
    rewrite (map_nth_seq (fun x => any_float (substitute_missing fmiss x))).
    now rewrite map_map.
  - rewrite (ReadVar_any_double fmiss r VarName buf 0%nat
               (mkVar VarName [0] (DoubleData xs)) xs Hd Ht Hvid Hv eq_refl).
    do 2 f_equal. rewrite Hrd, <- Hlen.
    rewrite (map_nth_seq
               (fun x => any_float (substitute_missing fmiss (double_to_float x)))).
    now rewrite map_map.
Qed.

(** Two float cells, the second above the threshold, written to a new file
    and read again. *)
Lemma write_then_read_witness :
  exists w w',
    NetcdfIO_new (Sample.serve empty_file) Sample.u0 "out.nc" "W"
      Sample.t0000 Sample.t0030 Sample.one_rank 2 0 0 1 = Returned w
    /\ WriteVar_any w "x@ObsValue"
         [any_float (F32.of_Z 1); any_float (F32.of_Z 1000000000)] = Returned w'
    /\ forall be' u' inp bgn' end_' a b c d buf,
         nc_open be' inp = NcOk (ncid_ w') ->
         exists r,
           NetcdfIO_new be' u' inp "r" bgn' end_' (mkComm 0 1) a b c d = Returned r
           /\ nlocs r = 2%nat
           /\ varlist r = [split_name "x@ObsValue"]
           /\ ReadVar_any Sample.fmiss r "x@ObsValue" buf
              = Returned
                  (assign_front
                     (map (read_back Sample.fmiss)
                        (cells w [any_float (F32.of_Z 1);
                                  any_float (F32.of_Z 1000000000)])) buf).
Proof.
  apply (write_then_read (Sample.serve empty_file) Sample.u0 Sample.fmiss "out.nc"
           "x@ObsValue" [any_float (F32.of_Z 1); any_float (F32.of_Z 1000000000)]
           Sample.t0000 Sample.t0030 Sample.one_rank 2 0 0 1);
    vm_compute; reflexivity.
Defined.

(** ** What WriteVar_any changes in the file *)

Lemma find_pos_None_inv {A : Type} (p : A -> bool) (l : list A) (n : nat) :
  find_pos p l n = None -> forall x, In x l -> p x = false.
Proof.
  revert n. induction l as [| y l IH]; intros n H x Hx; simpl in *; [contradiction |].
  destruct (p y) eqn:Hy; [discriminate |].
  destruct Hx as [<- | Hx]; [assumption | now apply (IH (S n))].
Qed.

Lemma find_pos_Some_inv {A : Type} (p : A -> bool) (l : list A) (n k : nat) :
  find_pos p l n = Some k ->
  exists x, (n <= k)%nat /\ nth_error l (k - n) = Some x /\ p x = true.
Proof.
  revert n. induction l as [| y l IH]; intros n H; simpl in *; [discriminate |].
  destruct (p y) eqn:Hy.
  - injection H as <-. exists y. rewrite Nat.sub_diag. auto.
  - destruct (IH (S n) H) as (x & Hle & Hx & Hp). exists x.
    split; [lia |]. split; [| assumption].
    replace (k - n)%nat with (S (k - S n)) by lia. exact Hx.
Qed.

Lemma map_set_nth_same_name (id : nat) (x v : nc_var) (l : list nc_var) :
  nth_error l id = Some v -> var_name x = var_name v ->
  map var_name (set_nth id x l) = map var_name l.
Proof.
  revert id. induction l as [| y l IH]; intros [| id] Hv Hn; simpl in *;
    try discriminate.
  - injection Hv as ->. now rewrite Hn.
  - f_equal. now apply IH.
Qed.

(** What a WriteVar overload changes in the file: the dimensions and the
    attribute stay, no variable is removed or renamed, the variables of
    another name keep their place and their data, and one variable is
    added when the name is new. *)
Lemma WriteVar_effect (io io' : NetcdfIO) (VarName : string) (empty d : nc_data) :
  WriteVar io VarName empty d = Returned io' ->
  nc_dims (ncid_ io') = nc_dims (ncid_ io)
  /\ nc_date_time (ncid_ io') = nc_date_time (ncid_ io)
  /\ nlocs io' = nlocs io
  /\ ((In VarName (map var_name (nc_vars (ncid_ io)))
       /\ map var_name (nc_vars (ncid_ io')) = map var_name (nc_vars (ncid_ io)))
      \/ (~ In VarName (map var_name (nc_vars (ncid_ io)))
          /\ map var_name (nc_vars (ncid_ io'))
             = map var_name (nc_vars (ncid_ io)) ++ [VarName]))
  /\ (forall id v, nth_error (nc_vars (ncid_ io)) id = Some v ->
                   var_name v <> VarName ->
                   nth_error (nc_vars (ncid_ io')) id = Some v).
Proof.
  unfold WriteVar.
  destruct (nc_inq_varid (ncid_ io) VarName) as [id | c] eqn:Hid.
  - unfold nc_inq_varid in Hid.
    destruct (find_pos _ (nc_vars (ncid_ io)) 0) as [k |] eqn:Hk; [| discriminate].
    injection Hid as <-.
    destruct (find_pos_Some_inv _ _ _ _ Hk) as (x & _ & Hx & Hp).
    rewrite Nat.sub_0_r in Hx. apply String.eqb_eq in Hp.
    cbn [bind]. unfold nc_put_var. rewrite Hx. simpl.
    intros H. injection H as <-. simpl.
    repeat split.
    + left. split.
      * rewrite <- Hp. apply in_map. eapply nth_error_In; eassumption.
      * now apply map_set_nth_same_name with (v := x).
    + intros id v Hv Hne.
      rewrite nth_error_set_nth_other; [assumption |].
      intros ->. rewrite Hx in Hv. injection Hv as <-. contradiction.
  - assert (Hnot : ~ In VarName (map var_name (nc_vars (ncid_ io)))).
    { unfold nc_inq_varid in Hid.
      destruct (find_pos _ (nc_vars (ncid_ io)) 0) eqn:Hk; [discriminate |].
      intros Hin. apply in_map_iff in Hin. destruct Hin as (v & Hv & Hin).
      pose proof (find_pos_None_inv _ _ _ Hk v Hin) as Hf. simpl in Hf.
      rewrite Hv, String.eqb_refl in Hf. discriminate. }
    pose proof (WriteVar_new io VarName empty d Hnot) as Hnew.
    unfold WriteVar in Hnew. rewrite Hid in Hnew. rewrite Hnew.
    intros H. injection H as <-. simpl.
    repeat split.
    + right. split; [assumption |]. now rewrite map_app.
    + intros id v Hv _. rewrite nth_error_app1; [assumption |].
      apply nth_error_Some. congruence.
Qed.

(** WriteVar_any returns either without a change, for an empty first cell,
    or as one of the WriteVar overloads returns. *)
Lemma WriteVar_any_cases (io io' : NetcdfIO) (VarName : string) (VarData : list any) :
  WriteVar_any io VarName VarData = Returned io' ->
  io' = io \/ exists empty d, WriteVar io VarName empty d = Returned io'.
Proof.
  unfold WriteVar_any.
  destruct (hd any_empty VarData).
  - intros H. injection H as <-. now left.
  - destruct (cast_all any_cast_int _) as [iData | e | msg | what]; simpl;
      [| discriminate | discriminate | discriminate].
    intros H. right. eauto.
  - destruct (cast_all any_cast_float _) as [fData | e | msg | what]; simpl;
      [| discriminate | discriminate | discriminate].
    intros H. right. eauto.
  - destruct (cast_all any_cast_double _) as [dData | e | msg | what]; simpl;
      [| discriminate | discriminate | discriminate].
    intros H. right. eauto.
Qed.

(** WriteVar_any changes the variable it is given and nothing else: the
    dimensions and the reference date of the file stay, as does the number
    of locations of the writer; no variable is removed or renamed; every
    variable of another name keeps its id and its data; and a variable is
    added, at the end, only when the file has none of that name. *)
Theorem WriteVar_any_keeps_the_rest (io io' : NetcdfIO) (VarName : string)
    (VarData : list any) :
  WriteVar_any io VarName VarData = Returned io' ->
  nc_dims (ncid_ io') = nc_dims (ncid_ io)
  /\ nc_date_time (ncid_ io') = nc_date_time (ncid_ io)
  /\ nlocs io' = nlocs io
  /\ (map var_name (nc_vars (ncid_ io')) = map var_name (nc_vars (ncid_ io))
      \/ (~ In VarName (map var_name (nc_vars (ncid_ io)))
          /\ map var_name (nc_vars (ncid_ io'))
             = map var_name (nc_vars (ncid_ io)) ++ [VarName]))
  /\ (forall id v, nth_error (nc_vars (ncid_ io)) id = Some v ->
                   var_name v <> VarName ->
                   nth_error (nc_vars (ncid_ io')) id = Some v).
Proof.
  intros H. destruct (WriteVar_any_cases io io' VarName VarData H) as [-> | (empty & d & Hw)].
  - repeat split; auto.
  - apply WriteVar_effect in Hw. tauto.
Qed.

(** A second variable written after a first one: two locations still, and
    the first variable where and as it was. *)
Lemma WriteVar_any_keeps_the_rest_witness :
  nlocs writer2_xy = 2%nat
  /\ nth_error (nc_vars (ncid_ writer2_xy)) 0
     = Some (mkVar "x@ObsValue" [0] (FloatData [F32.of_Z 1; F32.of_Z 2])).
Proof.
  destruct (WriteVar_any_keeps_the_rest writer2_x writer2_xy "y@ObsValue"
              [any_int 3; any_int 4] eq_refl) as (_ & _ & Hn & _ & Hkeep).
  split; [exact Hn |].
  apply (Hkeep 0%nat (mkVar "x@ObsValue" [0] (FloatData [F32.of_Z 1; F32.of_Z 2])) eq_refl).
  intros H. discriminate H.
Defined.

(** ** Cells that WriteVar_any cannot write *)

Lemma cast_all_int_outcome (z : Z) (l : list any) :
  (forallb (Database.same_type (any_int z)) l = true
   /\ exists zs, cast_all any_cast_int l = Returned zs)
  \/ (forallb (Database.same_type (any_int z)) l = false
      /\ cast_all any_cast_int l = Raised BadAnyCast).
Proof.
  induction l as [| a l IH]; simpl; [left; eauto |].
  destruct a; simpl; try (right; split; reflexivity).
  destruct IH as [[Hl [zs Hzs]] | [Hl Hr]].
  - left. rewrite Hzs. simpl. eauto.
  - right. rewrite Hr. simpl. auto.
Qed.

Lemma cast_all_float_outcome (x : spec_float) (l : list any) :
  (forallb (Database.same_type (any_float x)) l = true
   /\ exists xs, cast_all any_cast_float l = Returned xs)
  \/ (forallb (Database.same_type (any_float x)) l = false
      /\ cast_all any_cast_float l = Raised BadAnyCast).
Proof.
  induction l as [| a l IH]; simpl; [left; eauto |].
  destruct a; simpl; try (right; split; reflexivity).
  destruct IH as [[Hl [xs Hxs]] | [Hl Hr]].
  - left. rewrite Hxs. simpl. eauto.
  - right. rewrite Hr. simpl. auto.
Qed.

Lemma cast_all_double_outcome (x : spec_float) (l : list any) :
  (forallb (Database.same_type (any_double x)) l = true
   /\ exists xs, cast_all any_cast_double l = Returned xs)
  \/ (forallb (Database.same_type (any_double x)) l = false
      /\ cast_all any_cast_double l = Raised BadAnyCast).
Proof.
  induction l as [| a l IH]; simpl; [left; eauto |].
  destruct a; simpl; try (right; split; reflexivity).
  destruct IH as [[Hl [xs Hxs]] | [Hl Hr]].
  - left. rewrite Hxs. simpl. eauto.
  - right. rewrite Hr. simpl. auto.
Qed.

Lemma WriteVar_not_raised (io : NetcdfIO) (VarName : string) (empty d : nc_data)
    (e : error) :
  WriteVar io VarName empty d <> Raised e.
Proof.
  unfold WriteVar.
  destruct (nc_inq_varid (ncid_ io) VarName) as [id | c]; cbn [bind].
  - destruct (nc_put_var (ncid_ io) id d) as [rc f2].
    destruct (CheckNcCall_cases rc
                (String.append "NetcdfIO::WriteVar: Unable to write dataset: " VarName))
      as [[_ H] | [_ H]]; rewrite H; discriminate.
  - destruct (nc_def_var (ncid_ io) VarName empty [nlocs_id_ io]) as [r f'].
    destruct (CheckNcCall_cases (retcode r)
                (String.append "NetcdfIO::WriteVar: Unable to create variable dataset: "
                   VarName)) as [[_ H] | [_ H]]; rewrite H; cbn [bind]; [| discriminate].
    destruct (nc_put_var f' (output r 0%nat) d) as [rc f2].
    destruct (CheckNcCall_cases rc
                (String.append "NetcdfIO::WriteVar: Unable to write dataset: " VarName))
      as [[_ H'] | [_ H']]; rewrite H'; discriminate.
Qed.

(** The array handed to WriteVar_any, with a cell for each location: when
    its first cell is empty nothing is written and nothing is reported but
    a warning; when its first cell is an int, a float or a double and one
    of the cells of the locations holds another type, the cast throws
    before the file is touched; and nothing else is ever thrown. *)
Theorem WriteVar_any_wrong_cells (io : NetcdfIO) (VarName : string) (VarData : list any) :
  VarData <> [] ->
  (nlocs io <= List.length VarData)%nat ->
  (hd any_empty VarData = any_empty -> WriteVar_any io VarName VarData = Returned io)
  /\ (hd any_empty VarData <> any_empty ->
      Database.writable (nlocs io) VarData = false ->
      WriteVar_any io VarName VarData = Raised BadAnyCast)
  /\ (forall e, WriteVar_any io VarName VarData = Raised e ->
        e = BadAnyCast /\ Database.writable (nlocs io) VarData = false).
Proof.
  intros _ _. unfold WriteVar_any, Database.writable. cbn [forallb].
  fold (cells io VarData).
  destruct (hd any_empty VarData) as [| z | x | x]; cbn [Database.same_type andb].
  - split; [reflexivity |]. split; [congruence | discriminate].
  - split; [discriminate |].
    destruct (cast_all_int_outcome z (cells io VarData)) as [[Hl [zs Hzs]] | [Hl Hr]].
    + rewrite Hzs, Hl. cbn [bind]. split; [discriminate |].
      intros e He. exfalso. exact (WriteVar_not_raised _ _ _ _ _ He).
    + rewrite Hr, Hl. cbn [bind]. split; [reflexivity |].
      intros e He. injection He as <-. auto.
  - split; [discriminate |].
    destruct (cast_all_float_outcome x (cells io VarData)) as [[Hl [xs Hxs]] | [Hl Hr]].
    + rewrite Hxs, Hl. cbn [bind]. split; [discriminate |].
      intros e He. exfalso. exact (WriteVar_not_raised _ _ _ _ _ He).
    + rewrite Hr, Hl. cbn [bind]. split; [reflexivity |].
      intros e He. injection He as <-. auto.
  - split; [discriminate |].
    destruct (cast_all_double_outcome x (cells io VarData)) as [[Hl [xs Hxs]] | [Hl Hr]].
    + rewrite Hxs, Hl. cbn [bind]. split; [discriminate |].
      intros e He. exfalso. exact (WriteVar_not_raised _ _ _ _ _ He).
    + rewrite Hr, Hl. cbn [bind]. split; [reflexivity |].
      intros e He. injection He as <-. auto.
Qed.

(** A float cell followed by an int cell, for two locations. *)
Lemma WriteVar_any_wrong_cells_witness :
  WriteVar_any writer2 "x@ObsValue" [any_float (F32.of_Z 1); any_int 2]
  = Raised BadAnyCast.
Proof.
  refine (proj1 (proj2 (WriteVar_any_wrong_cells writer2 "x@ObsValue"
                          [any_float (F32.of_Z 1); any_int 2] _ _)) _ _).
  - intros H. discriminate H.
  - vm_compute. lia.
  - intros H. discriminate H.
  - reflexivity.
Defined.

(** ** The names of the variable list and the names of the file *)

Lemma substring_whole (s : string) : substring 0 (String.length s) s = s.
Proof. induction s as [| a s IH]; simpl; [reflexivity | now rewrite IH]. Qed.

Lemma index_at_split (s : string) (p : nat) :
  index 0 "@" s = Some p ->
  s = String.append (substring 0 p s)
        (String "@" (substring (S p) (String.length s - S p) s))
  /\ index 0 "@" (substring 0 p s) = None.
Proof.
  revert p. induction s as [| a s IH]; intros p.
  - simpl. discriminate.
  - cbn [index prefix].
    destruct (ascii_dec "@" a) as [<- | Hne].
    + assert (Hp : prefix "" s = true) by (destruct s; reflexivity).
      rewrite Hp. intros H. injection H as <-.
      cbn [substring String.append String.length].
      replace (S (String.length s) - 1)%nat with (String.length s) by lia.
      rewrite substring_whole. split; reflexivity.
    + destruct (index 0 "@" s) as [q |] eqn:Hq; [| discriminate].
      intros H. injection H as <-.
      destruct (IH q eq_refl) as [Hs Hnone].
      cbn [substring String.append String.length]. split.
      * simpl Nat.sub. f_equal. exact Hs.
      * cbn [index prefix]. destruct (ascii_dec "@" a) as [He | _]; [contradiction |].
        now rewrite Hnone.
Qed.

(** The constructor splits the name of a file variable at its first "@"
    into variable and group, and CreateFromFile joins the two again to ask
    ReadVar_any for the data.  The variable part holds no "@"; the joined
    name is the name in the file when the group part is not empty and when
    the name holds no "@" (the record is then filed under GroupUndefined);
    and for a name whose first "@" is its last character the joined name
    is the name without that "@". *)
Theorem variable_names_split_and_joined (name : string) :
  index 0 "@" (fst (split_name name)) = None
  /\ (snd (split_name name) <> "" ->
      Database.db_name (split_name name) = name
      /\ Database.db_group (split_name name) = snd (split_name name))
  /\ (index 0 "@" name = None ->
      split_name name = (name, "")
      /\ Database.db_name (split_name name) = name
      /\ Database.db_group (split_name name) = "GroupUndefined")
  /\ (snd (split_name name) = "" -> index 0 "@" name <> None ->
      name = String.append (fst (split_name name)) "@"
      /\ Database.db_name (split_name name) = fst (split_name name)).
Proof.
  unfold split_name.
  destruct (index 0 "@" name) as [p |] eqn:Hp.
  - destruct (index_at_split name p Hp) as [Hname Hnone].
    cbn [fst snd].
    set (v := substring 0 p name) in *.
    set (g := substring (S p) (String.length name - S p) name) in *.
    unfold Database.db_name, Database.db_group. cbn [fst snd].
    split; [exact Hnone |]. split; [| split].
    + intros Hg. destruct g as [| a g]; [contradiction |]. simpl.
      split; [symmetry; exact Hname | reflexivity].
    + discriminate.
    + intros Hg _. rewrite Hg in *. simpl. split; [exact Hname | reflexivity].
  - cbn [fst snd]. split; [exact Hp |]. split; [| split].
    + intros H. contradiction.
    + intros _. split; [reflexivity |]. split; reflexivity.
    + intros _ H. contradiction.
Qed.

(** The name "x@": the variable part is "x", the group part is empty, and
    the name CreateFromFile asks for is "x". *)
Lemma variable_names_witness :
  "x@" = String.append (fst (split_name "x@")) "@"
  /\ Database.db_name (split_name "x@") = fst (split_name "x@").
Proof.
  refine (proj2 (proj2 (proj2 (variable_names_split_and_joined "x@"))) _ _).
  - reflexivity.
  - intros H. discriminate H.
Defined.

(** ** The date and time variables *)

Lemma index_joined (vname gname : string) :
  index 0 "@" vname = None ->
  index 0 "@" (String.append vname (String "@" gname)) = Some (String.length vname)
  /\ substring 0 (String.length vname) (String.append vname (String "@" gname)) = vname
  /\ substring (S (String.length vname))
       (String.length (String.append vname (String "@" gname)) - S (String.length vname))
       (String.append vname (String "@" gname)) = gname.
Proof.
  induction vname as [| a vname IH].
  - intros _. cbn [String.append String.length index prefix].
    destruct (ascii_dec "@" "@") as [_ | Hne]; [| contradiction].
    assert (Hp : prefix "" gname = true) by (destruct gname; reflexivity).
    rewrite Hp. split; [reflexivity |]. split; [reflexivity |].
    cbn [substring]. replace (S (String.length gname) - 1)%nat with (String.length gname)
      by lia.
    apply substring_whole.
  - cbn [String.append String.length index prefix].
    destruct (ascii_dec "@" a) as [He | Hne].
    + assert (Hp : prefix "" vname = true) by (destruct vname; reflexivity).
      rewrite Hp. discriminate.
    + destruct (index 0 "@" vname) as [q |] eqn:Hq; [discriminate |].
      intros _. destruct (IH eq_refl) as (Hi & Hv & Hg).
      rewrite Hi. split; [reflexivity |]. cbn [substring]. split.
      * now rewrite Hv.
      * simpl Nat.sub. exact Hg.
Qed.

(** The constructor's split of a name [variable@group] and of a name
    without "@". *)
Lemma split_name_joined (vname gname : string) :
  index 0 "@" vname = None ->
  split_name (String.append vname (String "@" gname)) = (vname, gname).
Proof.
  intros H. destruct (index_joined vname gname H) as (Hi & Hv & Hg).
  unfold split_name. now rewrite Hi, Hv, Hg.
Qed.

Lemma split_name_bare (vname : string) :
  index 0 "@" vname = None -> split_name vname = (vname, "").
Proof. intros H. unfold split_name. now rewrite H. Qed.

(** C10 (as amended).  In the list of variables that the constructor builds
    in read mode, for a file of the old format as for any other, every
    selected variable (rank 1, on the dimension [nlocs_id_]) whose name
    begins with "time" is followed by a variable "date" of the same group,
    the group being what follows the first "@" of the name.  When the
    file has the reference date, reading a variable whose name begins
    with "date" (or "time") gives, for the owned indices in their order,
    the integer dates [yyyy*10000 + mm*100 + dd] (or times
    [hh*10000 + mm*100 + ss]) of the timestamps derived by the filter, and
    nothing from the variables of the file. *)
Theorem C10_date_time_variables (be : Backend) (u : Indeterminate) (FileName : string)
    (bgn end_ : DateTime) (comm : Comm) (Nlocs Nobs Nrecs Nvars : nat) (io : NetcdfIO)
    (fmiss : spec_float) :
  NetcdfIO_new be u FileName "r" bgn end_ comm Nlocs Nobs Nrecs Nvars = Returned io ->
  (forall v vname gname,
      In v (nc_vars (ncid_ io)) ->
      var_dimids v = [nlocs_id_ io] ->
      starts_with "time" (var_name v) = true ->
      index 0 "@" vname = None ->
      var_name v = String.append vname (String "@" gname)
      \/ (var_name v = vname /\ gname = "") ->
      exists before after,
        varlist io = before ++ (vname, gname) :: ("date", gname) :: after)
  /\ (nc_date_time (ncid_ io) <> None ->
      exists datetime,
        ReadDateTime u (ncid_ io) (nfvlen_ io) = Returned datetime
        /\ forall VarName VarData,
             (starts_with "date" VarName = true ->
              ReadVar_any fmiss io VarName VarData =
              Returned
                (assign_front
                   (map (fun i =>
                           let '(yyyy, mm, dd) :=
                             julianToDate (julian_ (nth i datetime default_DateTime)) in
                           any_int (yyyy * 10000 + mm * 100 + dd))
                        (dist_index (dist_ io))) VarData))
             /\ (starts_with "time" VarName = true ->
                 ReadVar_any fmiss io VarName VarData =
                 Returned
                   (assign_front
                      (map (fun i =>
                              let s := seconds_ (nth i datetime default_DateTime) in
                              any_int (Z.quot s 3600 * 10000
                                       + Z.quot (Z.rem s 3600) 60 * 100
                                       + Z.rem s 60))
                           (dist_index (dist_ io))) VarData))).
Proof.
  intros Hnew.
  apply NetcdfIO_new_read in Hnew. destruct Hnew as (f & sz & w & _ & _ & Hw & Hio).
  set (dm := inquire_dims u f) in *.
  set (d0 := roundrobin_distribution comm (s_nfvlen sz) None) in *.
  assert (Hf : ncid_ io = f) by (rewrite Hio; reflexivity).
  assert (Hn : nfvlen_ io = s_nfvlen sz) by (rewrite Hio; reflexivity).
  assert (Hid : nlocs_id_ io = d_nlocs_id dm) by (rewrite Hio; reflexivity).
  assert (Hvl : varlist io = flat_map (entries_of (d_nlocs_id dm)) (nc_vars f))
    by (rewrite Hio; reflexivity).
  assert (Hdist : dist_ io = w_dist w) by (rewrite Hio; reflexivity).
  assert (Hdate : date_ io = w_date w) by (rewrite Hio; reflexivity).
  assert (Htime : time_ io = w_time w) by (rewrite Hio; reflexivity).
  clear Hio. rewrite Hf, Hn, Hid, Hvl, Hdist. split.
  - intros v vname gname Hin Hd Htm Hat Hname.
    assert (Hsplit : split_name (var_name v) = (vname, gname)).
    { destruct Hname as [-> | [-> ->]];
        [now apply split_name_joined | now apply split_name_bare]. }
    apply in_split in Hin. destruct Hin as (l1 & l2 & Hvars).
    rewrite Hvars, flat_map_app. cbn [flat_map].
    rewrite (entries_of_selected _ v Hd), Htm, Hsplit.
    eexists. eexists. cbn [app snd]. reflexivity.
  - intros Hat.
    apply apply_window_inv in Hw; [| apply roundrobin_index_NoDup | assumption].
    destruct Hw as (datetime & Hrd & Hw). exists datetime. split; [assumption |].
    assert (Hidx : dist_index (w_dist w)
                   = filter (retained bgn end_ datetime) (dist_index d0)).
    { rewrite Hw. simpl.
      apply (erase_dropped (retained bgn end_ datetime) d0).
      apply roundrobin_index_NoDup. }
    assert (Hwd : w_date w = map (fun i => date_of (nth i datetime default_DateTime))
                                 (dist_index (w_dist w))).
    { rewrite Hidx, Hw. reflexivity. }
    assert (Hwt : w_time w = map (fun i => time_of (nth i datetime default_DateTime))
                                 (dist_index (w_dist w))).
    { rewrite Hidx, Hw. reflexivity. }
    intros VarName VarData. split; intros Hname.
    + rewrite (ReadVar_any_date fmiss io VarName VarData Hname).
      * rewrite Hdate, Hwd, map_map.
        erewrite map_ext; [reflexivity |]. intros i. cbv beta.
        unfold date_of, toYYYYMMDDhhmmss.
        now destruct (julianToDate (julian_ (nth i datetime default_DateTime)))
          as [[yyyy mm] dd].
      * rewrite Hdate, Hdist, Hwd, length_map. reflexivity.
    + rewrite (ReadVar_any_time fmiss io VarName VarData Hname).
      * rewrite Htime, Hwt, map_map.
        erewrite map_ext; [reflexivity |]. intros i. cbv beta.
        unfold time_of, toYYYYMMDDhhmmss.
        now destruct (julianToDate (julian_ (nth i datetime default_DateTime)))
          as [[yyyy mm] dd].
      * rewrite Htime, Hdist, Hwt, length_map. reflexivity.
Qed.

Example legacy_time_io_constructed :
  NetcdfIO_new (Sample.serve Sample.legacy_time_file) Sample.u0 "obs.nc" "r"
    Sample.t0000 Sample.t0030 Sample.one_rank 0 0 0 0
  = Returned Sample.legacy_time_io.
Proof. vm_compute. reflexivity. Qed.

(** A file of the old format with the variable time@MetaData, read with
    the window from 00:00 to 00:30: the variable list has ("date",
    "MetaData") after ("time", "MetaData"), and reading either variable
    gives the date 20180415 and the time 002400 of the one observation
    that is kept. *)
Lemma C10_date_time_witness :
  (exists before after,
      varlist Sample.legacy_time_io
      = before ++ ("time", "MetaData") :: ("date", "MetaData") :: after)
  /\ ReadVar_any Sample.fmiss Sample.legacy_time_io "date@MetaData" [any_empty]
     = Returned [any_int 20180415]
  /\ ReadVar_any Sample.fmiss Sample.legacy_time_io "time@MetaData" [any_empty]
     = Returned [any_int 2400].
Proof.
  destruct (C10_date_time_variables (Sample.serve Sample.legacy_time_file) Sample.u0
              "obs.nc" Sample.t0000 Sample.t0030 Sample.one_rank 0 0 0 0
              Sample.legacy_time_io Sample.fmiss legacy_time_io_constructed)
    as [Hlist Hread].
  split.
  - apply (Hlist (mkVar "time@MetaData" [0] (FloatData Sample.offsets5))
             "time" "MetaData").
    + simpl. auto.
    + reflexivity.
    + reflexivity.
    + reflexivity.
    + left. reflexivity.
  - destruct (Hread ltac:(discriminate)) as (datetime & Hrd & H).
    vm_compute in Hrd. injection Hrd as <-.
    split.
    + exact (eq_trans (proj1 (H "date@MetaData" [any_empty]) eq_refl) eq_refl).
    + exact (eq_trans (proj2 (H "time@MetaData" [any_empty]) eq_refl) eq_refl).
Defined.

Example undated_time_io_constructed :
  NetcdfIO_new (Sample.serve Sample.undated_time_file) Sample.u0 "obs.nc" "r"
    Sample.t0000 Sample.t0030 Sample.one_rank 0 0 0 0
  = Returned Sample.undated_time_io.
Proof. vm_compute. reflexivity. Qed.

(** The same file of the old format without the attribute [date_time]:
    the constructor returns, "time" and "date" are in the variable list,
    and reading either of them throws instead of returning a date or a
    time. *)
Lemma C10_undated_file_read_throws :
  dim_length Sample.undated_time_file "nrecs" = None
  /\ NetcdfIO_new (Sample.serve Sample.undated_time_file) Sample.u0 "obs.nc" "r"
       Sample.t0000 Sample.t0030 Sample.one_rank 0 0 0 0
     = Returned Sample.undated_time_io
  /\ In ("time", "MetaData") (varlist Sample.undated_time_io)
  /\ In ("date", "MetaData") (varlist Sample.undated_time_io)
  /\ ReadVar_any Sample.fmiss Sample.undated_time_io "time@MetaData"
       (repeat any_empty 5)
     = Raised (AssertionFailed "time_.size() == dist_->size()")
  /\ ReadVar_any Sample.fmiss Sample.undated_time_io "date@MetaData"
       (repeat any_empty 5)
     = Raised (AssertionFailed "date_.size() == dist_->size()").
Proof.
  split; [reflexivity |].
  split; [exact undated_time_io_constructed |].
  split; [simpl; tauto |].
  split; [simpl; tauto |].
  split; reflexivity.
Qed.

(** ** The records CreateFromFile loads *)

(** The number of locations of a new object is the number of its owned
    indices, when the constructor is given no number of locations (as by
    CreateFromFile). *)
Lemma new_nlocs_owned (be : Backend) (u : Indeterminate) (FileName FileMode : string)
    (bgn end_ : DateTime) (comm : Comm) (Nobs Nrecs Nvars : nat) (io : NetcdfIO) :
  NetcdfIO_new be u FileName FileMode bgn end_ comm 0 Nobs Nrecs Nvars = Returned io ->
  nlocs io = dist_size (dist_ io).
Proof.
  intros Hnew. destruct (String.eqb FileMode "r") eqn:Hmode.
  - apply String.eqb_eq in Hmode. subst FileMode.
    apply reader_state in Hnew. destruct Hnew as (f & _ & _ & _ & Hnl & _). exact Hnl.
  - unfold NetcdfIO_new in Hnew. rewrite Hmode in Hnew.
    apply bind_Returned in Hnew. destruct Hnew as (f & _ & Hnew).
    injection Hnew as <-. unfold construct_write.
    destruct (nc_def_dim f "nlocs" 0) as [r1 f1].
    destruct (nc_def_dim f1 "nobs" Nobs) as [r2 f2].
    destruct (nc_def_dim f2 "nrecs" Nrecs) as [r3 f3].
    destruct (nc_def_dim f3 "nvars" Nvars) as [r4 f4].
    reflexivity.
Qed.

Lemma has_insert (r : Database.Record_) (l : list Database.Record_) (g v : string) :
  existsb (Database.same_key g v) (Database.insert r l)
  = existsb (Database.same_key g v) l
    || (Database.same_key g v r
        && negb (existsb (Database.same_key (Database.group r) (Database.variable r)) l)).
Proof.
  unfold Database.insert.
  destruct (existsb (Database.same_key (Database.group r) (Database.variable r)) l)
    eqn:Hex.
  - now rewrite andb_false_r, orb_false_r.
  - rewrite existsb_app. simpl. now rewrite orb_false_r, andb_true_r.
Qed.

Lemma same_key_sym (r : Database.Record_) (g v : string) :
  Database.same_key g v r = true -> g = Database.group r /\ v = Database.variable r.
Proof.
  unfold Database.same_key. intros H. apply andb_true_iff in H.
  destruct H as [Hg Hv]. apply String.eqb_eq in Hg, Hv. auto.
Qed.

Lemma has_inserted (r : Database.Record_) (l : list Database.Record_) :
  existsb (Database.same_key (Database.group r) (Database.variable r))
    (Database.insert r l) = true.
Proof.
  rewrite has_insert.
  destruct (existsb _ l); [reflexivity |]. simpl.
  unfold Database.same_key. now rewrite !String.eqb_refl.
Qed.

Lemma In_insert (r x : Database.Record_) (l : list Database.Record_) :
  In x (Database.insert r l) -> In x l \/ x = r.
Proof.
  unfold Database.insert. destruct (existsb _ l); [auto |].
  intros H. apply in_app_or in H. destruct H as [H | [H | []]]; auto.
Qed.

Lemma insert_keeps (r : Database.Record_) (l : list Database.Record_) :
  exists new, Database.insert r l = l ++ new.
Proof.
  unfold Database.insert. destruct (existsb _ l).
  - exists []. now rewrite app_nil_r.
  - now exists [r].
Qed.

Lemma load_variables_spec (fmiss : spec_float) (fileio : NetcdfIO)
    (vl : list (string * string)) (db db' : list Database.Record_) :
  nlocs fileio = dist_size (dist_ fileio) ->
  Database.load_variables fmiss fileio vl db = Returned db' ->
  (exists new, db' = db ++ new)
  /\ (forall g v, existsb (Database.same_key g v) db = true ->
                  existsb (Database.same_key g v) db' = true)
  /\ (forall vg, In vg vl ->
        existsb (Database.same_key (Database.db_group vg) (fst vg)) db' = true)
  /\ (forall r, In r db' ->
        In r db
        \/ (Database.mode r = "r"
            /\ Database.size r = nlocs fileio
            /\ List.length (Database.data r) = nlocs fileio
            /\ exists vg, In vg vl
                 /\ Database.group r = Database.db_group vg
                 /\ Database.variable r = fst vg)).
Proof.
  intros Hn. revert db. induction vl as [| vg rest IH]; intros db; simpl.
  - intros H. injection H as <-. split; [exists []; now rewrite app_nil_r |].
    split; [auto |]. split; [contradiction | auto].
  - destruct (ReadVar_any fmiss fileio (Database.db_name vg)
                (repeat any_empty (nlocs fileio))) as [vect | e | msg | what] eqn:Hread;
      simpl; [| discriminate | discriminate | discriminate].
    intros Hload. apply IH in Hload.
    destruct Hload as ((new & Hnew) & Hhas & Hlisted & Hrec).
    set (rec := Database.mkRecord (Database.db_group vg) (fst vg) "r" (nlocs fileio) vect)
      in *.
    assert (Hlen : List.length vect = nlocs fileio).
    { destruct (ReadVar_any_shape _ _ _ _ _ Hread) as [-> | (written & Hw & ->)].
      - apply repeat_length.
      - rewrite (proj1 (assign_front_frame written (repeat any_empty (nlocs fileio))
                          ltac:(rewrite repeat_length; lia))).
        apply repeat_length. }
    split; [| split; [| split]].
    + destruct (insert_keeps rec db) as (new' & Hnew').
      exists (new' ++ new). rewrite Hnew, Hnew'. now rewrite app_assoc.
    + intros g v Hgv. apply Hhas. rewrite has_insert, Hgv. reflexivity.
    + intros vg' [<- | Hin]; [| now apply Hlisted].
      apply Hhas. exact (has_inserted rec db).
    + intros r Hr. destruct (Hrec r Hr) as [Hin | (Hm & Hs & Hl & vg' & Hvg' & Hg & Hv)].
      * apply In_insert in Hin. destruct Hin as [Hin | ->]; [now left |].
        right. repeat split; try assumption. exists vg. repeat split. now left.
      * right. repeat split; try assumption. exists vg'. repeat split; auto.
Qed.

(** What CreateFromFile leaves in the container: the sizes of the reader;
    the records that were there, at the front and as they were; a record
    for every entry of the variable list of the file, under the group of
    the entry or under GroupUndefined; and every other record is read-only
    and has one cell for each location of the reader. *)
Theorem CreateFromFile_records (be : Backend) (u : Indeterminate) (fmiss : spec_float)
    (c c' : Database.ObsSpaceContainer) (filename mode : string) (bgn end_ : DateTime)
    (commMPI : Comm) :
  Database.CreateFromFile be u fmiss c filename mode bgn end_ commMPI = Returned c' ->
  exists fileio,
    NetcdfIO_new be u filename mode bgn end_ commMPI 0 0 0 0 = Returned fileio
    /\ Database.c_nlocs_ c' = nlocs fileio
    /\ Database.c_nvars_ c' = nvars fileio
    /\ (exists new, Database.DataContainer c' = Database.DataContainer c ++ new)
    /\ (forall g v, Database.has c g v = true -> Database.has c' g v = true)
    /\ (forall vg, In vg (varlist fileio) ->
          Database.has c' (Database.db_group vg) (fst vg) = true)
    /\ (forall r, In r (Database.DataContainer c') ->
          In r (Database.DataContainer c)
          \/ (Database.mode r = "r"
              /\ Database.size r = Database.c_nlocs_ c'
              /\ List.length (Database.data r) = Database.c_nlocs_ c')).
Proof.
  unfold Database.CreateFromFile. intros H.
  apply bind_Returned in H. destruct H as (fileio & Hnew & H).
  apply bind_Returned in H. destruct H as (db & Hload & H).
  injection H as <-. exists fileio. cbn [Database.c_nlocs_ Database.c_nvars_
                                        Database.DataContainer].
  unfold Database.has. cbn [Database.DataContainer].
  pose proof (new_nlocs_owned _ _ _ _ _ _ _ _ _ _ _ Hnew) as Hn.
  destruct (load_variables_spec fmiss fileio (varlist fileio) _ db Hn Hload)
    as (Hfront & Hhas & Hlisted & Hrec).
  repeat (split; [first [assumption | reflexivity] |]).
  intros r Hr. destruct (Hrec r Hr) as [Hin | (Hm & Hs & Hl & _)]; auto.
Qed.

(** The file with the variables x and t@ObsValue, loaded into an empty
    container: the container has x under GroupUndefined and t under
    ObsValue. *)
Lemma CreateFromFile_records_witness :
  exists c',
    Database.CreateFromFile (Sample.serve Sample.bare_file) Sample.u0 Sample.fmiss
      Sample.empty_db "in.nc" "r" Sample.t0000 Sample.t0030 Sample.one_rank
    = Returned c'
    /\ Database.c_nlocs_ c' = 2%nat
    /\ Database.has c' "GroupUndefined" "x" = true
    /\ Database.has c' "ObsValue" "t" = true.
Proof.
  assert (Hc : Database.CreateFromFile (Sample.serve Sample.bare_file) Sample.u0
                 Sample.fmiss Sample.empty_db "in.nc" "r" Sample.t0000 Sample.t0030
                 Sample.one_rank
               = Returned
                   (Database.mkContainer Sample.t0000 Sample.t0030 Sample.one_rank 2 1
                      [Database.mkRecord "GroupUndefined" "x" "r" 2 [any_int 7; any_int 8];
                       Database.mkRecord "ObsValue" "t" "r" 2
                         [any_float (F32.of_Z 1); any_float Sample.fmiss]]))
    by (vm_compute; reflexivity).
  eexists. split; [exact Hc |].
  destruct (CreateFromFile_records _ _ _ _ _ _ _ _ _ _ Hc)
    as (fileio & Hnew & Hn & _ & _ & _ & Hlisted & _).
  vm_compute in Hnew. injection Hnew as <-.
  split; [exact Hn |].
  split.
  - apply (Hlisted ("x", "")). simpl. auto.
  - apply (Hlisted ("t", "ObsValue")). simpl. auto.
Defined.

(** ** The file that dump writes *)

Lemma write_records_effect (recs : list Database.Record_) (io io' : NetcdfIO) :
  Database.write_records io recs = Returned io' ->
  nc_dims (ncid_ io') = nc_dims (ncid_ io)
  /\ nc_date_time (ncid_ io') = nc_date_time (ncid_ io)
  /\ nlocs io' = nlocs io
  /\ (forall name, In name (map var_name (nc_vars (ncid_ io'))) ->
        In name (map var_name (nc_vars (ncid_ io)))
        \/ In name (map Database.file_name_of recs))
  /\ (forall name, In name (map var_name (nc_vars (ncid_ io))) ->
        In name (map var_name (nc_vars (ncid_ io')))).
Proof.
  revert io. induction recs as [| r recs IH]; intros io; simpl.
  - intros H. injection H as <-. repeat split; auto.
  - destruct (WriteVar_any io (Database.file_name_of r) (Database.data r))
      as [io1 | e | msg | what] eqn:Hw; simpl; [| discriminate | discriminate | discriminate].
    intros H. apply IH in H. destruct H as (Hd & Ha & Hn & Hnames & Hkept).
    assert (Hw' : nc_dims (ncid_ io1) = nc_dims (ncid_ io)
                  /\ nc_date_time (ncid_ io1) = nc_date_time (ncid_ io)
                  /\ nlocs io1 = nlocs io
                  /\ (map var_name (nc_vars (ncid_ io1)) = map var_name (nc_vars (ncid_ io))
                      \/ map var_name (nc_vars (ncid_ io1))
                         = map var_name (nc_vars (ncid_ io)) ++ [Database.file_name_of r])).
    { destruct (WriteVar_any_cases _ _ _ _ Hw) as [-> | (empty & d & Hw1)]; [auto |].
      apply WriteVar_effect in Hw1. intuition. }
    destruct Hw' as (Hd1 & Ha1 & Hn1 & Hnames1).
    split; [congruence |]. split; [congruence |]. split; [congruence |]. split.
    + intros name Hin. destruct (Hnames name Hin) as [H1 | H2]; [| auto].
      destruct Hnames1 as [Heq | Heq]; rewrite Heq in H1; [auto |].
      apply in_app_or in H1. destruct H1 as [H1 | [<- | []]]; auto.
    + intros name Hin. apply Hkept.
      destruct Hnames1 as [Heq | Heq]; rewrite Heq; [assumption |].
      apply in_or_app. now left.
Qed.

(** The file that dump has written when it returns: the four dimensions
    nlocs, nobs, nrecs and nvars, with the sizes of the container for nlocs
    and nvars and 0 for the two others; no reference date, so that a reader
    of the file filters no location by time; and no variable but the
    records of the container, under the names variable@group. *)
Theorem dump_file_shape (be : Backend) (u : Indeterminate)
    (c : Database.ObsSpaceContainer) (file_name : string) (io : NetcdfIO) :
  Database.dump be u c file_name = Returned io ->
  nc_dims (ncid_ io)
  = [("nlocs", Database.c_nlocs_ c); ("nobs", 0%nat); ("nrecs", 0%nat);
     ("nvars", Database.c_nvars_ c)]
  /\ nc_date_time (ncid_ io) = None
  /\ nlocs io = Database.c_nlocs_ c
  /\ forall name, In name (map var_name (nc_vars (ncid_ io))) ->
       exists r, In r (Database.DataContainer c) /\ name = Database.file_name_of r.
Proof.
  unfold Database.dump. intros H.
  apply bind_Returned in H. destruct H as (w & Hnew & Hwr).
  assert (Hw : w = construct_write u empty_file file_name "W"
                     (Database.c_nlocs_ c) 0 0 (Database.c_nvars_ c)).
  { unfold NetcdfIO_new, open_file in Hnew. simpl in Hnew. unfold created in Hnew.
    destruct (nc_create be file_name true =? NC_NOERR); simpl in Hnew;
      [| discriminate].
    now injection Hnew as <-. }
  apply write_records_effect in Hwr. destruct Hwr as (Hd & Ha & Hn & Hnames & _).
  rewrite Hd, Ha, Hn, Hw. repeat split.
  intros name Hin. destruct (Hnames name Hin) as [H1 | H2].
  - rewrite Hw in H1. contradiction.
  - apply in_map_iff in H2. destruct H2 as (r & <- & Hr).
    exists r. split; [| reflexivity].
    apply (Permutation_in r (by_variable_perm (Database.DataContainer c))).
    exact Hr.
Qed.

(** The container with three records of two locations, saved. *)
Lemma dump_file_shape_witness :
  exists io,
    Database.dump (Sample.serve empty_file) Sample.u0 Sample.small_db "out.nc"
    = Returned io
    /\ nc_dims (ncid_ io)
       = [("nlocs", 2%nat); ("nobs", 0%nat); ("nrecs", 0%nat); ("nvars", 1%nat)]
    /\ nc_date_time (ncid_ io) = None.
Proof.
  destruct (Database.dump (Sample.serve empty_file) Sample.u0 Sample.small_db "out.nc")
    as [io | e | msg | what] eqn:Hdump; [| vm_compute in Hdump; discriminate Hdump ..].
  exists io. split; [reflexivity |].
  destruct (dump_file_shape _ _ _ _ _ Hdump) as (Hd & Ha & _).
  split; [exact Hd | exact Ha].
Defined.

(** ** The member functions of ObsSpace *)

Ltac by_obs_name s name :=
  let E := fresh "E" in
  destruct (String.eqb_spec s name) as [E | E];
  [rewrite E; repeat split; try reflexivity;
   intros H; try discriminate H; exfalso; apply H; simpl; tauto |].

(** Every member function of an ObsSpace goes to the routines of the obs
    domain whose set-up routine the constructor has called, also getdb,
    whose chain of comparisons is in another order; and for a name that is
    not recognized none of them calls a routine: getdb leaves keyData as it
    was, and locations and nobs use their local variable as it was. *)
Theorem member_functions_follow_the_constructor (config : Configuration)
    (bgn end_ : DateTime) (os : ObsSpace)
    (get_f90 : ObsDomain -> string -> Z)
    (getlocations_f90 : ObsDomain -> DateTime -> DateTime -> Z)
    (nobs_f90 : ObsDomain -> Z)
    (col : string) (t1 t2 : DateTime) (keyData keylocs n : Z) :
  ObsSpace_new config bgn end_ = Returned os ->
  ObsSpace_delete os = option_map delete_f90 (setup_ os)
  /\ generateDistribution os = option_map generate_f90 (setup_ os)
  /\ getdb get_f90 os col keyData
     = match setup_ os with Some d => get_f90 d col | None => keyData end
  /\ locations getlocations_f90 os t1 t2 keylocs
     = match setup_ os with Some d => getlocations_f90 d t1 t2 | None => keylocs end
  /\ nobs nobs_f90 os n
     = match setup_ os with Some d => nobs_f90 d | None => n end
  /\ (setup_ os = None <-> ~ In (ObsType config) recognized_obs_types).
Proof.
  unfold ObsSpace_new. intros Hos. injection Hos as <-.
  unfold ObsSpace_delete, generateDistribution, getdb, locations, nobs, obs_domain.
  cbn [obsname_ setup_].
  generalize (ObsType config) as s. intros s.
  by_obs_name s "Radiance".
  by_obs_name s "Radiosonde".
  by_obs_name s "SeaIceFraction".
  by_obs_name s "StericHeight".
  by_obs_name s "SeaIceThickness".
  by_obs_name s "Aod".
  repeat split; try reflexivity.
  intros _ Hin. simpl in Hin. intuition congruence.
Qed.

(** An ObsSpace for StericHeight: getdb goes to the routine of
    StericHeight. *)
Lemma member_functions_witness :
  getdb (fun d _ => match d with StericHeight => 1 | _ => 0 end)
    (mkObsSpace "StericHeight" Sample.t0000 Sample.t0030 (Some StericHeight)) "lat" 7
  = 1.
Proof.
  exact (proj1 (proj2 (proj2
           (member_functions_follow_the_constructor (mkConfiguration "StericHeight")
              Sample.t0000 Sample.t0030
              (mkObsSpace "StericHeight" Sample.t0000 Sample.t0030 (Some StericHeight))
              (fun d _ => match d with StericHeight => 1 | _ => 0 end)
              (fun _ _ _ => 0) (fun _ => 0) "lat" Sample.t0000 Sample.t0030 7 0 0
              eq_refl)))).
Defined.

(** ** ObsIo::isVarDimByNlocs *)

Lemma scan_dims_absent (m : list (string * list string)) (varName : string) (b : bool) :
  ~ In varName (map fst m) -> ObsIo.scan_dims m varName b = Some b.
Proof.
  revert b. induction m as [| ivar m IH]; intros b Hn; simpl; [reflexivity |].
  destruct (String.eqb_spec (fst ivar) varName) as [E | E].
  - exfalso. apply Hn. simpl. now left.
  - apply IH. intros Hin. apply Hn. simpl. now right.
Qed.

Lemma scan_dims_present (m : list (string * list string)) (varName : string)
    (dims : list string) (b : bool) :
  NoDup (map fst m) -> In (varName, dims) m ->
  ObsIo.scan_dims m varName b
  = match dims with
    | [] => None
    | d :: _ => Some (if String.eqb d "nlocs" then true else b)
    end.
Proof.
  revert b. induction m as [| ivar m IH]; intros b Hnd Hin; simpl; [contradiction |].
  inversion Hnd as [| k l Hnotin Hnd']; subst.
  destruct Hin as [-> | Hin].
  - simpl. rewrite String.eqb_refl. destruct dims as [| d rest]; [reflexivity |].
    now apply scan_dims_absent.
  - destruct (String.eqb_spec (fst ivar) varName) as [E | E].
    + exfalso. apply Hnotin. rewrite E.
      change varName with (fst (varName, dims)). now apply in_map.
    + now apply IH.
Qed.

(** isVarDimByNlocs answers false for a variable that the map of dimensions
    does not hold; for a variable of the map (whose keys are distinct) it
    tells whether the first dimension of the variable is "nlocs"; and it
    has no answer for a variable of the map with no dimension, where the
    code reads the first element of an empty vector. *)
Theorem isVarDimByNlocs_first_dimension (m : list (string * list string))
    (varName : string) :
  (~ In varName (map fst m) -> ObsIo.isVarDimByNlocs m varName = Some false)
  /\ (NoDup (map fst m) ->
      forall dims, In (varName, dims) m ->
        ObsIo.isVarDimByNlocs m varName
        = match dims with
          | [] => None
          | d :: _ => Some (String.eqb d "nlocs")
          end).
Proof.
  unfold ObsIo.isVarDimByNlocs. split.
  - apply scan_dims_absent.
  - intros Hnd dims Hin. rewrite (scan_dims_present m varName dims false Hnd Hin).
    destruct dims as [| d rest]; [reflexivity |]. now destruct (String.eqb d "nlocs").
Qed.

(** A variable on nlocs and a variable on nchans and nlocs. *)
Lemma isVarDimByNlocs_witness :
  ObsIo.isVarDimByNlocs
    [("air_temperature", ["nlocs"]); ("brightness", ["nchans"; "nlocs"])] "brightness"
  = Some false
  /\ ObsIo.isVarDimByNlocs
       [("air_temperature", ["nlocs"]); ("brightness", ["nchans"; "nlocs"])] "latitude"
     = Some false.
Proof.
  split.
  - refine (proj2 (isVarDimByNlocs_first_dimension
                     [("air_temperature", ["nlocs"]); ("brightness", ["nchans"; "nlocs"])]
                     "brightness") _ ["nchans"; "nlocs"] _).
    + simpl. repeat constructor; simpl; intuition discriminate.
    + simpl. auto.
  - refine (proj1 (isVarDimByNlocs_first_dimension
                     [("air_temperature", ["nlocs"]); ("brightness", ["nchans"; "nlocs"])]
                     "latitude") _).
    simpl. intuition discriminate.
Defined.

(** ** [trim] *)

Lemma only_newlines_first (s : string) :
  only_newlines s = true <-> find_first_not_of newline s = None.
Proof.
  induction s as [| a s IH]; simpl; [tauto |].
  destruct (Ascii.eqb a newline); simpl.
  - rewrite IH. destruct (find_first_not_of newline s); simpl; split; congruence.
  - split; discriminate.
Qed.

Lemma only_newlines_last (s : string) :
  only_newlines s = true <-> find_last_not_of newline s = None.
Proof.
  induction s as [| a s IH]; simpl; [tauto |].
  destruct (find_last_not_of newline s).
  - rewrite andb_true_iff, IH. split; [intros [_ H]; discriminate H | discriminate].
  - destruct (Ascii.eqb a newline); simpl; [tauto | split; discriminate].
Qed.

Lemma only_newlines_app (s t : string) :
  only_newlines (String.append s t) = only_newlines s && only_newlines t.
Proof.
  induction s as [| a s IH]; simpl; [reflexivity |].
  now rewrite IH, andb_assoc.
Qed.

Lemma substring_0_0 (s : string) : substring 0 0 s = "".
Proof. destruct s; reflexivity. Qed.

Lemma trim_cons_newline (s : string) : trim (String newline s) = trim s.
Proof.
  unfold trim. cbn [find_first_not_of find_last_not_of]. rewrite Ascii.eqb_refl.
  destruct (find_first_not_of newline s) as [b |]; [| reflexivity].
  cbn [option_map].
  destruct (find_last_not_of newline s) as [k |]; reflexivity.
Qed.

Lemma trim_cons_other (a : ascii) (s : string) :
  a <> newline -> trim (String a s) = String a (up_to_last s).
Proof.
  intros Ha. apply Ascii.eqb_neq in Ha.
  unfold trim, up_to_last. cbn [find_first_not_of find_last_not_of]. rewrite Ha.
  destruct (find_last_not_of newline s) as [k |].
  - cbn [Nat.sub]. rewrite Nat.add_1_r. cbn [substring]. now rewrite Nat.add_1_r.
  - simpl. now rewrite substring_0_0.
Qed.

Lemma up_to_last_cons (a : ascii) (s : string) :
  up_to_last (String a s)
  = match find_last_not_of newline s with
    | Some _ => String a (up_to_last s)
    | None => if Ascii.eqb a newline then "" else String a ""
    end.
Proof.
  unfold up_to_last. cbn [find_last_not_of].
  destruct (find_last_not_of newline s) as [k |].
  - reflexivity.
  - destruct (Ascii.eqb a newline); [reflexivity |]. simpl. now rewrite substring_0_0.
Qed.

Lemma up_to_last_split (s : string) :
  exists post, only_newlines post = true /\ s = String.append (up_to_last s) post.
Proof.
  induction s as [| a s (post & Hpost & Hs)].
  - exists "". split; reflexivity.
  - rewrite up_to_last_cons.
    destruct (find_last_not_of newline s) as [k |] eqn:Hl.
    + exists post. split; [assumption |]. simpl. now rewrite <- Hs.
    + apply only_newlines_last in Hl.
      destruct (Ascii.eqb a newline) eqn:Ha.
      * exists (String a s). split; [| reflexivity]. simpl. now rewrite Ha, Hl.
      * exists s. split; [assumption | reflexivity].
Qed.

Lemma find_last_app_newlines (s post : string) :
  only_newlines post = true ->
  find_last_not_of newline (String.append s post) = find_last_not_of newline s.
Proof.
  intros Hpost. induction s as [| a s IH]; simpl.
  - now apply only_newlines_last.
  - now rewrite IH.
Qed.

Lemma up_to_last_app_newlines (s post : string) :
  only_newlines post = true ->
  up_to_last (String.append s post) = up_to_last s.
Proof.
  intros Hpost. induction s as [| a s IH].
  - simpl. unfold up_to_last.
    now rewrite (proj1 (only_newlines_last post) Hpost).
  - cbn [String.append]. rewrite !up_to_last_cons.
    rewrite (find_last_app_newlines s post Hpost), IH. reflexivity.
Qed.

Lemma trim_only_newlines (s : string) : only_newlines s = true -> trim s = "".
Proof.
  intros H. unfold trim. now rewrite (proj1 (only_newlines_first s) H).
Qed.

Lemma trim_app_newlines (s post : string) :
  only_newlines post = true -> trim (String.append s post) = trim s.
Proof.
  intros Hpost. induction s as [| a s IH].
  - simpl. now apply trim_only_newlines.
  - cbn [String.append]. destruct (Ascii.eqb_spec a newline) as [-> | Ha].
    + now rewrite !trim_cons_newline.
    + rewrite !trim_cons_other by assumption.
      now rewrite up_to_last_app_newlines.
Qed.

Lemma trim_newlines_app (pre s : string) :
  only_newlines pre = true -> trim (String.append pre s) = trim s.
Proof.
  induction pre as [| a pre IH]; simpl; [reflexivity |].
  intros H. apply andb_true_iff in H. destruct H as [Ha Hpre].
  apply Ascii.eqb_eq in Ha. subst a. rewrite trim_cons_newline. now apply IH.
Qed.

Lemma trim_split (s : string) :
  exists pre post,
    only_newlines pre = true /\ only_newlines post = true
    /\ s = String.append pre (String.append (trim s) post).
Proof.
  induction s as [| a s (pre & post & Hpre & Hpost & Hs)].
  - exists "", "". repeat split.
  - destruct (Ascii.eqb_spec a newline) as [-> | Ha].
    + rewrite trim_cons_newline. exists (String newline pre), post.
      split; [simpl; now rewrite Hpre |]. split; [assumption |].
      simpl. now rewrite <- Hs.
    + rewrite trim_cons_other by assumption.
      destruct (up_to_last_split s) as (post' & Hpost' & Hs').
      exists "", post'. split; [reflexivity |]. split; [assumption |].
      simpl. now rewrite <- Hs'.
Qed.

(** trim takes the newlines off the two ends of a string and nothing else:
    the string is the result between two runs of newlines; the result is
    the same for two strings that differ by newlines at their ends only;
    trimming twice is trimming once; and the result is empty exactly for a
    string of newlines. *)
Theorem trim_strips_the_ends (s : string) :
  (exists pre post,
      only_newlines pre = true /\ only_newlines post = true
      /\ s = String.append pre (String.append (trim s) post))
  /\ (forall pre post,
        only_newlines pre = true -> only_newlines post = true ->
        trim (String.append pre (String.append s post)) = trim s)
  /\ trim (trim s) = trim s
  /\ (trim s = "" <-> only_newlines s = true).
Proof.
  assert (Hinv : forall t pre post,
             only_newlines pre = true -> only_newlines post = true ->
             trim (String.append pre (String.append t post)) = trim t).
  { intros t pre post Hpre Hpost.
    rewrite (trim_newlines_app pre _ Hpre). now apply trim_app_newlines. }
  destruct (trim_split s) as (pre & post & Hpre & Hpost & Hs).
  split; [now exists pre, post |]. split; [apply Hinv |]. split.
  - rewrite <- (Hinv (trim s) pre post Hpre Hpost). now rewrite <- Hs.
  - split; [| apply trim_only_newlines].
    intros He. rewrite Hs, He. simpl.
    rewrite only_newlines_app, Hpre, Hpost. reflexivity.
Qed.

(** A printed vector between newlines. *)
Lemma trim_witness :
  trim (String.append (String newline "")
          (String.append "1 2 3" (String newline (String newline ""))))
  = trim "1 2 3".
Proof.
  apply (proj1 (proj2 (trim_strips_the_ends "1 2 3"))); reflexivity.
Defined.

(** ** The sizes of a file in the new format *)

(** For a file with the dimension [nrecs] the reader takes its sizes from
    the file: the number of locations of the file, of observations, of
    records and of variables are the lengths of the dimensions nlocs, nobs,
    nrecs and nvars, whatever the sizes handed to the constructor. *)
Theorem new_format_sizes (be : Backend) (u : Indeterminate)
    (FileName : string) (bgn end_ : DateTime) (comm : Comm)
    (Nlocs Nobs Nrecs Nvars : nat) (io : NetcdfIO) :
  NetcdfIO_new be u FileName "r" bgn end_ comm Nlocs Nobs Nrecs Nvars = Returned io ->
  dim_length (ncid_ io) "nrecs" <> None ->
  (forall n, dim_length (ncid_ io) "nlocs" = Some n -> nfvlen_ io = n)
  /\ (forall n, dim_length (ncid_ io) "nobs" = Some n -> nobs_ io = n)
  /\ (forall n, dim_length (ncid_ io) "nrecs" = Some n -> nrecs_ io = n)
  /\ (forall n, dim_length (ncid_ io) "nvars" = Some n -> nvars_ io = n).
Proof.
  intros Hnew.
  apply NetcdfIO_new_read in Hnew. destruct Hnew as (f & sz & w & _ & Hsz & _ & Hio).
  assert (Hf : ncid_ io = f) by (rewrite Hio; reflexivity).
  rewrite Hf. intros Hnrecs.
  assert (exists nr, dim_length f "nrecs" = Some nr) as [nr Hnr]
    by (destruct (dim_length f "nrecs"); [eauto | contradiction]).
  clear Hnrecs.
  destruct (dim_present f "nrecs" nr Hnr) as (idr & Hidr & Hlenr).
  assert (Hsz' : sz
                 = mkSizes
                     (output (nc_inq_dimlen f (d_nlocs_id (inquire_dims u f))) (u_nfvlen u))
                     (output (nc_inq_dimlen f (d_nobs_id (inquire_dims u f))) Nobs)
                     (output (nc_inq_dimlen f (d_nrecs_id (inquire_dims u f))) Nrecs)
                     (output (nc_inq_dimlen f (d_nvars_id (inquire_dims u f))) Nvars)).
  { unfold read_sizes in Hsz. unfold inquire_dims in Hsz at 1. simpl in Hsz.
    rewrite Hidr in Hsz. simpl in Hsz. injection Hsz as <-.
    unfold inquire_dims. simpl. now rewrite Hidr. }
  assert (Hnf : nfvlen_ io = s_nfvlen sz) by (rewrite Hio; reflexivity).
  assert (Hnobs : nobs_ io = s_nobs sz) by (rewrite Hio; reflexivity).
  assert (Hnrecs : nrecs_ io = s_nrecs sz) by (rewrite Hio; reflexivity).
  assert (Hnvars : nvars_ io = s_nvars sz) by (rewrite Hio; reflexivity).
  clear Hio. rewrite Hnf, Hnobs, Hnrecs, Hnvars, Hsz'. cbn [s_nfvlen s_nobs s_nrecs s_nvars].
  repeat split; intros n Hn; apply dim_present in Hn; destruct Hn as (id & Hdid & Hlen);
    unfold inquire_dims; simpl; rewrite Hdid; simpl; now rewrite Hlen.
Qed.

(** The time-filter scenario: five locations in the file, whatever the
    constructor is told. *)
Lemma new_format_sizes_witness :
  nfvlen_ Sample.window_io = 5%nat /\ nvars_ Sample.window_io = 1%nat.
Proof.
  destruct (new_format_sizes (Sample.serve Sample.window_file) Sample.u0 "obs.nc"
              Sample.t0000 Sample.t0030 Sample.one_rank 0 0 0 0 Sample.window_io
              window_io_constructed ltac:(discriminate)) as (Hl & _ & _ & Hv).
  split; [apply Hl | apply Hv]; reflexivity.
Defined.

(** ** A variable that the file does not have *)

(** ReadVar_any for a name that does not begin with "date" or "time" and
    that no variable of the file has: execution is aborted with the message
    that the dataset was not found; the array of the caller is not
    returned. *)
Theorem ReadVar_any_missing_variable (fmiss : spec_float) (io : NetcdfIO)
    (VarName : string) (VarData : list any) :
  starts_with "date" VarName = false ->
  starts_with "time" VarName = false ->
  ~ In VarName (map var_name (nc_vars (ncid_ io))) ->
  ReadVar_any fmiss io VarName VarData
  = Aborted (String.append "NetcdfIO::ReadVar_any: Netcdf dataset not found: " VarName).
Proof.
  intros Hd Ht Hn. unfold ReadVar_any. rewrite Hd, Ht.
  rewrite (varid_absent _ _ Hn). reflexivity.
Qed.

(** The variable x of the group ObsError, which the file of the time-filter
    scenario does not have. *)
Lemma ReadVar_any_missing_variable_witness :
  ReadVar_any Sample.fmiss Sample.window_io "x@ObsError" [any_empty]
  = Aborted "NetcdfIO::ReadVar_any: Netcdf dataset not found: x@ObsError".
Proof.
  apply (ReadVar_any_missing_variable Sample.fmiss Sample.window_io "x@ObsError"
           [any_empty]).
  - reflexivity.
  - reflexivity.
  - simpl. intuition discriminate.
Defined.
